(** * Mission controller of the bottle-picking robot (controller1.py)

    A shallow embedding of [Controller1]: the node's attributes are a
    record, every callback is a function on that record, the four ROS
    publishers are one chronological trace, and the node's timers are an
    explicit list of live timers.  Python exceptions are results of an
    error type; functions of [robottle_utils] (map analysis, planner,
    vision, lidar helpers) are fields of a record of collaborators. *)

From Stdlib Require Import ZArith QArith Qabs Qround List String Bool Lia.
Import ListNotations.
From Stdlib Require Import Lqa.
Local Open Scope Z_scope.

(** ** Enumerations *)

(** The [*_MODE] string constants. *)
Inductive MissionState : Type :=
| INITIAL_ROTATION_MODE
| TRAVEL_MODE
| RANDOM_SEARCH_MODE
| BOTTLE_PICKING_MODE
| BOTTLE_RELEASE_MODE
| BOTTLE_REACHING_MODE
| KICK_ASS_MODE
| RECOVERY_SLAM
| RECOVERY_ROTATION.

(** The [TIMER_STATE_*] string constants "0" .. "7". *)
Inductive TimerState : Type :=
| TIMER_STATE_OFF
| TIMER_STATE_ON_TRAVEL_MODE
| TIMER_STATE_ON_RANDOM_SEARCH_BOTTLE_ALIGNMENT
| TIMER_STATE_ON_RANDOM_SEARCH_DELTA_ROTATION
| TIMER_STATE_ON_BOTTLE_RELEASE
| TIMER_STATE_ON_NO_ROTATION
| TIMER_STATE_ON_KICK_ASS_MODE
| TIMER_STATE_ON_TRAVEL_MODE_END.

Inductive DetectnetState : Type := DETECTNET_ON | DETECTNET_OFF.

Definition TimerState_eqb (a b : TimerState) : bool :=
  match a, b with
  | TIMER_STATE_OFF, TIMER_STATE_OFF
  | TIMER_STATE_ON_TRAVEL_MODE, TIMER_STATE_ON_TRAVEL_MODE
  | TIMER_STATE_ON_RANDOM_SEARCH_BOTTLE_ALIGNMENT,
    TIMER_STATE_ON_RANDOM_SEARCH_BOTTLE_ALIGNMENT
  | TIMER_STATE_ON_RANDOM_SEARCH_DELTA_ROTATION,
    TIMER_STATE_ON_RANDOM_SEARCH_DELTA_ROTATION
  | TIMER_STATE_ON_BOTTLE_RELEASE, TIMER_STATE_ON_BOTTLE_RELEASE
  | TIMER_STATE_ON_NO_ROTATION, TIMER_STATE_ON_NO_ROTATION
  | TIMER_STATE_ON_KICK_ASS_MODE, TIMER_STATE_ON_KICK_ASS_MODE
  | TIMER_STATE_ON_TRAVEL_MODE_END, TIMER_STATE_ON_TRAVEL_MODE_END => true
  | _, _ => false
  end.

(** The publishers of the node: [uart_publisher], [cam_publisher],
    [camera_flip_topic] and [slam_control_publisher]. *)
Inductive Topic : Type :=
| uart_commands
| camera_control
| flip_topic
| slam_control.

(** Python exceptions a callback can end with. *)
Inductive Exn : Type :=
| IndexError
| AttributeError
| ValueError
| TypeError
| RuntimeError
| ZeroDivisionError.

(** Which bound method a timer calls when it fires. *)
Inductive TimerKind : Type :=
| rotation_timer_callback_kind
| detection_timer_callback_kind.

Record Timer : Type := mkTimer {
  timer_id : nat;
  timer_kind : TimerKind;
  timer_period : Q
}.

(** ** Hyperparameters *)

Definition AREA_THRESHOLD : Q := 110000.
Definition MIN_DIST_TO_GOAL : Q := 25.
Definition MIN_DIST_TO_RECYCLING : Q := 12.
Definition MIN_DIST_TO_POINT : Q := 2 # 10.
Definition CONTROLLER_TIME_CONSTANT : Z := 30.
Definition MIN_ANGLE_DIFF : Q := 15.
Definition TARGETS_TO_VISIT : list Z := [3; 1; 0; 2; 4; 0; 5; 6; 0].
Definition DELTA_RANDOM_SEARCH : Q := 40.
Definition TIME_FOR_VISION_DETECTION : Q := 11 # 10.
Definition MAX_BOTTLE_PICKED : Z := 5.
Definition N_RANDOM_SEARCH_MAX : Z := 11.

(** ** Numbers, sequences and messages *)

(** Python numbers that are floats in the source are rationals here; the
    comparisons of the source become the boolean tests below. *)
Definition Qltb (a b : Q) : bool := negb (Qle_bool b a).

(** [a % 360] on a float.  CPython computes [mod = fmod(a, 360.0)], which
    is exact and has the sign of [a], and adds [360.0] to a negative
    [mod]; that sum is rounded to the nearest double, so that a tiny
    negative [a] gives [360.0] itself.  A double has 53 significant bits;
    the sums rounded here lie strictly between 0 and 360, where the
    exponent range of a double plays no part.  Headings are finite
    numbers: there is no NaN and no infinity. *)

(** [2 ** k] *)
Definition pow2 (k : Z) : Q :=
  if 0 <=? k then inject_Z (2 ^ k) else / inject_Z (2 ^ (- k)).

(** The exponent of a positive number: [2 ** e <= q < 2 ** (e + 1)]. *)
Definition exponent (q : Q) : Z :=
  if Qle_bool 1 q then Z.log2 (Qfloor q)
  else - Z.log2_up (Qceiling (/ q)).

(** The nearest integer, a tie going to the even one. *)
Definition round_half_even (q : Q) : Z :=
  let f := Qfloor q in
  let r := (q - inject_Z f)%Q in
  if Qltb r (1 # 2) then f
  else if Qltb (1 # 2) r then f + 1
  else if Z.even f then f else f + 1.

(** The double nearest to a positive number. *)
Definition round_double (q : Q) : Q :=
  let ulp := pow2 (exponent q - 52) in
  (inject_Z (round_half_even (q / ulp)) * ulp)%Q.

(** C's [fmod(a, 360.0)]. *)
Definition fmod360 (a : Q) : Q :=
  let n := if Qltb a 0 then Qceiling (a / 360) else Qfloor (a / 360) in
  (a - 360 * inject_Z n)%Q.

Definition Qmod360 (a : Q) : Q :=
  let m := fmod360 a in
  if Qltb m 0 then round_double (m + 360) else m.

(** A point (numpy row): grid positions, zone corners, waypoints. *)
Definition Vec : Type := list Q.

(** [l[i]] with Python's negative indices; [None] is IndexError. *)
Definition py_index {A : Type} (l : list A) (i : Z) : option A :=
  let n := Z.of_nat (List.length l) in
  if (0 <=? i) && (i <? n) then nth_error l (Z.to_nat i)
  else if (i <? 0) && (0 <=? i + n) then nth_error l (Z.to_nat (i + n))
  else None.

(** [self.path] is [np.array(...)] of the planner's result, or the list
    literal [[]] after a goal is reached.  [np.array(None)], built when
    the planner returns no path, is a 0-d array. *)
Inductive Path : Type :=
| PyList (rows : list Vec)
| NdArray (rows : list Vec)
| NdScalarNone.

Definition path_rows (p : Path) : list Vec :=
  match p with
  | PyList l | NdArray l => l
  | NdScalarNone => []
  end.

(** [len(p)]: a 0-d array has no length (TypeError). *)
Definition path_len (p : Path) : option nat :=
  match p with
  | PyList l | NdArray l => Some (List.length l)
  | NdScalarNone => None
  end.

(** [del p[-1]]: lists drop their last element, numpy arrays refuse item
    deletion (ValueError: cannot delete array elements). *)
Definition path_del_last (p : Path) : Exn + Path :=
  match p with
  | PyList [] => inl IndexError
  | PyList l => inr (PyList (removelast l))
  | NdArray _ => inl ValueError
  | NdScalarNone => inl ValueError
  end.

(** One entry of [self.detections]:
    (center x, center y, size x, size y, is_flipped). *)
Definition DetTuple : Type := (Q * Q * Q * Q * bool)%type.

(** The fields of a [Detection2D] the controller reads. *)
Record Detection2D : Type := mkDetection2D {
  bbox_center_x : Q;
  bbox_center_y : Q;
  bbox_size_x : Q;
  bbox_size_y : Q;
  source_img_height : Z;
  source_img_width : Z
}.

Record Detection2DArray : Type := mkDetection2DArray {
  msg_detections : list Detection2D
}.

Record Position : Type := mkPosition {
  pos_x : Q;
  pos_y : Q;
  pos_theta : Q
}.

Record LidarData : Type := mkLidarData {
  distances : list Q;
  angles : list Q
}.

(** The keyword argument [lidar_callback] passes to
    [lidar_utils.check_obstacle_ahead]. *)
Inductive ObstacleCheck : Type :=
| threshold_low (d : Q)
| length_to_check (d : Q).

(** ** Collaborators

    The functions of [robottle_utils] the controller calls.  They are not
    part of the controller; every definition below takes them as given. *)
Class Collaborators : Type := mkCollaborators {
  MapData : Type;
  Grid : Type;
  Binary : Type;
  Corners : Type;
  Contours : Type;
  RandArea : Type;
  pos_to_gridpos : Q -> Q -> Vec;
  get_map : MapData -> Grid;
  filter_map : Grid -> Z -> Binary * Binary;
  (* [None]: the call raised, which the source catches *)
  get_bounding_rect : Binary -> option (Corners * Q * Contours);
  get_initial_zones : Corners -> Vec -> Z -> list Vec;
  get_zones_from_previous : Corners -> list Vec -> list Vec;
  are_new_zones_valid : list Vec -> list Vec -> bool;
  get_targets_from_zones : list Vec -> list Vec;
  get_random_area : list Vec -> RandArea;
  (* [RRTStar(...).planning(animation = True)] *)
  rrt_planning : Vec -> Vec -> Binary -> RandArea -> option (list Vec);
  (* [true]: the plotting [try] block ran to its end *)
  make_nice_plot :
    option (Binary * Contours * Corners) -> Vec -> Q -> list Vec ->
    list Vec -> Path -> bool;
  get_distance : Vec -> Vec -> Q;
  get_path_orientation : list Vec -> Q;
  angle_diff : Q -> Q -> Q;
  get_rotation_time : Q -> Q;
  check_obstacle_ahead : list Q -> list Q -> ObstacleCheck -> bool;
  get_best_detections : list DetTuple -> DetTuple;
  get_angle_of_detection : DetTuple -> Q
}.

Section Controller1.

Context {K : Collaborators}.

Record MapMessage : Type := mkMapMessage {
  index : Z;
  map_data : MapData
}.

(** ** The node's attributes

    [last_state], [last_theta], [rotation_asked], [detections] and
    [wait_for_detectnet_timer] are not assigned in [__init__]: [None] is
    the unset attribute, reading it is AttributeError.  [debug_view]
    stands for [binary], [contours] and [corners], assigned together.
    [timers] are the node's live timers and [published] everything
    published so far, oldest first. *)
Record Controller : Type := mkController {
  args_travel : bool;
  is_saving : bool;
  is_plotting : bool;
  SAVE_TIME_CONSTANT : Z;
  x : Q;
  y : Q;
  theta : Q;
  initial_zones_found : bool;
  zones : list Vec;
  path : Path;
  targets : list Vec;
  goal : option Vec;
  robot_pos : option Vec;
  current_target_index : Z;
  rotation_timer : option nat;
  n_random_search : Z;
  bottles_picked : Z;
  state : MissionState;
  rotation_timer_state : TimerState;
  is_traveling_forward : bool;
  has_to_find_new_path : bool;
  rotation_index : Z;
  detectnet_state : DetectnetState;
  is_flipped : bool;
  saving_index : Z;
  debug_view : option (Binary * Contours * Corners);
  last_state : option MissionState;
  last_theta : option Q;
  rotation_asked : option Q;
  detections : option (list DetTuple);
  wait_for_detectnet_timer : option nat;
  timers : list Timer;
  next_timer : nat;
  published : list (Topic * string)
}.

(** Attribute assignment [self.f = v], one setter per mutable attribute. *)
Definition set_x (v : Q) (c : Controller) : Controller :=
  mkController (args_travel c) (is_saving c) (is_plotting c) (SAVE_TIME_CONSTANT c) v (y c) (theta c) (initial_zones_found c) (zones c) (path c) (targets c) (goal c) (robot_pos c) (current_target_index c) (rotation_timer c) (n_random_search c) (bottles_picked c) (state c) (rotation_timer_state c) (is_traveling_forward c) (has_to_find_new_path c) (rotation_index c) (detectnet_state c) (is_flipped c) (saving_index c) (debug_view c) (last_state c) (last_theta c) (rotation_asked c) (detections c) (wait_for_detectnet_timer c) (timers c) (next_timer c) (published c).
Definition set_y (v : Q) (c : Controller) : Controller :=
  mkController (args_travel c) (is_saving c) (is_plotting c) (SAVE_TIME_CONSTANT c) (x c) v (theta c) (initial_zones_found c) (zones c) (path c) (targets c) (goal c) (robot_pos c) (current_target_index c) (rotation_timer c) (n_random_search c) (bottles_picked c) (state c) (rotation_timer_state c) (is_traveling_forward c) (has_to_find_new_path c) (rotation_index c) (detectnet_state c) (is_flipped c) (saving_index c) (debug_view c) (last_state c) (last_theta c) (rotation_asked c) (detections c) (wait_for_detectnet_timer c) (timers c) (next_timer c) (published c).
Definition set_theta (v : Q) (c : Controller) : Controller :=
  mkController (args_travel c) (is_saving c) (is_plotting c) (SAVE_TIME_CONSTANT c) (x c) (y c) v (initial_zones_found c) (zones c) (path c) (targets c) (goal c) (robot_pos c) (current_target_index c) (rotation_timer c) (n_random_search c) (bottles_picked c) (state c) (rotation_timer_state c) (is_traveling_forward c) (has_to_find_new_path c) (rotation_index c) (detectnet_state c) (is_flipped c) (saving_index c) (debug_view c) (last_state c) (last_theta c) (rotation_asked c) (detections c) (wait_for_detectnet_timer c) (timers c) (next_timer c) (published c).
Definition set_initial_zones_found (v : bool) (c : Controller) : Controller :=
  mkController (args_travel c) (is_saving c) (is_plotting c) (SAVE_TIME_CONSTANT c) (x c) (y c) (theta c) v (zones c) (path c) (targets c) (goal c) (robot_pos c) (current_target_index c) (rotation_timer c) (n_random_search c) (bottles_picked c) (state c) (rotation_timer_state c) (is_traveling_forward c) (has_to_find_new_path c) (rotation_index c) (detectnet_state c) (is_flipped c) (saving_index c) (debug_view c) (last_state c) (last_theta c) (rotation_asked c) (detections c) (wait_for_detectnet_timer c) (timers c) (next_timer c) (published c).
Definition set_zones (v : list Vec) (c : Controller) : Controller :=
  mkController (args_travel c) (is_saving c) (is_plotting c) (SAVE_TIME_CONSTANT c) (x c) (y c) (theta c) (initial_zones_found c) v (path c) (targets c) (goal c) (robot_pos c) (current_target_index c) (rotation_timer c) (n_random_search c) (bottles_picked c) (state c) (rotation_timer_state c) (is_traveling_forward c) (has_to_find_new_path c) (rotation_index c) (detectnet_state c) (is_flipped c) (saving_index c) (debug_view c) (last_state c) (last_theta c) (rotation_asked c) (detections c) (wait_for_detectnet_timer c) (timers c) (next_timer c) (published c).
Definition set_path (v : Path) (c : Controller) : Controller :=
  mkController (args_travel c) (is_saving c) (is_plotting c) (SAVE_TIME_CONSTANT c) (x c) (y c) (theta c) (initial_zones_found c) (zones c) v (targets c) (goal c) (robot_pos c) (current_target_index c) (rotation_timer c) (n_random_search c) (bottles_picked c) (state c) (rotation_timer_state c) (is_traveling_forward c) (has_to_find_new_path c) (rotation_index c) (detectnet_state c) (is_flipped c) (saving_index c) (debug_view c) (last_state c) (last_theta c) (rotation_asked c) (detections c) (wait_for_detectnet_timer c) (timers c) (next_timer c) (published c).
Definition set_targets (v : list Vec) (c : Controller) : Controller :=
  mkController (args_travel c) (is_saving c) (is_plotting c) (SAVE_TIME_CONSTANT c) (x c) (y c) (theta c) (initial_zones_found c) (zones c) (path c) v (goal c) (robot_pos c) (current_target_index c) (rotation_timer c) (n_random_search c) (bottles_picked c) (state c) (rotation_timer_state c) (is_traveling_forward c) (has_to_find_new_path c) (rotation_index c) (detectnet_state c) (is_flipped c) (saving_index c) (debug_view c) (last_state c) (last_theta c) (rotation_asked c) (detections c) (wait_for_detectnet_timer c) (timers c) (next_timer c) (published c).
Definition set_goal (v : option Vec) (c : Controller) : Controller :=
  mkController (args_travel c) (is_saving c) (is_plotting c) (SAVE_TIME_CONSTANT c) (x c) (y c) (theta c) (initial_zones_found c) (zones c) (path c) (targets c) v (robot_pos c) (current_target_index c) (rotation_timer c) (n_random_search c) (bottles_picked c) (state c) (rotation_timer_state c) (is_traveling_forward c) (has_to_find_new_path c) (rotation_index c) (detectnet_state c) (is_flipped c) (saving_index c) (debug_view c) (last_state c) (last_theta c) (rotation_asked c) (detections c) (wait_for_detectnet_timer c) (timers c) (next_timer c) (published c).
Definition set_robot_pos (v : option Vec) (c : Controller) : Controller :=
  mkController (args_travel c) (is_saving c) (is_plotting c) (SAVE_TIME_CONSTANT c) (x c) (y c) (theta c) (initial_zones_found c) (zones c) (path c) (targets c) (goal c) v (current_target_index c) (rotation_timer c) (n_random_search c) (bottles_picked c) (state c) (rotation_timer_state c) (is_traveling_forward c) (has_to_find_new_path c) (rotation_index c) (detectnet_state c) (is_flipped c) (saving_index c) (debug_view c) (last_state c) (last_theta c) (rotation_asked c) (detections c) (wait_for_detectnet_timer c) (timers c) (next_timer c) (published c).
Definition set_current_target_index (v : Z) (c : Controller) : Controller :=
  mkController (args_travel c) (is_saving c) (is_plotting c) (SAVE_TIME_CONSTANT c) (x c) (y c) (theta c) (initial_zones_found c) (zones c) (path c) (targets c) (goal c) (robot_pos c) v (rotation_timer c) (n_random_search c) (bottles_picked c) (state c) (rotation_timer_state c) (is_traveling_forward c) (has_to_find_new_path c) (rotation_index c) (detectnet_state c) (is_flipped c) (saving_index c) (debug_view c) (last_state c) (last_theta c) (rotation_asked c) (detections c) (wait_for_detectnet_timer c) (timers c) (next_timer c) (published c).
Definition set_rotation_timer (v : option nat) (c : Controller) : Controller :=
  mkController (args_travel c) (is_saving c) (is_plotting c) (SAVE_TIME_CONSTANT c) (x c) (y c) (theta c) (initial_zones_found c) (zones c) (path c) (targets c) (goal c) (robot_pos c) (current_target_index c) v (n_random_search c) (bottles_picked c) (state c) (rotation_timer_state c) (is_traveling_forward c) (has_to_find_new_path c) (rotation_index c) (detectnet_state c) (is_flipped c) (saving_index c) (debug_view c) (last_state c) (last_theta c) (rotation_asked c) (detections c) (wait_for_detectnet_timer c) (timers c) (next_timer c) (published c).
Definition set_n_random_search (v : Z) (c : Controller) : Controller :=
  mkController (args_travel c) (is_saving c) (is_plotting c) (SAVE_TIME_CONSTANT c) (x c) (y c) (theta c) (initial_zones_found c) (zones c) (path c) (targets c) (goal c) (robot_pos c) (current_target_index c) (rotation_timer c) v (bottles_picked c) (state c) (rotation_timer_state c) (is_traveling_forward c) (has_to_find_new_path c) (rotation_index c) (detectnet_state c) (is_flipped c) (saving_index c) (debug_view c) (last_state c) (last_theta c) (rotation_asked c) (detections c) (wait_for_detectnet_timer c) (timers c) (next_timer c) (published c).
Definition set_bottles_picked (v : Z) (c : Controller) : Controller :=
  mkController (args_travel c) (is_saving c) (is_plotting c) (SAVE_TIME_CONSTANT c) (x c) (y c) (theta c) (initial_zones_found c) (zones c) (path c) (targets c) (goal c) (robot_pos c) (current_target_index c) (rotation_timer c) (n_random_search c) v (state c) (rotation_timer_state c) (is_traveling_forward c) (has_to_find_new_path c) (rotation_index c) (detectnet_state c) (is_flipped c) (saving_index c) (debug_view c) (last_state c) (last_theta c) (rotation_asked c) (detections c) (wait_for_detectnet_timer c) (timers c) (next_timer c) (published c).
Definition set_state (v : MissionState) (c : Controller) : Controller :=
  mkController (args_travel c) (is_saving c) (is_plotting c) (SAVE_TIME_CONSTANT c) (x c) (y c) (theta c) (initial_zones_found c) (zones c) (path c) (targets c) (goal c) (robot_pos c) (current_target_index c) (rotation_timer c) (n_random_search c) (bottles_picked c) v (rotation_timer_state c) (is_traveling_forward c) (has_to_find_new_path c) (rotation_index c) (detectnet_state c) (is_flipped c) (saving_index c) (debug_view c) (last_state c) (last_theta c) (rotation_asked c) (detections c) (wait_for_detectnet_timer c) (timers c) (next_timer c) (published c).
Definition set_rotation_timer_state (v : TimerState) (c : Controller) : Controller :=
  mkController (args_travel c) (is_saving c) (is_plotting c) (SAVE_TIME_CONSTANT c) (x c) (y c) (theta c) (initial_zones_found c) (zones c) (path c) (targets c) (goal c) (robot_pos c) (current_target_index c) (rotation_timer c) (n_random_search c) (bottles_picked c) (state c) v (is_traveling_forward c) (has_to_find_new_path c) (rotation_index c) (detectnet_state c) (is_flipped c) (saving_index c) (debug_view c) (last_state c) (last_theta c) (rotation_asked c) (detections c) (wait_for_detectnet_timer c) (timers c) (next_timer c) (published c).
Definition set_is_traveling_forward (v : bool) (c : Controller) : Controller :=
  mkController (args_travel c) (is_saving c) (is_plotting c) (SAVE_TIME_CONSTANT c) (x c) (y c) (theta c) (initial_zones_found c) (zones c) (path c) (targets c) (goal c) (robot_pos c) (current_target_index c) (rotation_timer c) (n_random_search c) (bottles_picked c) (state c) (rotation_timer_state c) v (has_to_find_new_path c) (rotation_index c) (detectnet_state c) (is_flipped c) (saving_index c) (debug_view c) (last_state c) (last_theta c) (rotation_asked c) (detections c) (wait_for_detectnet_timer c) (timers c) (next_timer c) (published c).
Definition set_has_to_find_new_path (v : bool) (c : Controller) : Controller :=
  mkController (args_travel c) (is_saving c) (is_plotting c) (SAVE_TIME_CONSTANT c) (x c) (y c) (theta c) (initial_zones_found c) (zones c) (path c) (targets c) (goal c) (robot_pos c) (current_target_index c) (rotation_timer c) (n_random_search c) (bottles_picked c) (state c) (rotation_timer_state c) (is_traveling_forward c) v (rotation_index c) (detectnet_state c) (is_flipped c) (saving_index c) (debug_view c) (last_state c) (last_theta c) (rotation_asked c) (detections c) (wait_for_detectnet_timer c) (timers c) (next_timer c) (published c).
Definition set_rotation_index (v : Z) (c : Controller) : Controller :=
  mkController (args_travel c) (is_saving c) (is_plotting c) (SAVE_TIME_CONSTANT c) (x c) (y c) (theta c) (initial_zones_found c) (zones c) (path c) (targets c) (goal c) (robot_pos c) (current_target_index c) (rotation_timer c) (n_random_search c) (bottles_picked c) (state c) (rotation_timer_state c) (is_traveling_forward c) (has_to_find_new_path c) v (detectnet_state c) (is_flipped c) (saving_index c) (debug_view c) (last_state c) (last_theta c) (rotation_asked c) (detections c) (wait_for_detectnet_timer c) (timers c) (next_timer c) (published c).
Definition set_detectnet_state_attr (v : DetectnetState) (c : Controller) : Controller :=
  mkController (args_travel c) (is_saving c) (is_plotting c) (SAVE_TIME_CONSTANT c) (x c) (y c) (theta c) (initial_zones_found c) (zones c) (path c) (targets c) (goal c) (robot_pos c) (current_target_index c) (rotation_timer c) (n_random_search c) (bottles_picked c) (state c) (rotation_timer_state c) (is_traveling_forward c) (has_to_find_new_path c) (rotation_index c) v (is_flipped c) (saving_index c) (debug_view c) (last_state c) (last_theta c) (rotation_asked c) (detections c) (wait_for_detectnet_timer c) (timers c) (next_timer c) (published c).
Definition set_is_flipped (v : bool) (c : Controller) : Controller :=
  mkController (args_travel c) (is_saving c) (is_plotting c) (SAVE_TIME_CONSTANT c) (x c) (y c) (theta c) (initial_zones_found c) (zones c) (path c) (targets c) (goal c) (robot_pos c) (current_target_index c) (rotation_timer c) (n_random_search c) (bottles_picked c) (state c) (rotation_timer_state c) (is_traveling_forward c) (has_to_find_new_path c) (rotation_index c) (detectnet_state c) v (saving_index c) (debug_view c) (last_state c) (last_theta c) (rotation_asked c) (detections c) (wait_for_detectnet_timer c) (timers c) (next_timer c) (published c).
Definition set_saving_index (v : Z) (c : Controller) : Controller :=
  mkController (args_travel c) (is_saving c) (is_plotting c) (SAVE_TIME_CONSTANT c) (x c) (y c) (theta c) (initial_zones_found c) (zones c) (path c) (targets c) (goal c) (robot_pos c) (current_target_index c) (rotation_timer c) (n_random_search c) (bottles_picked c) (state c) (rotation_timer_state c) (is_traveling_forward c) (has_to_find_new_path c) (rotation_index c) (detectnet_state c) (is_flipped c) v (debug_view c) (last_state c) (last_theta c) (rotation_asked c) (detections c) (wait_for_detectnet_timer c) (timers c) (next_timer c) (published c).
Definition set_debug_view (v : option (Binary * Contours * Corners)) (c : Controller) : Controller :=
  mkController (args_travel c) (is_saving c) (is_plotting c) (SAVE_TIME_CONSTANT c) (x c) (y c) (theta c) (initial_zones_found c) (zones c) (path c) (targets c) (goal c) (robot_pos c) (current_target_index c) (rotation_timer c) (n_random_search c) (bottles_picked c) (state c) (rotation_timer_state c) (is_traveling_forward c) (has_to_find_new_path c) (rotation_index c) (detectnet_state c) (is_flipped c) (saving_index c) v (last_state c) (last_theta c) (rotation_asked c) (detections c) (wait_for_detectnet_timer c) (timers c) (next_timer c) (published c).
Definition set_last_state (v : option MissionState) (c : Controller) : Controller :=
  mkController (args_travel c) (is_saving c) (is_plotting c) (SAVE_TIME_CONSTANT c) (x c) (y c) (theta c) (initial_zones_found c) (zones c) (path c) (targets c) (goal c) (robot_pos c) (current_target_index c) (rotation_timer c) (n_random_search c) (bottles_picked c) (state c) (rotation_timer_state c) (is_traveling_forward c) (has_to_find_new_path c) (rotation_index c) (detectnet_state c) (is_flipped c) (saving_index c) (debug_view c) v (last_theta c) (rotation_asked c) (detections c) (wait_for_detectnet_timer c) (timers c) (next_timer c) (published c).
Definition set_last_theta (v : option Q) (c : Controller) : Controller :=
  mkController (args_travel c) (is_saving c) (is_plotting c) (SAVE_TIME_CONSTANT c) (x c) (y c) (theta c) (initial_zones_found c) (zones c) (path c) (targets c) (goal c) (robot_pos c) (current_target_index c) (rotation_timer c) (n_random_search c) (bottles_picked c) (state c) (rotation_timer_state c) (is_traveling_forward c) (has_to_find_new_path c) (rotation_index c) (detectnet_state c) (is_flipped c) (saving_index c) (debug_view c) (last_state c) v (rotation_asked c) (detections c) (wait_for_detectnet_timer c) (timers c) (next_timer c) (published c).
Definition set_rotation_asked (v : option Q) (c : Controller) : Controller :=
  mkController (args_travel c) (is_saving c) (is_plotting c) (SAVE_TIME_CONSTANT c) (x c) (y c) (theta c) (initial_zones_found c) (zones c) (path c) (targets c) (goal c) (robot_pos c) (current_target_index c) (rotation_timer c) (n_random_search c) (bottles_picked c) (state c) (rotation_timer_state c) (is_traveling_forward c) (has_to_find_new_path c) (rotation_index c) (detectnet_state c) (is_flipped c) (saving_index c) (debug_view c) (last_state c) (last_theta c) v (detections c) (wait_for_detectnet_timer c) (timers c) (next_timer c) (published c).
Definition set_detections (v : option (list DetTuple)) (c : Controller) : Controller :=
  mkController (args_travel c) (is_saving c) (is_plotting c) (SAVE_TIME_CONSTANT c) (x c) (y c) (theta c) (initial_zones_found c) (zones c) (path c) (targets c) (goal c) (robot_pos c) (current_target_index c) (rotation_timer c) (n_random_search c) (bottles_picked c) (state c) (rotation_timer_state c) (is_traveling_forward c) (has_to_find_new_path c) (rotation_index c) (detectnet_state c) (is_flipped c) (saving_index c) (debug_view c) (last_state c) (last_theta c) (rotation_asked c) v (wait_for_detectnet_timer c) (timers c) (next_timer c) (published c).
Definition set_wait_for_detectnet_timer (v : option nat) (c : Controller) : Controller :=
  mkController (args_travel c) (is_saving c) (is_plotting c) (SAVE_TIME_CONSTANT c) (x c) (y c) (theta c) (initial_zones_found c) (zones c) (path c) (targets c) (goal c) (robot_pos c) (current_target_index c) (rotation_timer c) (n_random_search c) (bottles_picked c) (state c) (rotation_timer_state c) (is_traveling_forward c) (has_to_find_new_path c) (rotation_index c) (detectnet_state c) (is_flipped c) (saving_index c) (debug_view c) (last_state c) (last_theta c) (rotation_asked c) (detections c) v (timers c) (next_timer c) (published c).
Definition set_timers (v : list Timer) (c : Controller) : Controller :=
  mkController (args_travel c) (is_saving c) (is_plotting c) (SAVE_TIME_CONSTANT c) (x c) (y c) (theta c) (initial_zones_found c) (zones c) (path c) (targets c) (goal c) (robot_pos c) (current_target_index c) (rotation_timer c) (n_random_search c) (bottles_picked c) (state c) (rotation_timer_state c) (is_traveling_forward c) (has_to_find_new_path c) (rotation_index c) (detectnet_state c) (is_flipped c) (saving_index c) (debug_view c) (last_state c) (last_theta c) (rotation_asked c) (detections c) (wait_for_detectnet_timer c) v (next_timer c) (published c).
Definition set_next_timer (v : nat) (c : Controller) : Controller :=
  mkController (args_travel c) (is_saving c) (is_plotting c) (SAVE_TIME_CONSTANT c) (x c) (y c) (theta c) (initial_zones_found c) (zones c) (path c) (targets c) (goal c) (robot_pos c) (current_target_index c) (rotation_timer c) (n_random_search c) (bottles_picked c) (state c) (rotation_timer_state c) (is_traveling_forward c) (has_to_find_new_path c) (rotation_index c) (detectnet_state c) (is_flipped c) (saving_index c) (debug_view c) (last_state c) (last_theta c) (rotation_asked c) (detections c) (wait_for_detectnet_timer c) (timers c) v (published c).
Definition set_published (v : list (Topic * string)) (c : Controller) : Controller :=
  mkController (args_travel c) (is_saving c) (is_plotting c) (SAVE_TIME_CONSTANT c) (x c) (y c) (theta c) (initial_zones_found c) (zones c) (path c) (targets c) (goal c) (robot_pos c) (current_target_index c) (rotation_timer c) (n_random_search c) (bottles_picked c) (state c) (rotation_timer_state c) (is_traveling_forward c) (has_to_find_new_path c) (rotation_index c) (detectnet_state c) (is_flipped c) (saving_index c) (debug_view c) (last_state c) (last_theta c) (rotation_asked c) (detections c) (wait_for_detectnet_timer c) (timers c) (next_timer c) v.

(** ** Results of callbacks *)

Inductive result : Type :=
| Ok (c : Controller)
| Raise (e : Exn).

(** Inside [travel_mode]: fall through to the next statement, [return],
    or an exception. *)
Inductive flow : Type :=
| Go (c : Controller)
| Ret (c : Controller)
| Exc (e : Exn).

(** ** Publishers and timers *)

Definition publish (t : Topic) (data : string) (c : Controller) : Controller :=
  set_published (published c ++ [(t, data)]) c.

(** [self.create_timer(period, callback)]: a fresh live timer. *)
Definition create_timer (period : Q) (k : TimerKind) (c : Controller)
  : nat * Controller :=
  let h := next_timer c in
  (h, set_next_timer (S h) (set_timers (timers c ++ [mkTimer h k period]) c)).

(** [self.destroy_timer(t)]: the timer leaves the node's timers; a handle
    that is not live (or [None]) changes nothing. *)
Definition without_timer (h : option nat) (l : list Timer) : list Timer :=
  match h with
  | Some i => filter (fun t => negb (Nat.eqb (timer_id t) i)) l
  | None => l
  end.

Definition destroy_timer (h : option nat) (c : Controller) : Controller :=
  set_timers (without_timer h (timers c)) c.

(** ** State machine methods *)

Definition set_detectnet_state (new_state : DetectnetState) (c : Controller)
  : Controller :=
  let c := set_detectnet_state_attr new_state c in
  match new_state with
  | DETECTNET_ON => publish camera_control "create" c
  | DETECTNET_OFF => publish camera_control "destroy" c
  end.

Definition start_bottle_reaching_mode (c : Controller) : Controller :=
  let c := set_state BOTTLE_REACHING_MODE c in
  publish uart_commands "y" c.

Definition start_travel_mode (c : Controller) : Controller :=
  let c := publish uart_commands "m1" c in
  let c := set_has_to_find_new_path true c in
  set_state TRAVEL_MODE c.

Definition start_rotation_timer (angle : Q) (st : TimerState) (c : Controller)
  : Controller :=
  (* 1. if required, delete previous timer *)
  let c :=
    if TimerState_eqb (rotation_timer_state c) TIMER_STATE_OFF then c
    else destroy_timer (rotation_timer c) c in
  let '(time_to_rotate, c) :=
    if TimerState_eqb (rotation_timer_state c) TIMER_STATE_ON_NO_ROTATION
    then (angle, c)
    else
      (* 2. estimate the rotation time, 3. send the motor control *)
      (get_rotation_time (Qabs angle),
       publish uart_commands (if Qltb 0 angle then "d" else "a") c) in
  (* launch the timer *)
  let '(h, c) := create_timer time_to_rotate rotation_timer_callback_kind c in
  let c := set_rotation_timer (Some h) c in
  (* 4. get current state of the robot *)
  let c := set_rotation_timer_state st c in
  let c := set_last_theta (Some (theta c)) c in
  let c := set_rotation_asked (Some angle) c in
  set_rotation_index (rotation_index c + 1) c.

(** [[self.zones[i], self.zones[j]]]; [None] is IndexError. *)
Definition zone_pair (i j : Z) (c : Controller) : option (list Vec) :=
  match py_index (zones c) i with
  | None => None
  | Some zi =>
      match py_index (zones c) j with
      | None => None
      | Some zj => Some [zi; zj]
      end
  end.

Definition start_bottle_release_mode (c : Controller) : result :=
  let c := set_state BOTTLE_RELEASE_MODE c in
  match zone_pair 0 3 c with
  | None => Raise IndexError
  | Some line =>
      let diagonal_orientation := get_path_orientation line in
      let angle := angle_diff diagonal_orientation (theta c) in
      Ok (start_rotation_timer angle TIMER_STATE_ON_BOTTLE_RELEASE c)
  end.

Definition start_kick_ass_mode (is_going_home : bool) (c : Controller)
  : result :=
  let c := set_state KICK_ASS_MODE c in
  match (if is_going_home then zone_pair 0 2 c else zone_pair 2 0 c) with
  | None => Raise IndexError
  | Some line =>
      let line_orientation := get_path_orientation line in
      let angle := angle_diff line_orientation (theta c) in
      Ok (start_rotation_timer angle TIMER_STATE_ON_KICK_ASS_MODE c)
  end.

Definition start_random_search_detection (c : Controller) : Controller :=
  let c := set_state RANDOM_SEARCH_MODE c in
  let c := set_n_random_search (n_random_search c + 1) c in
  (* ending criterion *)
  let has_to_stop_search :=
    (n_random_search c =? N_RANDOM_SEARCH_MAX)
    || (bottles_picked c =? MAX_BOTTLE_PICKED) in
  if has_to_stop_search then
    let c := set_detectnet_state DETECTNET_OFF c in
    start_travel_mode c
  else
    (* set lower speed *)
    let c := publish uart_commands "xm2" c in
    let c := set_detectnet_state DETECTNET_ON c in
    let c := set_detections (Some []) c in
    let '(h, c) :=
      create_timer TIME_FOR_VISION_DETECTION detection_timer_callback_kind c in
    set_wait_for_detectnet_timer (Some h) c.

(** ** Detection dwell *)

Definition take_bottle_decision (c : Controller) : result :=
  let c := set_detectnet_state DETECTNET_OFF c in
  match detections c with
  | None => Raise AttributeError
  | Some [] =>
      Ok (start_rotation_timer DELTA_RANDOM_SEARCH
            TIMER_STATE_ON_RANDOM_SEARCH_DELTA_ROTATION c)
  | Some ds =>
      let detection := get_best_detections ds in
      let angle := get_angle_of_detection detection in
      Ok (start_rotation_timer angle
            TIMER_STATE_ON_RANDOM_SEARCH_BOTTLE_ALIGNMENT c)
  end.

Definition flip_camera_and_reset_detectnet_timer (c : Controller) : result :=
  let c := publish flip_topic (if is_flipped c then "normal" else "flip") c in
  match wait_for_detectnet_timer c with
  | None => Raise AttributeError
  | Some h =>
      let c := destroy_timer (Some h) c in
      let c := set_is_flipped (negb (is_flipped c)) c in
      if is_flipped c then
        let '(h, c) :=
          create_timer TIME_FOR_VISION_DETECTION detection_timer_callback_kind c in
        Ok (set_wait_for_detectnet_timer (Some h) c)
      else take_bottle_decision c
  end.

Definition detection_timer_callback (c : Controller) : result :=
  flip_camera_and_reset_detectnet_timer c.

Definition listener_callback_detectnet (msg : Detection2DArray) (c : Controller)
  : result :=
  match detectnet_state c with
  | DETECTNET_OFF => Ok c
  | DETECTNET_ON =>
      match py_index (msg_detections msg) 0 with
      | None => Raise IndexError
      | Some d0 =>
          let is_actually_flipped :=
            source_img_height d0 <? source_img_width d0 in
          if negb (Bool.eqb is_actually_flipped (is_flipped c)) then Ok c
          else
            let new_detections :=
              map (fun d => (bbox_center_x d, bbox_center_y d,
                             bbox_size_x d, bbox_size_y d, is_flipped c))
                  (msg_detections msg) in
            match detections c with
            | None => Raise AttributeError
            | Some ds =>
                let c := set_detections (Some (ds ++ new_detections)) c in
                flip_camera_and_reset_detectnet_timer c
            end
      end
  end.

(** ** Rotation timer *)

Definition rotation_timer_callback (c : Controller) : result :=
  let c := destroy_timer (rotation_timer c) c in
  match rotation_asked c with
  | None => Raise AttributeError
  | Some asked =>
      (* verify that rotation actually happened *)
      let verify :=
        if Qltb 39 (Qabs asked) then
          match last_theta c with
          | None => inl AttributeError
          | Some lt => inr (Qltb (Qabs (angle_diff lt (theta c))) 5)
          end
        else inr false in
      match verify with
      | inl e => Raise e
      | inr true =>
          (* ask arduino to move forward and wait for answer *)
          let c := publish uart_commands "W" c in
          let c := set_last_state (Some (state c)) c in
          Ok (set_state RECOVERY_ROTATION c)
      | inr false =>
          match rotation_timer_state c with
          | TIMER_STATE_ON_RANDOM_SEARCH_BOTTLE_ALIGNMENT =>
              let c := set_rotation_timer_state TIMER_STATE_OFF c in
              Ok (start_bottle_reaching_mode c)
          | TIMER_STATE_ON_RANDOM_SEARCH_DELTA_ROTATION =>
              let c := set_rotation_timer_state TIMER_STATE_OFF c in
              let c := publish uart_commands "x" c in
              Ok (start_random_search_detection c)
          | TIMER_STATE_ON_TRAVEL_MODE =>
              let c := set_rotation_timer_state TIMER_STATE_OFF c in
              Ok (publish uart_commands "w" c)
          | TIMER_STATE_ON_BOTTLE_RELEASE =>
              let c := set_rotation_timer_state TIMER_STATE_OFF c in
              let c := set_is_traveling_forward true c in
              let c := publish uart_commands "m2" c in
              Ok (publish uart_commands "w" c)
          | TIMER_STATE_ON_NO_ROTATION => Ok c
          | TIMER_STATE_ON_KICK_ASS_MODE =>
              let c := set_rotation_timer_state TIMER_STATE_OFF c in
              Ok (publish uart_commands "Y" c)
          | TIMER_STATE_ON_TRAVEL_MODE_END =>
              let c := set_rotation_timer_state TIMER_STATE_OFF c in
              Ok (start_random_search_detection c)
          | TIMER_STATE_OFF => Ok c
          end
      end
  end.

(** The controller after a rotation that failed its verification: the
    branch of [rotation_timer_callback] that returns early. *)
Definition after_failed_rotation (c : Controller) : Controller :=
  let c := destroy_timer (rotation_timer c) c in
  let c := publish uart_commands "W" c in
  let c := set_last_state (Some (state c)) c in
  set_state RECOVERY_ROTATION c.

(** ** Callbacks of the subscriptions *)

Definition listener_callback_position (pos : Position) (c : Controller)
  : Controller :=
  let c := set_x (pos_x pos / 1200) c in
  let c := set_y (pos_y pos / 1200) c in
  set_theta (Qmod360 (pos_theta pos)) c.

(** The guard of the [--travel] debugging run: without a grid position
    the callback returns at once.  ([self.zones] and [self.theta] are
    never [None]; the rock test that follows has no effect.) *)
Definition lidar_returns_early (c : Controller) : bool :=
  args_travel c
  && match robot_pos c with
     | None => true
     | Some p => Nat.eqb (List.length p) 0
     end.

Definition lidar_callback (msg : LidarData) (c : Controller) : Controller :=
  if lidar_returns_early c then c
  else
    match state c with
    | BOTTLE_REACHING_MODE =>
        if check_obstacle_ahead (distances msg) (angles msg) (threshold_low 15)
        then
          let c := publish uart_commands "x" c in
          start_rotation_timer DELTA_RANDOM_SEARCH
            TIMER_STATE_ON_RANDOM_SEARCH_DELTA_ROTATION c
        else c
    | TRAVEL_MODE =>
        if is_traveling_forward c then
          if check_obstacle_ahead (distances msg) (angles msg)
               (length_to_check 350)
          then
            let c := publish uart_commands "x" c in
            set_has_to_find_new_path true c
          else c
        else c
    | BOTTLE_RELEASE_MODE =>
        if is_traveling_forward c then
          if check_obstacle_ahead (distances msg) (angles msg)
               (length_to_check 700)
          then
            let c := set_is_traveling_forward false c in
            let c := publish uart_commands "x" c in
            publish uart_commands "q" c
          else c
        else c
    | _ => c
    end.

(** Status codes of the Arduino: 0 error, 1 success, 2 in progress. *)
Definition listener_arduino_status (status : Z) (c : Controller) : result :=
  match state c with
  | INITIAL_ROTATION_MODE =>
      if status =? 1 then Ok (start_travel_mode c) else Ok c
  | BOTTLE_REACHING_MODE =>
      if status =? 0 then Ok (start_random_search_detection c)
      else if status =? 1 then
        let c := set_state BOTTLE_PICKING_MODE c in
        Ok (publish uart_commands "p" c)
      else Ok c
  | BOTTLE_PICKING_MODE =>
      if status =? 0 then Ok (start_random_search_detection c)
      else if status =? 1 then
        let c := set_bottles_picked (bottles_picked c + 1) c in
        Ok (start_random_search_detection c)
      else Ok c
  | BOTTLE_RELEASE_MODE =>
      if status =? 1 then
        let c := set_bottles_picked 0 c in
        let c := set_n_random_search 0 c in
        Ok (start_travel_mode c)
      else Ok c
  | RECOVERY_SLAM =>
      if status =? 1 then
        let c := publish slam_control "recover_state" c in
        Ok (start_travel_mode c)
      else Ok c
  | RECOVERY_ROTATION =>
      if status =? 1 then
        match last_state c with
        | None => Raise AttributeError
        | Some st =>
            let c := set_state st c in
            match rotation_asked c with
            | None => Raise AttributeError
            | Some asked =>
                Ok (start_rotation_timer asked (rotation_timer_state c) c)
            end
        end
      else Ok c
  | KICK_ASS_MODE =>
      (* three [if]s in a row in the source; the codes exclude each other *)
      if status =? 1 then
        let c := publish slam_control "freeze" c in
        Ok (publish uart_commands "c" c)
      else if status =? 3 then
        Ok (publish slam_control "unfreeze" c)
      else if status =? 4 then
        match py_index TARGETS_TO_VISIT (current_target_index c) with
        | None => Raise IndexError
        | Some dest =>
            if dest =? 0 then Ok (start_travel_mode c)
            else
              let c := set_n_random_search (N_RANDOM_SEARCH_MAX - 10) c in
              let c := set_bottles_picked (MAX_BOTTLE_PICKED - 3) c in
              Ok (start_random_search_detection c)
        end
      else Ok c
  | TRAVEL_MODE | RANDOM_SEARCH_MODE => Ok c
  end.

(** ** Travel mode *)

(** c. find zones: the first bounding rectangle that is large enough
    gives the initial zones. *)
Definition find_initial_zones (corners : Corners) (area : Q) (pos : Vec)
    (c : Controller) : Exn + Controller :=
  if negb (initial_zones_found c) && Qltb AREA_THRESHOLD area then
    if Qltb 240000 area then inl RuntimeError
    else
      let c := set_zones (get_initial_zones corners pos 0) c in
      inr (set_initial_zones_found true c)
  else inr c.

(** d. targets of the zones, e. rrt_star path planning. *)
Definition plan_path (pos : Vec) (binary_dilated : Binary) (c : Controller)
  : flow :=
  let c := set_targets (get_targets_from_zones (zones c)) c in
  match py_index TARGETS_TO_VISIT (current_target_index c) with
  | None => Exc IndexError
  | Some t =>
      match py_index (targets c) t with
      | None => Exc IndexError
      | Some g =>
          let c := set_goal (Some g) c in
          let random_area := get_random_area (zones c) in
          let c :=
            set_path
              match rrt_planning pos g binary_dilated random_area with
              | Some rows => NdArray rows
              | None => NdScalarNone
              end c in
          Go (set_has_to_find_new_path false c)
      end
  end.

(** I. Path planning, the body of the [if] that runs once in a while. *)
Definition path_planning (pos : Vec) (msg : MapMessage) (c : Controller)
  : flow :=
  (* handling timer problem *)
  let c :=
    if TimerState_eqb (rotation_timer_state c) TIMER_STATE_ON_TRAVEL_MODE then
      let c := publish uart_commands "x" c in
      let c := set_rotation_timer_state TIMER_STATE_OFF c in
      destroy_timer (rotation_timer c) c
    else c in
  (* a. filter the map *)
  let '(binary_dilated, binary) := filter_map (get_map (map_data msg)) 14 in
  (* b. get rectangle around the map *)
  match get_bounding_rect binary with
  | None => Ret c
  | Some (corners, area, contours) =>
      let c :=
        if is_saving c || is_plotting c
        then set_debug_view (Some (binary_dilated, contours, corners)) c
        else c in
      match find_initial_zones corners area pos c with
      | inl e => Exc e
      | inr c =>
          if initial_zones_found c then
            (* update zones with new map *)
            let new_zones := get_zones_from_previous corners (zones c) in
            let are_valid := are_new_zones_valid new_zones (zones c) in
            if are_valid then
              let c := publish slam_control "save_state" c in
              let c := set_zones new_zones c in
              plan_path pos binary_dilated c
            else
              let c := set_state RECOVERY_SLAM c in
              Ret (publish uart_commands "R" c)
          else Go c
      end
  end.

(** (make and save the nice figure) *)
Definition save_figure (pos : Vec) (msg : MapMessage) (c : Controller) : flow :=
  if is_saving c || is_plotting c then
    if SAVE_TIME_CONSTANT c =? 0 then Exc ZeroDivisionError
    else if index msg mod SAVE_TIME_CONSTANT c =? 0 then
      if make_nice_plot (debug_view c) pos (theta c) (zones c) (targets c)
           (path c)
      then Go (set_saving_index (saving_index c + 1) c)
      else Go c
    else Go c
  else Go c.

(** 1. state transition condition: the robot arrived at its destination. *)
Definition goal_reached (reached : Z) (c : Controller) : result :=
  let c := set_current_target_index (current_target_index c + 1) c in
  let c := set_n_random_search 0 c in
  let c := set_bottles_picked 0 c in
  let c := set_is_traveling_forward false c in
  let c := set_path (PyList []) c in
  if existsb (Z.eqb reached) [1; 2; 3; 4] then
    match (if existsb (Z.eqb reached) [1; 2]
           then zone_pair 1 0 c else zone_pair 3 1 c) with
    | None => Raise IndexError
    | Some line =>
        let line_orientation := get_path_orientation line in
        let angle_diff := angle_diff line_orientation (theta c) in
        Ok (start_rotation_timer angle_diff TIMER_STATE_ON_TRAVEL_MODE_END c)
    end
  else if reached =? 0 then start_bottle_release_mode c
  else if (reached =? 5) || (reached =? 6) then
    start_kick_ass_mode (reached =? 6) c
  else Ok c.

(** The FORWARD SUB-STATE of the path tracker. *)
Definition forward_sub_state (pos : Vec) (c : Controller) : result :=
  let c := publish uart_commands "w" c in
  let c := set_is_traveling_forward true c in
  (* compute distance to next point of the path *)
  match py_index (path_rows (path c)) (-2) with
  | None => Raise IndexError
  | Some p =>
      let dist_to_next_point := get_distance pos p in
      if Qltb dist_to_next_point MIN_DIST_TO_POINT then
        match path_del_last (path c) with
        | inl e => Raise e
        | inr p' => Ok (set_path p' c)
        end
      else Ok c
  end.

(** II. Path tracking.  ([self.path] is never [None].) *)
Definition path_tracking (pos : Vec) (c : Controller) : result :=
  match path_len (path c) with
  | None => Raise TypeError
  | Some n =>
      match Nat.eqb n 0, goal c with
      | true, _ | _, None => Ok c
      | false, Some g =>
          let dist := get_distance pos g in
          match py_index TARGETS_TO_VISIT (current_target_index c) with
          | None => Raise IndexError
          | Some reached =>
              let min_dist :=
                if reached =? 0 then MIN_DIST_TO_RECYCLING
                else MIN_DIST_TO_GOAL in
              if Qltb dist min_dist then goal_reached reached c
              else if TimerState_eqb (rotation_timer_state c)
                        TIMER_STATE_ON_TRAVEL_MODE
              then Ok c
              else
                let path_orientation :=
                  get_path_orientation (path_rows (path c)) in
                let diff := angle_diff path_orientation (theta c) in
                if Qltb MIN_ANGLE_DIFF (Qabs diff) then
                  (* ROTATION CORRECTION SUB-STATE *)
                  let c := set_is_traveling_forward false c in
                  Ok (start_rotation_timer diff TIMER_STATE_ON_TRAVEL_MODE c)
                else forward_sub_state pos c
          end
      end
  end.

Definition travel_mode (msg : MapMessage) (c : Controller) : result :=
  (* compute robot position (used a lot) *)
  let pos := pos_to_gridpos (x c) (y c) in
  let c := set_robot_pos (Some pos) c in
  if TimerState_eqb (rotation_timer_state c) TIMER_STATE_ON_TRAVEL_MODE_END
  then Ok c
  else
    let planned :=
      if (index msg mod CONTROLLER_TIME_CONSTANT =? 0) || has_to_find_new_path c
      then path_planning pos msg c
      else Go c in
    match planned with
    | Exc e => Raise e
    | Ret c => Ok c
    | Go c =>
        match save_figure pos msg c with
        | Exc e => Raise e
        | Ret c => Ok c
        | Go c => path_tracking pos c
        end
    end.

Definition listener_callback_map (msg : MapMessage) (c : Controller) : result :=
  match state c with
  | TRAVEL_MODE => travel_mode msg c
  | _ => Ok c
  end.

(** ** Construction of the node *)

(** What [__init__] reads from [sys.argv]: the debugging flags, and the
    rates given after [--plot] and [--save] where they parse as integers. *)
Record Args : Type := mkArgs {
  arg_travel : bool;
  arg_search : bool;
  arg_reach : bool;
  arg_save : bool;
  arg_plot : bool;
  arg_plot_rate : option Z;
  arg_save_rate : option Z
}.

Definition init (a : Args) : Controller :=
  let rate := 10 in
  let rate :=
    if arg_plot a
    then match arg_plot_rate a with Some r => r | None => rate end
    else rate in
  let rate :=
    if arg_save a
    then match arg_save_rate a with Some r => r | None => rate end
    else rate in
  let c :=
    mkController (arg_travel a) (arg_save a) (arg_plot a) rate
      0 0 0
      false [] (NdArray []) [] None None 0
      None 0 0
      INITIAL_ROTATION_MODE TIMER_STATE_OFF
      false false 0
      DETECTNET_OFF false 0 None
      None None None None None
      [] O
      [(camera_control, "destroy"%string); (flip_topic, "normal"%string)] in
  (* for debugging *)
  let c := if arg_travel a then start_travel_mode c else c in
  let c :=
    if arg_search a
    then start_random_search_detection (set_state RANDOM_SEARCH_MODE c)
    else c in
  let c := if arg_reach a then set_state BOTTLE_REACHING_MODE c else c in
  (* STATE MACHINE: request the continuous rotation *)
  match state c with
  | INITIAL_ROTATION_MODE => publish uart_commands "r" c
  | _ => c
  end.

(** ** The event loop

    [rclpy.spin] hands one event at a time to its callback.  A timer
    fires as long as it is live (the timers of rclpy are periodic; the
    callbacks destroy them).  A callback that raises ends the node. *)
Inductive Event : Type :=
| robot_pos_msg (pos : Position)
| world_map_msg (msg : MapMessage)
| arduino_status_msg (status : Z)
| detections_msg (msg : Detection2DArray)
| lidar_data_msg (msg : LidarData)
| timer_fired (h : nat).

Definition dispatch (ev : Event) (c : Controller) : result :=
  match ev with
  | robot_pos_msg pos => Ok (listener_callback_position pos c)
  | world_map_msg msg => listener_callback_map msg c
  | arduino_status_msg status => listener_arduino_status status c
  | detections_msg msg => listener_callback_detectnet msg c
  | lidar_data_msg msg => Ok (lidar_callback msg c)
  | timer_fired h =>
      match find (fun t => Nat.eqb (timer_id t) h) (timers c) with
      | None => Ok c
      | Some t =>
          match timer_kind t with
          | rotation_timer_callback_kind => rotation_timer_callback c
          | detection_timer_callback_kind => detection_timer_callback c
          end
      end
  end.

Inductive reachable : Controller -> Prop :=
| reachable_init (a : Args) : reachable (init a)
| reachable_step (c c' : Controller) (ev : Event) :
    reachable c -> dispatch ev c = Ok c' -> reachable c'.

(** The live timers that call [rotation_timer_callback]. *)
Definition is_rotation_timer (t : Timer) : bool :=
  match timer_kind t with
  | rotation_timer_callback_kind => true
  | detection_timer_callback_kind => false
  end.

Definition rotation_timers (c : Controller) : list Timer :=
  filter is_rotation_timer (timers c).

(** ** The discipline of the rotation timer

    What every callback keeps: the live rotation timers are at most the
    one [self.rotation_timer] holds, and none is live while the stored
    tag is OFF.  The clauses on RECOVERY_ROTATION make sure the tag that
    a success status hands back to [start_rotation_timer] is never OFF. *)

(** Tags whose follow-up action sets the tag to OFF and leaves the
    mission state where it is. *)
Definition ends_in_place (t : TimerState) : bool :=
  match t with
  | TIMER_STATE_ON_TRAVEL_MODE
  | TIMER_STATE_ON_BOTTLE_RELEASE
  | TIMER_STATE_ON_KICK_ASS_MODE => true
  | _ => false
  end.

Definition timers_ok (tag : TimerState) (h : option nat) (rt : list Timer)
  : Prop :=
  (rt = [] \/ exists t, rt = [t] /\ h = Some (timer_id t)) /\
  (tag = TIMER_STATE_OFF -> rt = []).

Definition timer_discipline (c : Controller) : Prop :=
  timers_ok (rotation_timer_state c) (rotation_timer c) (rotation_timers c).

Definition recovery_discipline (c : Controller) : Prop :=
  state c = RECOVERY_ROTATION ->
  rotation_timer_state c <> TIMER_STATE_OFF /\
  (rotation_timers c <> [] -> ends_in_place (rotation_timer_state c) = false) /\
  (last_state c = Some RECOVERY_ROTATION ->
   ends_in_place (rotation_timer_state c) = false).

Definition controller_invariant (c : Controller) : Prop :=
  timer_discipline c /\ recovery_discipline c.

(** Where [travel_mode] runs and ends: outside RECOVERY_ROTATION. *)
Definition outside_recovery (c : Controller) : Prop :=
  timer_discipline c /\ state c <> RECOVERY_ROTATION.

(** ** What a callback leaves alone

    The pose is written by the position callback, the navigation memory
    by the map callback; everything the controller publishes is one of
    the literals below. *)
Definition keeps_pose (c c' : Controller) : Prop :=
  x c' = x c /\ y c' = y c /\ theta c' = theta c.

Definition keeps_navigation (c c' : Controller) : Prop :=
  zones c' = zones c /\
  initial_zones_found c' = initial_zones_found c /\
  targets c' = targets c /\
  goal c' = goal c /\
  path c' = path c /\
  current_target_index c' = current_target_index c /\
  robot_pos c' = robot_pos c.

Definition allowed_message (m : Topic * string) : bool :=
  let '(t, data) := m in
  existsb (String.eqb data)
    match t with
    | uart_commands =>
        ["r"; "x"; "d"; "a"; "w"; "m1"; "m2"; "xm2"; "y"; "p"; "q"; "c";
         "Y"; "R"; "W"]%string
    | camera_control => ["create"; "destroy"]%string
    | flip_topic => ["normal"; "flip"]%string
    | slam_control =>
        ["save_state"; "recover_state"; "freeze"; "unfreeze"]%string
    end.

(** [p'] is [p] followed by messages that all pass [ok]. *)
Definition emits_only (ok : Topic * string -> bool)
    (p p' : list (Topic * string)) : Prop :=
  exists l, p' = p ++ l /\ forallb ok l = true.

Definition not_nudge (m : Topic * string) : bool :=
  match m with
  | (uart_commands, data) => negb (String.eqb data "W")
  | _ => true
  end.

Definition calm (c c' : Controller) : Prop :=
  keeps_pose c c' /\ keeps_navigation c c' /\
  emits_only allowed_message (published c) (published c') /\
  (rotation_timer_state c <> TIMER_STATE_ON_NO_ROTATION ->
   rotation_timer_state c' <> TIMER_STATE_ON_NO_ROTATION).

(** What a map callback may do besides: move the tour cursor by one. *)
Definition tour_step (c c' : Controller) : Prop :=
  keeps_pose c c' /\
  emits_only allowed_message (published c) (published c') /\
  (rotation_timer_state c <> TIMER_STATE_ON_NO_ROTATION ->
   rotation_timer_state c' <> TIMER_STATE_ON_NO_ROTATION) /\
  (current_target_index c' = current_target_index c
   \/ current_target_index c' = current_target_index c + 1).

Definition tidy (c : Controller) : Prop :=
  (0 <= theta c)%Q /\ (theta c <= 360)%Q /\
  forallb allowed_message (published c) = true /\
  rotation_timer_state c <> TIMER_STATE_ON_NO_ROTATION /\
  0 <= current_target_index c.



Definition is_dwell_timer (t : Timer) : bool :=
  match timer_kind t with
  | detection_timer_callback_kind => true
  | rotation_timer_callback_kind => false
  end.

Definition dwell_timers (c : Controller) : list Timer :=
  filter is_dwell_timer (timers c).

(** What a lidar event leaves alone besides pose and navigation. *)
Definition keeps_mission (c c' : Controller) : Prop :=
  state c' = state c /\
  last_state c' = last_state c /\
  n_random_search c' = n_random_search c /\
  bottles_picked c' = bottles_picked c /\
  detectnet_state c' = detectnet_state c /\
  is_flipped c' = is_flipped c /\
  detections c' = detections c.

End Controller1.

(** ** The transition table of the status stream, from the specification

    The (state, status code) pairs for which the transition table has a
    rule: success (1) in InitialRotation, BottleRelease, RecoverySlam and
    RecoveryRotation; no-object/fail (0) and reached/success (1) in
    BottleReaching and BottlePicking; approach-start (1),
    mission-complete (3) and wait-finished (4) in KickAss. *)
Definition in_transition_table (st : MissionState) (status : Z) : bool :=
  match st with
  | INITIAL_ROTATION_MODE
  | BOTTLE_RELEASE_MODE
  | RECOVERY_SLAM
  | RECOVERY_ROTATION => status =? 1
  | BOTTLE_REACHING_MODE
  | BOTTLE_PICKING_MODE => (status =? 0) || (status =? 1)
  | KICK_ASS_MODE => (status =? 1) || (status =? 3) || (status =? 4)
  | TRAVEL_MODE
  | RANDOM_SEARCH_MODE => false
  end.

(** ** Concrete collaborators and runs

    Simple stand-ins for [robottle_utils], used to run the controller on
    concrete inputs: plane points, the heading difference as a plain
    subtraction, a city-block distance, a planner that answers with the
    goal, a waypoint next to the start and the start, and switches for what the zone validation and the
    lidar check answer. *)
Definition coord (i : nat) (p : Vec) : Q := nth i p 0%Q.

Definition sample_collaborators (zones_valid obstacle : bool) : Collaborators :=
  {| MapData := unit;
     Grid := unit;
     Binary := unit;
     Corners := unit;
     Contours := unit;
     RandArea := unit;
     pos_to_gridpos := fun x y => [x; y];
     get_map := fun _ => tt;
     filter_map := fun _ _ => (tt, tt);
     get_bounding_rect := fun _ => Some (tt, 150000%Q, tt);
     get_initial_zones := fun _ _ _ =>
       [[0; 0]; [100; 0]; [100; 100]; [0; 100]]%Q;
     get_zones_from_previous := fun _ z => z;
     are_new_zones_valid := fun _ _ => zones_valid;
     get_targets_from_zones := fun z => z ++ z;
     get_random_area := fun _ => tt;
     rrt_planning := fun start goal _ _ =>
       Some [goal; map (fun q => q + (1 # 20))%Q start; start];
     make_nice_plot := fun _ _ _ _ _ _ => true;
     get_distance := fun p q =>
       (Qabs (coord 0 p - coord 0 q) + Qabs (coord 1 p - coord 1 q))%Q;
     get_path_orientation := fun _ => 0%Q;
     angle_diff := fun a b => (a - b)%Q;
     get_rotation_time := fun a => (a / 90)%Q;
     check_obstacle_ahead := fun _ _ _ => obstacle;
     get_best_detections := fun ds => hd (0, 0, 0, 0, false)%Q ds;
     get_angle_of_detection := fun d => let '(cx, _, _, _, _) := d in cx |}.

(** A launch without debugging arguments. *)
Definition plain_args : Args :=
  mkArgs false false false false false None None.

(** [--travel --reach]: the node is built in BOTTLE_REACHING_MODE with the
    [--travel] guard of the lidar callback armed and no grid position. *)
Definition travel_reach_args : Args :=
  mkArgs true false true false false None None.

Definition empty_scan : LidarData := mkLidarData [] [].

(** Valid zone updates and a free way; an obstacle ahead; zone updates
    that fail the validation. *)
Definition quiet : Collaborators := sample_collaborators true false.
Definition blocked : Collaborators := sample_collaborators true true.
Definition drifting : Collaborators := sample_collaborators false false.

(** A fallback rotation of 40 degrees started on a fresh node, at the
    expiry of its timer with the heading still at 0. *)
Definition stalled_rotation : @Controller quiet :=
  start_rotation_timer 40 TIMER_STATE_ON_RANDOM_SEARCH_DELTA_ROTATION
    (init plain_args).

(** The node after the initial rotation succeeded: TRAVEL_MODE. *)
Definition traveling (K : Collaborators) : @Controller K :=
  start_travel_mode (init plain_args).


(** A node launched with [--reach], facing an obstacle. *)
Definition reaching : @Controller blocked :=
  init (mkArgs false false true false false None None).

(** A node launched with [--travel --reach], facing an obstacle. *)
Definition reaching_under_travel_flag : @Controller blocked :=
  init travel_reach_args.

(** A node launched with [--search]: the detector is on, a dwell runs. *)
Definition searching : @Controller quiet :=
  init (mkArgs false true false false false None None).

(** A path as the planner step stores it, with the robot at (0, 0). *)
Definition tracked_rows : list Vec :=
  [[0; 100]; [1 # 20; 1 # 20]; [0; 0]]%Q.

Definition tracking : @Controller quiet :=
  set_path (NdArray tracked_rows) (traveling quiet).

(** ** The UART node (uart_messenger.py)

    [i] counts the commands, [logged] is what went to the logger and
    [serial_port] the bytes written to the port, oldest first.  A Python
    [str] is held as its UTF-8 text, so [encode()] is the list of its
    bytes. *)
Record UARTSender : Type := mkUARTSender {
  i : Z;
  logged : list string;
  serial_port : list Ascii.ascii
}.

Definition uart_init : UARTSender := mkUARTSender 0 [] [].

Definition listener_callback (data : string) (s : UARTSender) : UARTSender :=
  mkUARTSender (i s + 1) (logged s ++ [data])
    (serial_port s ++ list_ascii_of_string data).

(** The uart node fed with the commands of a published trace, in order. *)
Definition uart_commands_of (p : list (Topic * string)) : list string :=
  flat_map (fun m => match m with
                     | (uart_commands, data) => [data]
                     | _ => []
                     end) p.

(** ** More concrete runs *)

Definition sample_zones : list Vec :=
  [[0; 0]; [100; 0]; [100; 100]; [0; 100]]%Q.

(** As [quiet], with a bounding rectangle of the given area and a planner
    that finds a path or not. *)
Definition sample_world (area : Q) (finds_path : bool) : Collaborators :=
  {| MapData := unit;
     Grid := unit;
     Binary := unit;
     Corners := unit;
     Contours := unit;
     RandArea := unit;
     pos_to_gridpos := @pos_to_gridpos quiet;
     get_map := fun _ => tt;
     filter_map := fun _ _ => (tt, tt);
     get_bounding_rect := fun _ => Some (tt, area, tt);
     get_initial_zones := fun _ _ _ => sample_zones;
     get_zones_from_previous := fun _ z => z;
     are_new_zones_valid := fun _ _ => true;
     get_targets_from_zones := fun z => z ++ z;
     get_random_area := fun _ => tt;
     rrt_planning := fun start goal _ _ =>
       if finds_path then Some [goal; start] else None;
     make_nice_plot := fun _ _ _ _ _ _ => true;
     get_distance := @get_distance quiet;
     get_path_orientation := fun _ => 0%Q;
     angle_diff := fun a b => (a - b)%Q;
     get_rotation_time := fun a => (a / 90)%Q;
     check_obstacle_ahead := fun _ _ _ => false;
     get_best_detections := @get_best_detections quiet;
     get_angle_of_detection := @get_angle_of_detection quiet |}.

Definition oversized : Collaborators := sample_world 300000 true.





Definition pathless : Collaborators := sample_world 150000 false.

(** The fresh node after a position message with a heading of 725. *)
Definition turned : @Controller quiet :=
  listener_callback_position (mkPosition 2400 1200 725) (init plain_args).

(** A travel with its zones known. *)
Definition on_tour (K : Collaborators) : @Controller K :=
  set_initial_zones_found true (set_zones sample_zones (traveling K)).

(** The same after the ninth target. *)
Definition tour_done : @Controller quiet :=
  set_current_target_index 9 (on_tour quiet).

(** A travel at its first target, with a path and the goal at the robot. *)
Definition arriving : @Controller quiet :=
  set_goal (Some [0; 0]%Q) (set_path (NdArray tracked_rows) (on_tour quiet)).

(** The node launched with [--travel --plot 0], between two plannings. *)
Definition plotting_at_rate_zero : @Controller quiet :=
  set_has_to_find_new_path false
    (init (mkArgs true false false false true (Some 0) None)).

(** An alignment of 20 degrees at the expiry of its timer. *)
Definition small_turn : @Controller quiet :=
  start_rotation_timer 20 TIMER_STATE_ON_RANDOM_SEARCH_BOTTLE_ALIGNMENT
    (init plain_args).

(** The stalled fallback rotation after its verification failed. *)
Definition stalled_once : @Controller quiet :=
  after_failed_rotation stalled_rotation.

(** ** Basic facts *)

Lemma Qltb_lt (a b : Q) : Qltb a b = true <-> (a < b)%Q.
Proof.
  unfold Qltb. rewrite negb_true_iff. split; intro H.
  - apply Qnot_le_lt. intro Hle. apply Qle_bool_iff in Hle. congruence.
  - destruct (Qle_bool b a) eqn:E; [|reflexivity].
    apply Qle_bool_iff in E. apply Qle_not_lt in E. contradiction.
Qed.

Lemma Qltb_nlt (a b : Q) : Qltb a b = false <-> ~ (a < b)%Q.
Proof.
  rewrite <- Qltb_lt. destruct (Qltb a b); split; congruence.
Qed.

Lemma TimerState_eqb_eq (a b : TimerState) :
  TimerState_eqb a b = true <-> a = b.
Proof. destruct a, b; simpl; split; congruence. Qed.

Lemma TimerState_eqb_neq (a b : TimerState) :
  TimerState_eqb a b = false <-> a <> b.
Proof. destruct a, b; simpl; split; congruence. Qed.

Section Properties.

Context {K : Collaborators}.

(** *** The rotation protocol *)

Lemma rotation_timer_callback_failed (c : Controller) (asked heading : Q) :
  rotation_asked c = Some asked ->
  last_theta c = Some heading ->
  (39 < Qabs asked)%Q ->
  (Qabs (angle_diff heading (theta c)) < 5)%Q ->
  rotation_timer_callback c = Ok (after_failed_rotation c).
Proof.
  intros Hasked Hlast Hbig Hsmall.
  apply Qltb_lt in Hbig. apply Qltb_lt in Hsmall.
  unfold rotation_timer_callback. simpl.
  rewrite Hasked, Hbig, Hlast. simpl. rewrite Hsmall. reflexivity.
Qed.

(** C1: a rotation of more than 39 degrees whose heading change at timer
    expiry is below 5 degrees publishes "W" once and nothing else, keeps
    the active state in [last_state], and enters RECOVERY_ROTATION; the
    purpose tag is left as it was, so no follow-up action has run, and
    nothing else than the destroyed timer changes. *)
Theorem rotation_failure_enters_recovery
    (c : Controller) (asked heading : Q) :
  rotation_asked c = Some asked ->
  last_theta c = Some heading ->
  (39 < Qabs asked)%Q ->
  (Qabs (angle_diff heading (theta c)) < 5)%Q ->
  exists c',
    rotation_timer_callback c = Ok c' /\
    published c' = published c ++ [(uart_commands, "W"%string)] /\
    last_state c' = Some (state c) /\
    state c' = RECOVERY_ROTATION /\
    rotation_timer_state c' = rotation_timer_state c /\
    rotation_asked c' = Some asked /\
    c' = set_state RECOVERY_ROTATION
           (set_last_state (Some (state c))
              (publish uart_commands "W" (destroy_timer (rotation_timer c) c))).
Proof.
  intros Hasked Hlast Hbig Hsmall.
  exists (after_failed_rotation c). split.
  - exact (rotation_timer_callback_failed c asked heading
             Hasked Hlast Hbig Hsmall).
  - simpl. repeat split; try reflexivity. assumption.
Qed.

(** What [start_rotation_timer] records, whatever the state before. *)
Lemma start_rotation_timer_records (angle : Q) (st : TimerState)
    (c : Controller) :
  let c' := start_rotation_timer angle st c in
  rotation_timer_state c' = st /\
  rotation_asked c' = Some angle /\
  last_theta c' = Some (theta c) /\
  rotation_timer c' = Some (next_timer c) /\
  rotation_index c' = rotation_index c + 1 /\
  state c' = state c /\
  last_state c' = last_state c /\
  theta c' = theta c.
Proof.
  unfold start_rotation_timer.
  destruct (TimerState_eqb (rotation_timer_state c) TIMER_STATE_OFF);
    simpl;
    destruct (TimerState_eqb (rotation_timer_state c)
                TIMER_STATE_ON_NO_ROTATION);
    simpl; repeat split; reflexivity.
Qed.

(** The turn command and the timer period follow the tag that is stored
    when the call begins, not the tag of the request. *)
Lemma start_rotation_timer_emits (angle : Q) (st : TimerState)
    (c : Controller) :
  let c' := start_rotation_timer angle st c in
  let waiting :=
    TimerState_eqb (rotation_timer_state c) TIMER_STATE_ON_NO_ROTATION in
  published c' =
    published c ++
      (if waiting then []
       else [(uart_commands, if Qltb 0 angle then "d" else "a")%string]) /\
  timers c' =
    (if TimerState_eqb (rotation_timer_state c) TIMER_STATE_OFF
     then timers c
     else without_timer (rotation_timer c) (timers c)) ++
      [mkTimer (next_timer c) rotation_timer_callback_kind
         (if waiting then angle else get_rotation_time (Qabs angle))].
Proof.
  unfold start_rotation_timer.
  destruct (TimerState_eqb (rotation_timer_state c) TIMER_STATE_OFF);
    simpl;
    destruct (TimerState_eqb (rotation_timer_state c)
                TIMER_STATE_ON_NO_ROTATION);
    simpl; rewrite ?app_nil_r; split; reflexivity.
Qed.

(** In RECOVERY_ROTATION a success status puts back [last_state] and
    calls [start_rotation_timer] with the stored angle and tag. *)
Lemma recovery_rotation_success (c : Controller) (st : MissionState)
    (asked : Q) :
  state c = RECOVERY_ROTATION ->
  last_state c = Some st ->
  rotation_asked c = Some asked ->
  listener_arduino_status 1 c =
    Ok (start_rotation_timer asked (rotation_timer_state c) (set_state st c)).
Proof.
  intros Hs Hl Ha. unfold listener_arduino_status.
  rewrite Hs. simpl. rewrite Hl. simpl. rewrite Ha. reflexivity.
Qed.


(** *** The status stream *)

(** C6: a status code with no rule for the active state leaves the whole
    controller as it is, published trace and timers included, and the
    callback ends without an exception; so for status 2 in any state,
    status 0 in INITIAL_ROTATION_MODE, and any status in TRAVEL_MODE or
    RANDOM_SEARCH_MODE. *)
Theorem unlisted_status_is_ignored (c : Controller) (status : Z) :
  (in_transition_table (state c) status = false ->
   listener_arduino_status status c = Ok c) /\
  listener_arduino_status 2 c = Ok c /\
  (state c = INITIAL_ROTATION_MODE -> listener_arduino_status 0 c = Ok c) /\
  (state c = TRAVEL_MODE \/ state c = RANDOM_SEARCH_MODE ->
   listener_arduino_status status c = Ok c).
Proof.
  unfold listener_arduino_status, in_transition_table.
  repeat split.
  - destruct (state c); intro H;
      repeat (apply orb_false_iff in H; destruct H as [H ?]);
      repeat match goal with
             | E : (_ =? _) = false |- _ => rewrite E; clear E
             end; reflexivity.
  - destruct (state c); reflexivity.
  - intros ->. reflexivity.
  - intros [-> | ->]; reflexivity.
Qed.

(** C7, as far as the code goes: on a freshly built node (stored tag
    OFF) a request with the wait tag and angle 1 publishes the turn
    command "d" and schedules the rotation time of 1 degree, not 1 second:
    the branch that waits tests the stored tag of the previous request. *)
Theorem wait_request_still_turns :
  let c0 := init plain_args in
  let c1 := start_rotation_timer 1 TIMER_STATE_ON_NO_ROTATION c0 in
  rotation_timer_state c0 = TIMER_STATE_OFF /\
  published c1 = published c0 ++ [(uart_commands, "d"%string)] /\
  timers c1 =
    [mkTimer 0 rotation_timer_callback_kind (get_rotation_time (Qabs 1))] /\
  rotation_timer_state c1 = TIMER_STATE_ON_NO_ROTATION.
Proof. repeat split; reflexivity. Qed.

(** *** The detection stream *)

(** C10: with the detector on, the callback takes [msg.detections[0]]
    before anything looks at the length of the list.  On an empty list it
    ends with IndexError, and only then; a message whose first detection
    has the wrong orientation is dropped, and any other message of at
    least one detection is handled without an exception once a dwell has
    been started.  With the detector off every message is dropped. *)
Theorem detection_callback_needs_a_detection
    (c : Controller) (msg : Detection2DArray) :
  (detectnet_state c = DETECTNET_OFF ->
   listener_callback_detectnet msg c = Ok c) /\
  (detectnet_state c = DETECTNET_ON ->
   (msg_detections msg = [] <->
    listener_callback_detectnet msg c = Raise IndexError) /\
   (forall d ds,
      msg_detections msg = d :: ds ->
      (source_img_height d <? source_img_width d) <> is_flipped c ->
      listener_callback_detectnet msg c = Ok c) /\
   (msg_detections msg <> [] ->
    detections c <> None ->
    wait_for_detectnet_timer c <> None ->
    exists c', listener_callback_detectnet msg c = Ok c')).
Proof.
  unfold listener_callback_detectnet. split.
  - intros ->. reflexivity.
  - intros ->. split; [|split].
    + destruct (msg_detections msg) as [|d ds] eqn:E.
      * split; reflexivity.
      * split; [discriminate|]. simpl.
        destruct (negb _); [discriminate|].
        destruct (detections c); [|discriminate].
        unfold flip_camera_and_reset_detectnet_timer. simpl.
        destruct (wait_for_detectnet_timer c); [|discriminate]. simpl.
        destruct (negb (is_flipped c)); [discriminate|].
        unfold take_bottle_decision. simpl.
        destruct (l ++ _); discriminate.
    + intros d ds E Hflip. rewrite E. simpl.
      destruct (source_img_height d <? source_img_width d), (is_flipped c);
        simpl; congruence.
    + intros Hne Hd Hw.
      destruct (msg_detections msg) as [|d ds]; [congruence|]. simpl.
      destruct (negb _); [eauto|].
      destruct (detections c); [|congruence].
      unfold flip_camera_and_reset_detectnet_timer. simpl.
      destruct (wait_for_detectnet_timer c); [|congruence]. simpl.
      destruct (negb (is_flipped c)); [eauto|].
      unfold take_bottle_decision. simpl.
      destruct (l ++ _); eauto.
Qed.

(** *** Random search *)

Lemma search_entries_count (k : nat) (c : Controller) :
  n_random_search (Nat.iter k start_random_search_detection c)
    = n_random_search c + Z.of_nat k /\
  bottles_picked (Nat.iter k start_random_search_detection c)
    = bottles_picked c.
Proof.
  induction k as [|k [IHn IHb]].
  - simpl. split; [lia | reflexivity].
  - rewrite Nat2Z.inj_succ. simpl Nat.iter.
    set (d := Nat.iter k start_random_search_detection c) in *.
    unfold start_random_search_detection. simpl.
    destruct ((n_random_search d + 1 =? N_RANDOM_SEARCH_MAX)
              || (bottles_picked d =? MAX_BOTTLE_PICKED));
      simpl; split; lia.
Qed.

Lemma search_entry_state (c : Controller) :
  state (start_random_search_detection c) =
    if (n_random_search c + 1 =? N_RANDOM_SEARCH_MAX)
       || (bottles_picked c =? MAX_BOTTLE_PICKED)
    then TRAVEL_MODE else RANDOM_SEARCH_MODE.
Proof.
  unfold start_random_search_detection. simpl.
  destruct ((n_random_search c + 1 =? N_RANDOM_SEARCH_MAX)
            || (bottles_picked c =? MAX_BOTTLE_PICKED)); reflexivity.
Qed.

Lemma search_round_state (k : nat) (c : Controller) :
  state (Nat.iter (S k) start_random_search_detection c) =
    if (n_random_search c + Z.of_nat k + 1 =? N_RANDOM_SEARCH_MAX)
       || (bottles_picked c =? MAX_BOTTLE_PICKED)
    then TRAVEL_MODE else RANDOM_SEARCH_MODE.
Proof.
  change (Nat.iter (S k) start_random_search_detection c)
    with (start_random_search_detection
            (Nat.iter k start_random_search_detection c)).
  rewrite search_entry_state.
  destruct (search_entries_count k c) as [-> ->]. reflexivity.
Qed.

(** The end of a fallback rotation is an entry to the random search. *)
Lemma delta_rotation_end_enters_search (c : Controller) (asked : Q) :
  rotation_asked c = Some asked ->
  rotation_timer_state c = TIMER_STATE_ON_RANDOM_SEARCH_DELTA_ROTATION ->
  ~ (39 < Qabs asked)%Q ->
  rotation_timer_callback c =
    Ok (start_random_search_detection
          (publish uart_commands "x"
             (set_rotation_timer_state TIMER_STATE_OFF
                (destroy_timer (rotation_timer c) c)))).
Proof.
  intros Ha Ht Hsmall. apply Qltb_nlt in Hsmall.
  unfold rotation_timer_callback. simpl.
  rewrite Ha, Hsmall, Ht. reflexivity.
Qed.

(** C5, amended: every entry adds one to the counter; an entry that
    brings the counter to N_RANDOM_SEARCH_MAX, or finds MAX_BOTTLE_PICKED
    bottles picked, turns the detector off and starts the travel mode,
    with no new timer and no "xm2"; any other entry dwells.  Counted from
    a zone arrival (counter 0) with the bottle quota not reached, the
    first N_RANDOM_SEARCH_MAX - 1 entries dwell and entry number
    N_RANDOM_SEARCH_MAX goes to TRAVEL_MODE. *)
Theorem random_search_entry_quota (c : Controller) :
  let c' := start_random_search_detection c in
  n_random_search c' = n_random_search c + 1 /\
  (n_random_search c + 1 = N_RANDOM_SEARCH_MAX
   \/ bottles_picked c = MAX_BOTTLE_PICKED ->
   state c' = TRAVEL_MODE /\
   detectnet_state c' = DETECTNET_OFF /\
   timers c' = timers c /\
   wait_for_detectnet_timer c' = wait_for_detectnet_timer c /\
   published c' =
     published c ++
       [(camera_control, "destroy"%string); (uart_commands, "m1"%string)]) /\
  (n_random_search c + 1 <> N_RANDOM_SEARCH_MAX ->
   bottles_picked c <> MAX_BOTTLE_PICKED ->
   state c' = RANDOM_SEARCH_MODE /\
   detectnet_state c' = DETECTNET_ON /\
   timers c' =
     timers c ++
       [mkTimer (next_timer c) detection_timer_callback_kind
          TIME_FOR_VISION_DETECTION] /\
   published c' =
     published c ++
       [(uart_commands, "xm2"%string); (camera_control, "create"%string)]) /\
  (n_random_search c = 0 ->
   bottles_picked c <> MAX_BOTTLE_PICKED ->
   (forall k : nat,
      (1 <= k < Z.to_nat N_RANDOM_SEARCH_MAX)%nat ->
      state (Nat.iter k start_random_search_detection c)
        = RANDOM_SEARCH_MODE) /\
   state (Nat.iter (Z.to_nat N_RANDOM_SEARCH_MAX)
            start_random_search_detection c) = TRAVEL_MODE).
Proof.
  cbv zeta. split; [|split; [|split]].
  - unfold start_random_search_detection. simpl.
    destruct ((n_random_search c + 1 =? N_RANDOM_SEARCH_MAX)
              || (bottles_picked c =? MAX_BOTTLE_PICKED)); reflexivity.
  - intro H.
    assert (E : (n_random_search c + 1 =? N_RANDOM_SEARCH_MAX)
                || (bottles_picked c =? MAX_BOTTLE_PICKED) = true).
    { apply orb_true_iff. destruct H as [H | H]; [left | right];
        apply Z.eqb_eq; exact H. }
    unfold start_random_search_detection. simpl. rewrite E.
    simpl. rewrite <- app_assoc. repeat split; reflexivity.
  - intros Hn Hb.
    assert (E : (n_random_search c + 1 =? N_RANDOM_SEARCH_MAX)
                || (bottles_picked c =? MAX_BOTTLE_PICKED) = false).
    { apply orb_false_iff. split; apply Z.eqb_neq; assumption. }
    unfold start_random_search_detection. simpl. rewrite E.
    simpl. rewrite <- app_assoc. repeat split; reflexivity.
  - intros Hzero Hb.
    assert (Hb' : (bottles_picked c =? MAX_BOTTLE_PICKED) = false)
      by (apply Z.eqb_neq; assumption).
    split.
    + intros [|k] [Hlo Hhi]; [lia|].
      rewrite search_round_state, Hzero, Hb'.
      replace (0 + Z.of_nat k + 1 =? N_RANDOM_SEARCH_MAX) with false
        by (symmetry; apply Z.eqb_neq; unfold N_RANDOM_SEARCH_MAX in *; lia).
      reflexivity.
    + pose proof (search_round_state 10 c) as H.
      rewrite Hzero, Hb' in H. exact H.
Qed.

(** *** The lidar stream *)

(** C2, amended: unless the [--travel] guard returns at once (then the
    event changes nothing), a forward obstacle is answered by "x" as the
    first command published, followed by the reaction of the state: in
    BOTTLE_REACHING_MODE the 40 degree delta rotation; in TRAVEL_MODE,
    moving forward, the flag that forces a new path; in
    BOTTLE_RELEASE_MODE, moving forward, the forward flag cleared and
    "x" then "q" published.  In any other state, when not moving forward
    in the two states that ask for it, or without an obstacle, the event
    changes nothing. *)
Theorem lidar_obstacle_reaction (c : Controller) (msg : LidarData) :
  let c' := lidar_callback msg c in
  let sees := check_obstacle_ahead (distances msg) (angles msg) in
  (lidar_returns_early c = true -> c' = c) /\
  (lidar_returns_early c = false ->
   (state c = BOTTLE_REACHING_MODE ->
    sees (threshold_low 15) = true ->
    c' = start_rotation_timer DELTA_RANDOM_SEARCH
           TIMER_STATE_ON_RANDOM_SEARCH_DELTA_ROTATION
           (publish uart_commands "x" c) /\
    rotation_asked c' = Some 40%Q /\
    exists rest,
      published c' = published c ++ (uart_commands, "x"%string) :: rest) /\
   (state c = TRAVEL_MODE ->
    is_traveling_forward c = true ->
    sees (length_to_check 350) = true ->
    c' = set_has_to_find_new_path true (publish uart_commands "x" c) /\
    has_to_find_new_path c' = true /\
    published c' = published c ++ [(uart_commands, "x"%string)]) /\
   (state c = BOTTLE_RELEASE_MODE ->
    is_traveling_forward c = true ->
    sees (length_to_check 700) = true ->
    c' = publish uart_commands "q"
           (publish uart_commands "x" (set_is_traveling_forward false c)) /\
    is_traveling_forward c' = false /\
    published c' =
      published c ++
        [(uart_commands, "x"%string); (uart_commands, "q"%string)]) /\
   ((state c = TRAVEL_MODE \/ state c = BOTTLE_RELEASE_MODE) ->
    is_traveling_forward c = false -> c' = c) /\
   (state c <> BOTTLE_REACHING_MODE ->
    state c <> TRAVEL_MODE ->
    state c <> BOTTLE_RELEASE_MODE -> c' = c) /\
   (sees (threshold_low 15) = false ->
    sees (length_to_check 350) = false ->
    sees (length_to_check 700) = false -> c' = c)).
Proof.
  cbv zeta. unfold lidar_callback. split.
  - intros ->. reflexivity.
  - intros ->. repeat split.
    + rewrite H, H0. reflexivity.
    + rewrite H, H0.
      apply (start_rotation_timer_records DELTA_RANDOM_SEARCH).
    + rewrite H, H0.
      destruct (start_rotation_timer_emits DELTA_RANDOM_SEARCH
                  TIMER_STATE_ON_RANDOM_SEARCH_DELTA_ROTATION
                  (publish uart_commands "x" c)) as [Hp _].
      rewrite Hp. simpl. rewrite <- app_assoc. simpl. eauto.
    + rewrite H, H0, H1. reflexivity.
    + rewrite H, H0, H1. reflexivity.
    + rewrite H, H0, H1. reflexivity.
    + rewrite H, H0, H1. reflexivity.
    + rewrite H, H0, H1. reflexivity.
    + rewrite H, H0, H1. simpl. rewrite <- app_assoc. reflexivity.
    + intros [-> | ->] ->; reflexivity.
    + intros H1 H2 H3. destruct (state c); congruence.
    + intros -> -> ->.
      destruct (state c), (is_traveling_forward c); reflexivity.
Qed.

(** *** Travel mode *)








(** The planning step when the update of the zones is found invalid. *)
Lemma path_planning_invalid
    (c : Controller) (pos : Vec) (msg : MapMessage)
    (binary_dilated binary : Binary) (corners : Corners) (area : Q)
    (contours : Contours) :
  filter_map (get_map (map_data msg)) 14 = (binary_dilated, binary) ->
  get_bounding_rect binary = Some (corners, area, contours) ->
  (initial_zones_found c = true
   \/ (AREA_THRESHOLD < area)%Q /\ ~ (240000 < area)%Q) ->
  let stored :=
    if initial_zones_found c then zones c
    else get_initial_zones corners pos 0 in
  are_new_zones_valid (get_zones_from_previous corners stored) stored
    = false ->
  exists c',
    path_planning pos msg c = Ret c' /\
    zones c' = stored /\
    state c' = RECOVERY_SLAM /\
    published c' =
      published c ++
        (if TimerState_eqb (rotation_timer_state c) TIMER_STATE_ON_TRAVEL_MODE
         then [(uart_commands, "x"%string)] else []) ++
        [(uart_commands, "R"%string)].
Proof.
  intros Hfilter Hrect Hfound stored Hinvalid. subst stored.
  unfold path_planning, find_initial_zones. rewrite Hfilter.
  destruct (TimerState_eqb (rotation_timer_state c)
              TIMER_STATE_ON_TRAVEL_MODE) eqn:Etm;
    cbv zeta; rewrite Hrect; cbn;
    destruct (is_saving c || is_plotting c); cbn;
    destruct (initial_zones_found c) eqn:Efound; cbn.
  all: try (rewrite ?Efound; cbn; rewrite Hinvalid;
            eexists; (split; [reflexivity|]);
            cbn; rewrite <- ?app_assoc; repeat split; reflexivity).
  all: destruct Hfound as [Hf | [Hlo Hhi]]; [discriminate|];
    apply Qltb_lt in Hlo; apply Qltb_nlt in Hhi;
    rewrite ?Efound; cbn; rewrite Hlo, Hhi; cbn; rewrite Hinvalid;
    eexists; (split; [reflexivity|]);
    cbn; rewrite <- ?app_assoc; repeat split; reflexivity.
Qed.


(** A path made by the planning step is a numpy array. *)
Lemma plan_path_gives_array (pos : Vec) (binary_dilated : Binary)
    (c c' : Controller) :
  plan_path pos binary_dilated c = Go c' ->
  (exists rows, path c' = NdArray rows) \/ path c' = NdScalarNone.
Proof.
  unfold plan_path. simpl.
  destruct (py_index TARGETS_TO_VISIT (current_target_index c));
    [|discriminate].
  destruct (py_index (get_targets_from_zones (zones c)) z); [|discriminate].
  intro H. inversion H; subst; clear H. simpl.
  destruct (rrt_planning pos v binary_dilated (get_random_area (zones c)));
    eauto.
Qed.

(** C9, as far as the code goes: the forward sub-state publishes "w" and
    sets the forward flag, but on a path as the planner step stores it (a
    numpy array) the deletion of the last waypoint, due when the robot is
    closer than MIN_DIST_TO_POINT to the second-to-last one, ends the
    callback with ValueError and no path is shortened; a path of one
    waypoint has no second-to-last element and ends with IndexError. *)
Theorem forward_sub_state_cannot_shorten_array
    (c : Controller) (pos : Vec) (rows : list Vec) :
  path c = NdArray rows ->
  (forall p,
     py_index rows (-2) = Some p ->
     (get_distance pos p < MIN_DIST_TO_POINT)%Q ->
     forward_sub_state pos c = Raise ValueError) /\
  (forall p,
     py_index rows (-2) = Some p ->
     ~ (get_distance pos p < MIN_DIST_TO_POINT)%Q ->
     forward_sub_state pos c =
       Ok (set_is_traveling_forward true (publish uart_commands "w" c))) /\
  (forall w, rows = [w] -> forward_sub_state pos c = Raise IndexError).
Proof.
  intro Hpath. unfold forward_sub_state. simpl. rewrite Hpath. simpl.
  repeat split.
  - intros p Hp Hnear. apply Qltb_lt in Hnear. rewrite Hp, Hnear. reflexivity.
  - intros p Hp Hfar. apply Qltb_nlt in Hfar. rewrite Hp, Hfar. reflexivity.
  - intros w ->. reflexivity.
Qed.

(** *** The discipline of the rotation timer *)

Lemma filter_dwell_timer (l : list Timer) (h : nat) (p : Q) :
  filter is_rotation_timer (l ++ [mkTimer h detection_timer_callback_kind p])
    = filter is_rotation_timer l.
Proof. rewrite filter_app. simpl. apply app_nil_r. Qed.

Lemma filter_rotation_timer (l : list Timer) (h : nat) (p : Q) :
  filter is_rotation_timer (l ++ [mkTimer h rotation_timer_callback_kind p])
    = filter is_rotation_timer l ++ [mkTimer h rotation_timer_callback_kind p].
Proof. rewrite filter_app. reflexivity. Qed.

Lemma filter_without_timer (h : option nat) (l : list Timer) :
  filter is_rotation_timer (without_timer h l)
    = without_timer h (filter is_rotation_timer l).
Proof.
  destruct h as [i|]; [|reflexivity]. simpl.
  induction l as [|t l IH]; [reflexivity|]. simpl.
  destruct (negb (timer_id t =? i)%nat) eqn:E1,
           (is_rotation_timer t) eqn:E2; simpl;
    rewrite ?E1, ?E2, IH; reflexivity.
Qed.

Lemma timers_ok_nil (tag : TimerState) (h : option nat) : timers_ok tag h [].
Proof. split; [left; reflexivity | reflexivity]. Qed.

Lemma timers_ok_without (tag : TimerState) (h h' : option nat)
    (rt : list Timer) :
  timers_ok tag h rt -> timers_ok tag h (without_timer h' rt).
Proof.
  intros [[-> | (t & -> & Hh)] Hoff].
  - destruct h'; apply timers_ok_nil.
  - destruct h' as [i|]; simpl.
    + destruct (negb (timer_id t =? i)%nat).
      * split; [right; eauto | exact Hoff].
      * apply timers_ok_nil.
    + split; [right; eauto | exact Hoff].
Qed.

Lemma without_own_timer (tag : TimerState) (h : option nat) (rt : list Timer) :
  timers_ok tag h rt -> without_timer h rt = [].
Proof.
  intros [[-> | (t & -> & ->)] _].
  - destruct h; reflexivity.
  - simpl. rewrite Nat.eqb_refl. reflexivity.
Qed.

Lemma timers_ok_fresh (tag : TimerState) (t : Timer) :
  tag <> TIMER_STATE_OFF -> timers_ok tag (Some (timer_id t)) [t].
Proof.
  intro Hne. split; [right; eauto | intro; contradiction].
Qed.

(** After [start_rotation_timer] exactly the new timer is live. *)
Lemma start_rotation_timer_live (angle : Q) (st : TimerState) (c : Controller) :
  timer_discipline c ->
  exists period,
    rotation_timers (start_rotation_timer angle st c)
      = [mkTimer (next_timer c) rotation_timer_callback_kind period].
Proof.
  intro Hd.
  destruct (start_rotation_timer_emits angle st c) as [_ Ht].
  unfold rotation_timers. rewrite Ht, filter_rotation_timer.
  eexists.
  replace (filter is_rotation_timer _) with (@nil Timer); [reflexivity|].
  destruct (TimerState_eqb (rotation_timer_state c) TIMER_STATE_OFF) eqn:E.
  - apply TimerState_eqb_eq in E. symmetry. apply Hd. exact E.
  - rewrite filter_without_timer. symmetry.
    exact (without_own_timer _ _ _ Hd).
Qed.

Lemma start_rotation_timer_discipline (angle : Q) (st : TimerState)
    (c : Controller) :
  st <> TIMER_STATE_OFF ->
  timer_discipline c ->
  timer_discipline (start_rotation_timer angle st c).
Proof.
  intros Hne Hd.
  destruct (start_rotation_timer_live angle st c Hd) as [period Hrt].
  destruct (start_rotation_timer_records angle st c)
    as (Htag & _ & _ & Hh & _).
  unfold timer_discipline. rewrite Hrt, Htag, Hh.
  exact (timers_ok_fresh st (mkTimer (next_timer c) _ period) Hne).
Qed.


Lemma without_timer_nonempty (h : option nat) (rt : list Timer) :
  without_timer h rt <> [] -> rt <> [].
Proof. intros H ->. apply H. destruct h; reflexivity. Qed.

(** A callback step that touches neither the mission state nor the
    rotation bookkeeping, except that live timers may be destroyed. *)
Lemma invariant_shrink (h : option nat) (c c' : Controller) :
  state c' = state c ->
  rotation_timer_state c' = rotation_timer_state c ->
  last_state c' = last_state c ->
  rotation_timer c' = rotation_timer c ->
  rotation_timers c' = without_timer h (rotation_timers c) ->
  controller_invariant c -> controller_invariant c'.
Proof.
  intros Hs Ht Hl Hh Hr [Hd Hrec]. split.
  - unfold timer_discipline. rewrite Ht, Hh, Hr.
    apply timers_ok_without. exact Hd.
  - unfold recovery_discipline. rewrite Hs, Ht, Hl, Hr. intro Hrr.
    destruct (Hrec Hrr) as (H3 & H4 & H5).
    split; [exact H3|]. split; [|exact H5].
    intro Hne. apply H4. exact (without_timer_nonempty h _ Hne).
Qed.

Lemma invariant_outside (c : Controller) :
  timer_discipline c -> state c <> RECOVERY_ROTATION ->
  controller_invariant c.
Proof. intros Hd Hs. split; [exact Hd|]. intro. contradiction. Qed.

Lemma invariant_start_rotation (angle : Q) (st : TimerState) (c : Controller) :
  st <> TIMER_STATE_OFF ->
  (state c = RECOVERY_ROTATION -> ends_in_place st = false) ->
  timer_discipline c ->
  controller_invariant (start_rotation_timer angle st c).
Proof.
  intros Hne Hplace Hd. split.
  - apply start_rotation_timer_discipline; assumption.
  - destruct (start_rotation_timer_records angle st c)
      as (Htag & _ & _ & _ & _ & Hstate & _).
    unfold recovery_discipline. rewrite Htag, Hstate. intro Hrr.
    repeat split; auto.
Qed.

Lemma search_detection_discipline (c : Controller) :
  timer_discipline c ->
  timer_discipline (start_random_search_detection c) /\
  state (start_random_search_detection c) <> RECOVERY_ROTATION.
Proof.
  intro Hd. unfold start_random_search_detection. cbn.
  destruct ((n_random_search c + 1 =? N_RANDOM_SEARCH_MAX)
            || (bottles_picked c =? MAX_BOTTLE_PICKED)).
  - split; [exact Hd | discriminate].
  - split; [|discriminate].
    unfold timer_discipline, rotation_timers. cbn.
    rewrite filter_dwell_timer. exact Hd.
Qed.

Lemma invariant_search_detection (c : Controller) :
  timer_discipline c ->
  controller_invariant (start_random_search_detection c).
Proof.
  intro Hd. destruct (search_detection_discipline c Hd).
  apply invariant_outside; assumption.
Qed.

Lemma invariant_take_bottle_decision (c c' : Controller) :
  controller_invariant c ->
  take_bottle_decision c = Ok c' ->
  controller_invariant c'.
Proof.
  intros [Hd _]. unfold take_bottle_decision. cbn.
  destruct (detections c) as [[|d ds]|]; [| |discriminate];
    intro H; inversion H; subst; clear H;
    apply invariant_start_rotation; try discriminate; try reflexivity;
    exact Hd.
Qed.

Lemma invariant_flip_camera (c c' : Controller) :
  controller_invariant c ->
  flip_camera_and_reset_detectnet_timer c = Ok c' ->
  controller_invariant c'.
Proof.
  intros Hinv. unfold flip_camera_and_reset_detectnet_timer. cbn.
  destruct (wait_for_detectnet_timer c) as [h|] eqn:Eh; [|discriminate].
  destruct (negb (is_flipped c)).
  - intro H. inversion H; subst; clear H.
    apply (invariant_shrink (Some h) c); try reflexivity; [|exact Hinv].
    unfold rotation_timers. cbn. rewrite filter_dwell_timer.
    exact (filter_without_timer (Some h) (timers c)).
  - apply invariant_take_bottle_decision.
    apply (invariant_shrink (Some h) c); try reflexivity; [|exact Hinv].
    unfold rotation_timers. cbn.
    exact (filter_without_timer (Some h) (timers c)).
Qed.

Lemma invariant_detectnet (msg : Detection2DArray) (c c' : Controller) :
  controller_invariant c ->
  listener_callback_detectnet msg c = Ok c' ->
  controller_invariant c'.
Proof.
  intro Hinv. unfold listener_callback_detectnet.
  destruct (detectnet_state c).
  - destruct (py_index (msg_detections msg) 0); [|discriminate].
    destruct (negb _).
    + intro H. inversion H; subst. exact Hinv.
    + destruct (detections c); [|discriminate].
      apply invariant_flip_camera. exact Hinv.
  - intro H. inversion H; subst. exact Hinv.
Qed.

Lemma invariant_lidar (msg : LidarData) (c : Controller) :
  controller_invariant c -> controller_invariant (lidar_callback msg c).
Proof.
  intro Hinv. unfold lidar_callback.
  destruct (lidar_returns_early c); [exact Hinv|].
  destruct (state c) eqn:Es; try exact Hinv.
  - destruct (is_traveling_forward c); [|exact Hinv].
    destruct (check_obstacle_ahead _ _ _); [|exact Hinv].
    apply (invariant_shrink None c); try reflexivity. exact Hinv.
  - destruct (is_traveling_forward c); [|exact Hinv].
    destruct (check_obstacle_ahead _ _ _); [|exact Hinv].
    apply (invariant_shrink None c); try reflexivity. exact Hinv.
  - destruct (check_obstacle_ahead _ _ _); [|exact Hinv].
    apply invariant_start_rotation; try discriminate.
    + reflexivity.
    + exact (proj1 Hinv).
Qed.


Lemma discipline_of_nil (c : Controller) :
  rotation_timers c = [] -> timer_discipline c.
Proof. intro H. unfold timer_discipline. rewrite H. apply timers_ok_nil. Qed.

Lemma destroy_own_timer (c : Controller) :
  timer_discipline c ->
  rotation_timers (destroy_timer (rotation_timer c) c) = [].
Proof.
  intro Hd. unfold rotation_timers, destroy_timer. cbn.
  rewrite filter_without_timer. exact (without_own_timer _ _ _ Hd).
Qed.

Lemma invariant_rotation_timer_callback (c c' : Controller) :
  controller_invariant c ->
  rotation_timers c <> [] ->
  rotation_timer_callback c = Ok c' ->
  controller_invariant c'.
Proof.
  intros [Hd Hrec] Hlive.
  assert (Hon : rotation_timer_state c <> TIMER_STATE_OFF).
  { intro Hoff. apply Hlive. apply Hd. exact Hoff. }
  assert (Hplace : state c = RECOVERY_ROTATION ->
                   ends_in_place (rotation_timer_state c) = false).
  { intro Hrr. destruct (Hrec Hrr) as (_ & H4 & _). exact (H4 Hlive). }
  pose proof (destroy_own_timer c Hd) as Hnil.
  set (d := destroy_timer (rotation_timer c) c) in *.
  unfold rotation_timer_callback. fold d.
  change (rotation_asked d) with (rotation_asked c).
  destruct (rotation_asked c) as [asked|]; [|discriminate].
  destruct (if Qltb 39 (Qabs asked) then _ else _) as [e | [|]];
    [discriminate| |].
  - (* the verification failed *)
    intro H. inversion H; subst; clear H. split.
    + apply discipline_of_nil. exact Hnil.
    + intros _. split; [exact Hon|]. split.
      * intro Hne. contradiction Hne.
      * intro Hl. apply Hplace. cbn in Hl. congruence.
  - (* the follow-up action of the tag *)
    change (rotation_timer_state d) with (rotation_timer_state c).
    destruct (rotation_timer_state c) eqn:Etag;
      intro H; inversion H; subst; clear H.
    + contradiction.
    + apply invariant_outside.
      * apply discipline_of_nil. exact Hnil.
      * intro Hrr. specialize (Hplace Hrr). discriminate.
    + apply invariant_outside; [|discriminate].
      apply discipline_of_nil. exact Hnil.
    + apply invariant_search_detection.
      apply discipline_of_nil. exact Hnil.
    + apply invariant_outside.
      * apply discipline_of_nil. exact Hnil.
      * intro Hrr. specialize (Hplace Hrr). discriminate.
    + split.
      * apply discipline_of_nil. exact Hnil.
      * intros _.
        change (rotation_timer_state d) with (rotation_timer_state c).
        rewrite Etag. split; [discriminate|]. split.
        -- intro Hne. contradiction Hne.
        -- reflexivity.
    + apply invariant_outside.
      * apply discipline_of_nil. exact Hnil.
      * intro Hrr. specialize (Hplace Hrr). discriminate.
    + apply invariant_search_detection.
      apply discipline_of_nil. exact Hnil.
Qed.

Lemma invariant_arduino_status (status : Z) (c c' : Controller) :
  controller_invariant c ->
  listener_arduino_status status c = Ok c' ->
  controller_invariant c'.
Proof.
  intros Hinv. pose proof Hinv as [Hd Hrec].
  unfold listener_arduino_status.
  destruct (state c) eqn:Es.
  - destruct (status =? 1); intro H; inversion H; subst; clear H;
      [|exact Hinv].
    apply invariant_outside; [exact Hd | discriminate].
  - intro H; inversion H; subst. exact Hinv.
  - intro H; inversion H; subst. exact Hinv.
  - destruct (status =? 0); [|destruct (status =? 1)];
      intro H; inversion H; subst; clear H; try exact Hinv;
      apply invariant_search_detection; exact Hd.
  - destruct (status =? 1); intro H; inversion H; subst; clear H;
      [|exact Hinv].
    apply invariant_outside; [exact Hd | discriminate].
  - destruct (status =? 0); [|destruct (status =? 1)];
      intro H; inversion H; subst; clear H; try exact Hinv.
    + apply invariant_search_detection; exact Hd.
    + apply invariant_outside; [exact Hd | discriminate].
  - destruct (status =? 1); [|destruct (status =? 3); [|destruct (status =? 4)]].
    + intro H; inversion H; subst; clear H.
      apply invariant_outside; [exact Hd | cbn; congruence].
    + intro H; inversion H; subst; clear H.
      apply invariant_outside; [exact Hd | cbn; congruence].
    + destruct (py_index TARGETS_TO_VISIT (current_target_index c));
        [|discriminate].
      destruct (z =? 0); intro H; inversion H; subst; clear H.
      * apply invariant_outside; [exact Hd | discriminate].
      * apply invariant_search_detection; exact Hd.
    + intro H; inversion H; subst. exact Hinv.
  - destruct (status =? 1); intro H; inversion H; subst; clear H;
      [|exact Hinv].
    apply invariant_outside; [exact Hd | discriminate].
  - destruct (status =? 1); [|intro H; inversion H; subst; exact Hinv].
    destruct (last_state c) as [st|] eqn:El; [|discriminate].
    change (rotation_asked (set_state st c)) with (rotation_asked c).
    destruct (rotation_asked c) as [asked|]; [|discriminate].
    intro H; inversion H; subst; clear H.
    destruct (Hrec Es) as (H3 & _ & H5).
    apply invariant_start_rotation.
    + exact H3.
    + cbn. intros ->. apply H5. exact El.
    + exact Hd.
Qed.


Lemma outside_start_rotation (angle : Q) (st : TimerState) (c : Controller) :
  st <> TIMER_STATE_OFF ->
  outside_recovery c ->
  outside_recovery (start_rotation_timer angle st c).
Proof.
  intros Hne [Hd Hs]. split.
  - apply start_rotation_timer_discipline; assumption.
  - destruct (start_rotation_timer_records angle st c)
      as (_ & _ & _ & _ & _ & Hstate & _).
    rewrite Hstate. exact Hs.
Qed.

Lemma outside_release (c c' : Controller) :
  timer_discipline c ->
  start_bottle_release_mode c = Ok c' -> outside_recovery c'.
Proof.
  intro Hd. unfold start_bottle_release_mode.
  destruct (zone_pair 0 3 _); [|discriminate].
  intro H; inversion H; subst; clear H.
  apply outside_start_rotation; [discriminate|].
  split; [exact Hd | discriminate].
Qed.

Lemma outside_kick_ass (home : bool) (c c' : Controller) :
  timer_discipline c ->
  start_kick_ass_mode home c = Ok c' -> outside_recovery c'.
Proof.
  intro Hd. unfold start_kick_ass_mode.
  destruct (if home then _ else _); [|discriminate].
  intro H; inversion H; subst; clear H.
  apply outside_start_rotation; [discriminate|].
  split; [exact Hd | discriminate].
Qed.

Lemma outside_goal_reached (reached : Z) (c c' : Controller) :
  outside_recovery c ->
  goal_reached reached c = Ok c' -> outside_recovery c'.
Proof.
  intros [Hd Hs]. unfold goal_reached.
  destruct (existsb (Z.eqb reached) [1; 2; 3; 4]).
  - destruct (if existsb _ _ then _ else _); [|discriminate].
    intro H; inversion H; subst; clear H.
    apply outside_start_rotation; [discriminate|].
    split; [exact Hd | exact Hs].
  - destruct (reached =? 0).
    + apply outside_release. exact Hd.
    + destruct ((reached =? 5) || (reached =? 6)).
      * apply outside_kick_ass. exact Hd.
      * intro H; inversion H; subst; clear H.
        split; [exact Hd | exact Hs].
Qed.

Lemma outside_forward (pos : Vec) (c c' : Controller) :
  outside_recovery c ->
  forward_sub_state pos c = Ok c' -> outside_recovery c'.
Proof.
  intros [Hd Hs]. unfold forward_sub_state.
  destruct (py_index _ _); [|discriminate].
  destruct (Qltb _ _).
  - destruct (path_del_last _); [discriminate|].
    intro H; inversion H; subst; clear H. split; [exact Hd | exact Hs].
  - intro H; inversion H; subst; clear H. split; [exact Hd | exact Hs].
Qed.

Lemma outside_path_tracking (pos : Vec) (c c' : Controller) :
  outside_recovery c ->
  path_tracking pos c = Ok c' -> outside_recovery c'.
Proof.
  intros Hout. unfold path_tracking.
  destruct (path_len (path c)); [|discriminate].
  destruct (n =? 0)%nat, (goal c);
    try (intro H; inversion H; subst; exact Hout).
  destruct (py_index TARGETS_TO_VISIT _); [|discriminate].
  destruct (Qltb _ _); [apply outside_goal_reached; exact Hout|].
  destruct (TimerState_eqb _ _);
    [intro H; inversion H; subst; exact Hout|].
  destruct (Qltb _ _).
  - intro H; inversion H; subst; clear H.
    apply outside_start_rotation; [discriminate|].
    destruct Hout as [Hd Hs]. split; [exact Hd | exact Hs].
  - apply outside_forward. exact Hout.
Qed.

Lemma outside_save_figure (pos : Vec) (msg : MapMessage) (c : Controller) :
  outside_recovery c ->
  match save_figure pos msg c with
  | Go c' | Ret c' => outside_recovery c'
  | Exc _ => True
  end.
Proof.
  intros Hout. unfold save_figure.
  destruct (is_saving c || is_plotting c); [|exact Hout].
  destruct (SAVE_TIME_CONSTANT c =? 0); [exact I|].
  destruct (_ =? 0); [|exact Hout].
  destruct (make_nice_plot _ _ _ _ _ _); exact Hout.
Qed.

Lemma outside_plan_path (pos : Vec) (b : Binary) (c : Controller) :
  outside_recovery c ->
  match plan_path pos b c with
  | Go c' | Ret c' => outside_recovery c'
  | Exc _ => True
  end.
Proof.
  intros Hout. unfold plan_path.
  destruct (py_index TARGETS_TO_VISIT _); [|exact I].
  destruct (py_index _ z); [|exact I]. exact Hout.
Qed.

Lemma outside_path_planning (pos : Vec) (msg : MapMessage) (c : Controller) :
  outside_recovery c ->
  match path_planning pos msg c with
  | Go c' | Ret c' => outside_recovery c'
  | Exc _ => True
  end.
Proof.
  intros [Hd Hs]. unfold path_planning.
  set (c1 := if TimerState_eqb _ _ then _ else c).
  assert (H1 : outside_recovery c1).
  { subst c1. destruct (TimerState_eqb _ _); [|split; assumption].
    split; [|exact Hs].
    apply discipline_of_nil. exact (destroy_own_timer c Hd). }
  clearbody c1. clear Hd Hs.
  destruct (filter_map _ _) as [binary_dilated binary].
  destruct (get_bounding_rect binary) as [[[corners area] contours]|];
    [|exact H1].
  set (c2 := if is_saving c1 || is_plotting c1 then _ else c1).
  assert (H2 : outside_recovery c2).
  { subst c2. destruct (_ || _); exact H1. }
  clearbody c2. clear H1.
  unfold find_initial_zones.
  set (r := if negb (initial_zones_found c2) && _ then _ else _).
  assert (H3 : match r with inl _ => True | inr c3 => outside_recovery c3 end).
  { subst r. destruct (_ && _); [|exact H2].
    destruct (Qltb _ _); [exact I | exact H2]. }
  destruct r as [e | c3]; [exact I|].
  destruct (initial_zones_found c3); [|exact H3].
  destruct (are_new_zones_valid _ _).
  - apply outside_plan_path. exact H3.
  - destruct H3 as [Hd Hs]. split; [exact Hd | discriminate].
Qed.

Lemma outside_travel_mode (msg : MapMessage) (c c' : Controller) :
  outside_recovery c ->
  travel_mode msg c = Ok c' -> outside_recovery c'.
Proof.
  intros Hout. unfold travel_mode.
  set (pos := pos_to_gridpos (x c) (y c)).
  set (c0 := set_robot_pos (Some pos) c).
  assert (H0 : outside_recovery c0) by exact Hout.
  clearbody c0.
  destruct (TimerState_eqb _ _);
    [intro H; inversion H; subst; exact H0|].
  set (planned := if _ || _ then _ else Go c0).
  assert (Hp : match planned with
               | Go d | Ret d => outside_recovery d
               | Exc _ => True
               end).
  { subst planned. destruct (_ || _); [|exact H0].
    apply outside_path_planning. exact H0. }
  destruct planned as [d | d | e]; [| |discriminate].
  - pose proof (outside_save_figure pos msg d Hp) as Hf.
    destruct (save_figure pos msg d) as [d' | d' | e']; [| |discriminate].
    + apply outside_path_tracking. exact Hf.
    + intro H; inversion H; subst. exact Hf.
  - intro H; inversion H; subst. exact Hp.
Qed.

Lemma invariant_callback_map (msg : MapMessage) (c c' : Controller) :
  controller_invariant c ->
  listener_callback_map msg c = Ok c' ->
  controller_invariant c'.
Proof.
  intros Hinv. unfold listener_callback_map.
  destruct (state c) eqn:Es;
    try (intro H; inversion H; subst; exact Hinv).
  intro H.
  assert (Hout : outside_recovery c).
  { split; [exact (proj1 Hinv) | congruence]. }
  destruct (outside_travel_mode msg c c' Hout H) as [Hd Hs].
  apply invariant_outside; assumption.
Qed.

Lemma invariant_init (a : Args) : controller_invariant (init a).
Proof.
  apply invariant_outside.
  - apply discipline_of_nil.
    destruct a as [[] [] [] sv pl pr sr]; reflexivity.
  - destruct a as [[] [] [] sv pl pr sr]; discriminate.
Qed.

Lemma rotation_timer_is_live (h : nat) (t : Timer) (c : Controller) :
  find (fun t => Nat.eqb (timer_id t) h) (timers c) = Some t ->
  timer_kind t = rotation_timer_callback_kind ->
  rotation_timers c <> [].
Proof.
  intros Hfind Hkind Hnil.
  apply find_some in Hfind. destruct Hfind as [Hin _].
  assert (Hin' : In t (rotation_timers c)).
  { apply filter_In. split; [exact Hin|].
    unfold is_rotation_timer. rewrite Hkind. reflexivity. }
  rewrite Hnil in Hin'. contradiction.
Qed.

Lemma invariant_dispatch (ev : Event) (c c' : Controller) :
  controller_invariant c ->
  dispatch ev c = Ok c' ->
  controller_invariant c'.
Proof.
  intro Hinv. destruct ev as [pos | msg | status | msg | msg | h]; simpl.
  - intro H; inversion H; subst; clear H.
    apply (invariant_shrink None c); try reflexivity. exact Hinv.
  - apply invariant_callback_map. exact Hinv.
  - apply invariant_arduino_status. exact Hinv.
  - apply invariant_detectnet. exact Hinv.
  - intro H; inversion H; subst; clear H. apply invariant_lidar. exact Hinv.
  - destruct (find _ _) as [t|] eqn:Ef;
      [|intro H; inversion H; subst; exact Hinv].
    destruct (timer_kind t) eqn:Ek.
    + apply invariant_rotation_timer_callback; [exact Hinv|].
      exact (rotation_timer_is_live h t c Ef Ek).
    + apply invariant_flip_camera. exact Hinv.
Qed.

Lemma reachable_invariant (c : Controller) :
  reachable c -> controller_invariant c.
Proof.
  induction 1 as [a | c c' ev _ IH Hstep].
  - apply invariant_init.
  - exact (invariant_dispatch ev c c' IH Hstep).
Qed.


(** C8: in every state the node can reach, at most one rotation timer
    is live.  A new rotation request leaves exactly one live rotation
    timer, the one it creates and stores in [rotation_timer]: whatever
    was outstanding is cancelled.  The same request (with a purpose tag,
    that is, a tag other than OFF) issued a second time right away leaves
    again exactly one live rotation timer, and the recorded heading,
    angle and tag are those of the second request. *)
Theorem one_rotation_timer (c : Controller) :
  reachable c ->
  (List.length (rotation_timers c) <= 1)%nat /\
  forall (angle : Q) (tag : TimerState),
    let c1 := start_rotation_timer angle tag c in
    (exists period,
       rotation_timers c1 =
         [mkTimer (next_timer c) rotation_timer_callback_kind period]) /\
    rotation_timer c1 = Some (next_timer c) /\
    (tag <> TIMER_STATE_OFF ->
     let c2 := start_rotation_timer angle tag c1 in
     (exists period,
        rotation_timers c2 =
          [mkTimer (next_timer c1) rotation_timer_callback_kind period]) /\
     rotation_timer c2 = Some (next_timer c1) /\
     last_theta c2 = Some (theta c1) /\
     rotation_asked c2 = Some angle /\
     rotation_timer_state c2 = tag).
Proof.
  intro Hreach.
  destruct (reachable_invariant c Hreach) as [Hd _]. split.
  - destruct Hd as [[-> | (t & -> & _)] _]; simpl; lia.
  - intros angle tag c1. split; [|split].
    + exact (start_rotation_timer_live angle tag c Hd).
    + apply (start_rotation_timer_records angle tag c).
    + intros Htag c2.
      assert (Hd1 : timer_discipline c1)
        by (apply start_rotation_timer_discipline; assumption).
      destruct (start_rotation_timer_records angle tag c1)
        as (Ht & Ha & Hl & Hh & _).
      split; [exact (start_rotation_timer_live angle tag c1 Hd1)|].
      repeat split; assumption.
Qed.

End Properties.

(** ** Concrete runs *)

(** C1 at a stalled fallback rotation. *)
Lemma rotation_failure_enters_recovery_witness :
  rotation_asked stalled_rotation = Some 40%Q /\
  last_theta stalled_rotation = Some 0%Q /\
  (39 < Qabs 40)%Q /\
  (Qabs (@angle_diff quiet 0 (theta stalled_rotation)) < 5)%Q /\
  exists c',
    rotation_timer_callback stalled_rotation = Ok c' /\
    published c' =
      published stalled_rotation ++ [(uart_commands, "W"%string)] /\
    last_state c' = Some INITIAL_ROTATION_MODE /\
    state c' = RECOVERY_ROTATION.
Proof.
  assert (H1 : rotation_asked stalled_rotation = Some 40%Q) by reflexivity.
  assert (H2 : last_theta stalled_rotation = Some 0%Q) by reflexivity.
  assert (H3 : (39 < Qabs 40)%Q) by reflexivity.
  assert (H4 : (Qabs (@angle_diff quiet 0 (theta stalled_rotation)) < 5)%Q)
    by reflexivity.
  repeat (split; [assumption|]).
  destruct (rotation_failure_enters_recovery stalled_rotation 40%Q 0%Q
              H1 H2 H3 H4) as (c' & Hcb & Hpub & Hlast & Hstate & _).
  exists c'. repeat split; assumption.
Defined.


(** C2, amended, at a node in BOTTLE_REACHING_MODE facing an obstacle. *)
Lemma lidar_obstacle_reaction_witness :
  lidar_returns_early reaching = false /\
  state reaching = BOTTLE_REACHING_MODE /\
  @check_obstacle_ahead blocked [] [] (threshold_low 15) = true /\
  published (lidar_callback empty_scan reaching) =
    published reaching ++
      [(uart_commands, "x"%string); (uart_commands, "d"%string)] /\
  rotation_asked (lidar_callback empty_scan reaching) = Some 40%Q.
Proof.
  assert (H1 : lidar_returns_early reaching = false) by reflexivity.
  assert (H2 : state reaching = BOTTLE_REACHING_MODE) by reflexivity.
  assert (H3 : @check_obstacle_ahead blocked [] [] (threshold_low 15) = true)
    by reflexivity.
  repeat (split; [assumption|]).
  destruct (lidar_obstacle_reaction reaching empty_scan) as [_ Hrun].
  destruct (Hrun H1) as (Hreach & _).
  destruct (Hreach H2 H3) as (Heq & Hasked & _).
  split; [|exact Hasked].
  rewrite Heq. reflexivity.
Defined.

(** C2 as stated fails under the [--travel] guard: the node launched
    with [--travel --reach] is in BOTTLE_REACHING_MODE and has no grid
    position yet; a lidar event with an obstacle ahead returns at once,
    and neither "x" nor anything else is published. *)
Lemma lidar_event_dropped_under_travel_flag :
  state reaching_under_travel_flag = BOTTLE_REACHING_MODE /\
  args_travel reaching_under_travel_flag = true /\
  robot_pos reaching_under_travel_flag = None /\
  @check_obstacle_ahead blocked (distances empty_scan) (angles empty_scan)
    (threshold_low 15) = true /\
  lidar_callback empty_scan reaching_under_travel_flag
    = reaching_under_travel_flag /\
  published (lidar_callback empty_scan reaching_under_travel_flag)
    = published reaching_under_travel_flag.
Proof. repeat split; reflexivity. Qed.


(** The same on the first map of a travel: the initial zones are found
    in the tick, the update made from them is found invalid, and the
    controller keeps the initial zones. *)
Lemma invalid_first_update_keeps_initial_zones :
  initial_zones_found (traveling drifting) = false /\
  exists c',
    listener_callback_map (mkMapMessage 0 (tt : @MapData drifting))
      (traveling drifting) = Ok c' /\
    zones c' = [[0; 0]; [100; 0]; [100; 100]; [0; 100]]%Q /\
    initial_zones_found c' = true /\
    state c' = RECOVERY_SLAM.
Proof.
  split; [reflexivity|]. eexists. split; [vm_compute; reflexivity|].
  repeat split; reflexivity.
Qed.


(** C5, amended, on a fresh node (counter 0, no bottle picked): entry
    number N_RANDOM_SEARCH_MAX goes to TRAVEL_MODE. *)
Lemma random_search_entry_quota_witness :
  n_random_search (@init quiet plain_args) = 0 /\
  bottles_picked (@init quiet plain_args) <> MAX_BOTTLE_PICKED /\
  state (Nat.iter 10 start_random_search_detection (@init quiet plain_args))
    = RANDOM_SEARCH_MODE /\
  state (Nat.iter (Z.to_nat N_RANDOM_SEARCH_MAX)
           start_random_search_detection (@init quiet plain_args))
    = TRAVEL_MODE.
Proof.
  assert (H1 : n_random_search (@init quiet plain_args) = 0) by reflexivity.
  assert (H2 : bottles_picked (@init quiet plain_args) <> MAX_BOTTLE_PICKED)
    by discriminate.
  split; [exact H1|]. split; [exact H2|].
  destruct (random_search_entry_quota (@init quiet plain_args))
    as (_ & _ & _ & Hquota).
  destruct (Hquota H1 H2) as [Hdwell Hleave].
  split; [|exact Hleave].
  apply Hdwell. split; [apply Nat.leb_le | apply Nat.ltb_lt]; reflexivity.
Defined.

(** C5 as stated fails in its count of dwell cycles.  From a zone
    arrival (counter 0, no pick) ten entries dwell, one dwell timer each,
    and the entry after the tenth dwell already goes to TRAVEL_MODE, with
    no eleventh dwell; one more entry at that counter goes back to
    RANDOM_SEARCH_MODE and dwells. *)
Lemma search_quota_counts_entries :
  let c0 := @init quiet plain_args in
  let c10 := Nat.iter 10 start_random_search_detection c0 in
  let c11 := start_random_search_detection c10 in
  let c12 := start_random_search_detection c11 in
  n_random_search c0 = 0 /\
  bottles_picked c0 = 0 /\
  state c10 = RANDOM_SEARCH_MODE /\
  List.length (timers c10) = 10%nat /\
  state c11 = TRAVEL_MODE /\
  timers c11 = timers c10 /\
  n_random_search c11 = N_RANDOM_SEARCH_MAX /\
  bottles_picked c11 = 0 /\
  state c12 = RANDOM_SEARCH_MODE /\
  List.length (timers c12) = 11%nat.
Proof. vm_compute. repeat split; reflexivity. Qed.

(** C6 on a fresh node: status 0 has no rule in INITIAL_ROTATION_MODE. *)
Lemma unlisted_status_is_ignored_witness :
  in_transition_table (state (@init quiet plain_args)) 0 = false /\
  listener_arduino_status 0 (@init quiet plain_args)
    = Ok (@init quiet plain_args).
Proof.
  assert (H : in_transition_table (state (@init quiet plain_args)) 0 = false)
    by reflexivity.
  split; [exact H|].
  exact (proj1 (unlisted_status_is_ignored (@init quiet plain_args) 0) H).
Defined.

(** C8 on a fresh node. *)
Lemma one_rotation_timer_witness :
  reachable (@init quiet plain_args) /\
  (List.length (rotation_timers (@init quiet plain_args)) <= 1)%nat /\
  exists period,
    rotation_timers
      (start_rotation_timer 40 TIMER_STATE_ON_TRAVEL_MODE
         (start_rotation_timer 40 TIMER_STATE_ON_TRAVEL_MODE
            (@init quiet plain_args)))
      = [mkTimer 1 rotation_timer_callback_kind period].
Proof.
  assert (H : reachable (@init quiet plain_args)) by apply reachable_init.
  split; [exact H|].
  destruct (one_rotation_timer (@init quiet plain_args) H) as [Hle Hnew].
  split; [exact Hle|].
  destruct (Hnew 40%Q TIMER_STATE_ON_TRAVEL_MODE) as (_ & _ & Htwice).
  assert (Hne : TIMER_STATE_ON_TRAVEL_MODE <> TIMER_STATE_OFF)
    by discriminate.
  exact (proj1 (Htwice Hne)).
Defined.

(** C9 at a planned path of three waypoints, the robot within
    MIN_DIST_TO_POINT of the second-to-last one. *)
Lemma forward_sub_state_cannot_shorten_array_witness :
  path tracking = NdArray tracked_rows /\
  py_index tracked_rows (-2) = Some [1 # 20; 1 # 20]%Q /\
  (@get_distance quiet [0; 0]%Q [1 # 20; 1 # 20]%Q < MIN_DIST_TO_POINT)%Q /\
  forward_sub_state [0; 0]%Q tracking = Raise ValueError.
Proof.
  assert (H1 : path tracking = NdArray tracked_rows) by reflexivity.
  assert (H2 : py_index tracked_rows (-2) = Some [1 # 20; 1 # 20]%Q)
    by reflexivity.
  assert (H3 : (@get_distance quiet [0; 0]%Q [1 # 20; 1 # 20]%Q
                < MIN_DIST_TO_POINT)%Q) by reflexivity.
  repeat (split; [assumption|]).
  exact (proj1 (forward_sub_state_cannot_shorten_array tracking [0; 0]%Q
                  tracked_rows H1) _ H2 H3).
Defined.

(** The same defect met by the event loop: the first map of a travel
    plans a path, finds the robot next to its second-to-last waypoint,
    and the callback ends with ValueError. *)
Lemma first_map_of_a_travel_raises :
  dispatch (world_map_msg (mkMapMessage 0 (tt : @MapData quiet)))
    (traveling quiet) = Raise ValueError.
Proof. vm_compute. reflexivity. Qed.

(** C10 during a dwell: a message without detections. *)
Lemma detection_callback_needs_a_detection_witness :
  detectnet_state searching = DETECTNET_ON /\
  msg_detections (mkDetection2DArray []) = [] /\
  listener_callback_detectnet (mkDetection2DArray []) searching
    = Raise IndexError.
Proof.
  assert (H1 : detectnet_state searching = DETECTNET_ON) by reflexivity.
  split; [exact H1|]. split; [reflexivity|].
  destruct (detection_callback_needs_a_detection searching
              (mkDetection2DArray [])) as [_ Hon].
  destruct (Hon H1) as (Hempty & _).
  apply Hempty. reflexivity.
Defined.

(** ** More properties of the callbacks *)

Section MoreProperties.

Context {K : Collaborators}.

Lemma emits_only_refl ok p : emits_only ok p p.
Proof. exists []. split; [symmetry; apply app_nil_r | reflexivity]. Qed.

Lemma emits_only_snoc ok p q m :
  ok m = true -> emits_only ok p q -> emits_only ok p (q ++ [m]).
Proof.
  intros Hm (l & -> & Hl). exists (l ++ [m]). split.
  - symmetry. apply app_assoc.
  - rewrite forallb_app, Hl. simpl. rewrite Hm. reflexivity.
Qed.

Lemma emits_only_trans ok p q r :
  emits_only ok p q -> emits_only ok q r -> emits_only ok p r.
Proof.
  intros (l & -> & Hl) (l' & -> & Hl'). exists (l ++ l'). split.
  - symmetry. apply app_assoc.
  - rewrite forallb_app, Hl, Hl'. reflexivity.
Qed.

Ltac emitted :=
  repeat (apply emits_only_snoc; [reflexivity|]); apply emits_only_refl.

Ltac calm_now :=
  unfold calm, keeps_pose, keeps_navigation; cbn -[Qltb];
  repeat split; auto; try discriminate; emitted.

Lemma calm_refl c : calm c c.
Proof. calm_now. Qed.

Lemma calm_trans c1 c2 c3 : calm c1 c2 -> calm c2 c3 -> calm c1 c3.
Proof.
  intros (P1 & N1 & E1 & T1) (P2 & N2 & E2 & T2).
  unfold keeps_pose, keeps_navigation in *.
  repeat split; try (etransitivity; [apply P2 || apply N2 | apply P1 || apply N1]).
  - exact (emits_only_trans _ _ _ _ E1 E2).
  - auto.
Qed.

Lemma calm_start_rotation_timer angle st c :
  (rotation_timer_state c <> TIMER_STATE_ON_NO_ROTATION ->
   st <> TIMER_STATE_ON_NO_ROTATION) ->
  calm c (start_rotation_timer angle st c).
Proof.
  intro Hst. unfold start_rotation_timer, calm, keeps_pose, keeps_navigation.
  destruct (TimerState_eqb (rotation_timer_state c) TIMER_STATE_OFF);
    cbn -[Qltb];
    destruct (TimerState_eqb (rotation_timer_state c)
                TIMER_STATE_ON_NO_ROTATION);
    cbn -[Qltb]; repeat split; auto; try emitted;
    destruct (Qltb 0 angle); emitted.
Qed.

Lemma calm_search_entry c : calm c (start_random_search_detection c).
Proof.
  unfold start_random_search_detection. cbn.
  destruct ((n_random_search c + 1 =? N_RANDOM_SEARCH_MAX)
            || (bottles_picked c =? MAX_BOTTLE_PICKED)); calm_now.
Qed.

(** [calm c (f (... c))]: the arguments first, then the call. *)
Ltac calm_call :=
  lazymatch goal with
  | |- calm ?c (start_rotation_timer ?a ?st ?d) =>
      apply (calm_trans c d);
      [ calm_now
      | apply calm_start_rotation_timer; cbn; try (intros _; discriminate) ]
  | |- calm ?c (start_random_search_detection ?d) =>
      apply (calm_trans c d); [calm_now | apply calm_search_entry]
  | |- _ => calm_now
  end.

Lemma calm_take_bottle_decision c :
  match take_bottle_decision c with
  | Ok c' => calm c c'
  | Raise _ => True
  end.
Proof.
  unfold take_bottle_decision. cbn.
  destruct (detections c) as [[|d ds]|]; [| |exact I]; calm_call.
Qed.

Lemma calm_flip_camera c :
  match flip_camera_and_reset_detectnet_timer c with
  | Ok c' => calm c c'
  | Raise _ => True
  end.
Proof.
  unfold flip_camera_and_reset_detectnet_timer. cbn.
  destruct (wait_for_detectnet_timer c) as [h|]; [|exact I].
  destruct (negb (is_flipped c)) eqn:E.
  - destruct (is_flipped c); calm_now.
  - set (d := set_is_flipped _ _).
    pose proof (calm_take_bottle_decision d) as H.
    destruct (take_bottle_decision d) as [c'|]; [|exact I].
    apply (calm_trans c d); [|exact H].
    subst d. destruct (is_flipped c); calm_now.
Qed.

Lemma calm_detectnet msg c :
  match listener_callback_detectnet msg c with
  | Ok c' => calm c c'
  | Raise _ => True
  end.
Proof.
  unfold listener_callback_detectnet.
  destruct (detectnet_state c); [|apply calm_refl].
  destruct (py_index _ _) as [d0|]; [|exact I].
  destruct (negb _); [apply calm_refl|].
  destruct (detections c) as [ds|]; [|exact I].
  set (e := set_detections _ _).
  pose proof (calm_flip_camera e) as H.
  destruct (flip_camera_and_reset_detectnet_timer e); [|exact I].
  apply (calm_trans c e); [subst e; calm_now | exact H].
Qed.

Lemma calm_rotation_timer_callback c :
  match rotation_timer_callback c with
  | Ok c' => calm c c'
  | Raise _ => True
  end.
Proof.
  unfold rotation_timer_callback.
  change (rotation_asked (destroy_timer (rotation_timer c) c))
    with (rotation_asked c).
  destruct (rotation_asked c) as [asked|]; [|exact I].
  destruct (if Qltb 39 (Qabs asked) then _ else _) as [e|[|]]; [exact I| |].
  - calm_now.
  - change (rotation_timer_state (destroy_timer (rotation_timer c) c))
      with (rotation_timer_state c).
    destruct (rotation_timer_state c) eqn:Et; calm_call.
Qed.

Lemma calm_lidar msg c : calm c (lidar_callback msg c).
Proof.
  unfold lidar_callback.
  destruct (lidar_returns_early c); [apply calm_refl|].
  destruct (state c); try apply calm_refl;
    try (destruct (is_traveling_forward c); [|apply calm_refl]);
    destruct (check_obstacle_ahead _ _ _); try apply calm_refl; calm_call.
Qed.

Lemma calm_arduino_status status c :
  match listener_arduino_status status c with
  | Ok c' => calm c c'
  | Raise _ => True
  end.
Proof.
  unfold listener_arduino_status.
  destruct (state c);
    repeat match goal with
           | |- context [if ?b then _ else _] => destruct b
           end;
    try apply calm_refl; try calm_call.
  - destruct (py_index _ _); [|exact I]. destruct (_ =? 0); calm_call.
  - destruct (last_state c); [|exact I].
    change (rotation_asked (set_state m c)) with (rotation_asked c).
    destruct (rotation_asked c); [|exact I].
    apply (calm_trans c (set_state m c)); [calm_now|].
    apply calm_start_rotation_timer. auto.
Qed.


Lemma tour_step_of_calm c c' : calm c c' -> tour_step c c'.
Proof.
  intros (P & N & E & T). repeat split; try apply P; auto.
  left. apply N.
Qed.

Lemma tour_step_refl c : tour_step c c.
Proof. apply tour_step_of_calm, calm_refl. Qed.

Lemma tour_step_calm c1 c2 c3 :
  tour_step c1 c2 -> calm c2 c3 -> tour_step c1 c3.
Proof.
  intros (P1 & E1 & T1 & I1) (P2 & N2 & E2 & T2).
  unfold keeps_pose, keeps_navigation in *.
  repeat split; try (etransitivity; [apply P2 | apply P1]).
  - exact (emits_only_trans _ _ _ _ E1 E2).
  - auto.
  - destruct N2 as (_ & _ & _ & _ & _ & -> & _). exact I1.
Qed.

Lemma calm_tour_step c1 c2 c3 :
  calm c1 c2 -> tour_step c2 c3 -> tour_step c1 c3.
Proof.
  intros (P1 & N1 & E1 & T1) (P2 & E2 & T2 & I2).
  unfold keeps_pose, keeps_navigation in *.
  repeat split; try (etransitivity; [apply P2 | apply P1]).
  - exact (emits_only_trans _ _ _ _ E1 E2).
  - auto.
  - destruct N1 as (_ & _ & _ & _ & _ & <- & _). exact I2.
Qed.

Ltac tour_now :=
  unfold tour_step, keeps_pose; cbn -[Qltb];
  repeat split; auto; try discriminate; try emitted.

Lemma calm_release c :
  match start_bottle_release_mode c with
  | Ok c' => calm c c'
  | Raise _ => True
  end.
Proof.
  unfold start_bottle_release_mode.
  destruct (zone_pair 0 3 _); [|exact I].
  apply (calm_trans c (set_state BOTTLE_RELEASE_MODE c)); [calm_now|].
  apply calm_start_rotation_timer; intros _; discriminate.
Qed.

Lemma calm_kick_ass home c :
  match start_kick_ass_mode home c with
  | Ok c' => calm c c'
  | Raise _ => True
  end.
Proof.
  unfold start_kick_ass_mode.
  destruct (if home then _ else _); [|exact I].
  apply (calm_trans c (set_state KICK_ASS_MODE c)); [calm_now|].
  apply calm_start_rotation_timer; intros _; discriminate.
Qed.

Lemma tour_step_goal_reached reached c :
  match goal_reached reached c with
  | Ok c' => tour_step c c'
  | Raise _ => True
  end.
Proof.
  unfold goal_reached.
  set (d := set_path _ _).
  assert (Hd : tour_step c d) by (subst d; tour_now).
  clearbody d.
  destruct (existsb (Z.eqb reached) [1; 2; 3; 4]).
  - destruct (if existsb _ _ then _ else _); [|exact I].
    apply (tour_step_calm c d); [exact Hd|].
    apply calm_start_rotation_timer; intros _; discriminate.
  - destruct (reached =? 0).
    + pose proof (calm_release d) as H.
      destruct (start_bottle_release_mode d); [|exact I].
      exact (tour_step_calm c d _ Hd H).
    + destruct ((reached =? 5) || (reached =? 6)); [|exact Hd].
      pose proof (calm_kick_ass (reached =? 6) d) as H.
      destruct (start_kick_ass_mode _ d); [|exact I].
      exact (tour_step_calm c d _ Hd H).
Qed.

Lemma calm_forward pos c :
  match forward_sub_state pos c with
  | Ok c' => keeps_pose c c' /\
             emits_only allowed_message (published c) (published c') /\
             rotation_timer_state c' = rotation_timer_state c /\
             current_target_index c' = current_target_index c
  | Raise _ => True
  end.
Proof.
  unfold forward_sub_state.
  destruct (py_index _ _); [|exact I].
  destruct (Qltb _ _).
  - destruct (path_del_last _); [exact I|].
    unfold keeps_pose; cbn; repeat split; emitted.
  - unfold keeps_pose; cbn; repeat split; emitted.
Qed.

Lemma tour_step_path_tracking pos c :
  match path_tracking pos c with
  | Ok c' => tour_step c c'
  | Raise _ => True
  end.
Proof.
  unfold path_tracking.
  destruct (path_len (path c)); [|exact I].
  destruct (n =? 0)%nat, (goal c); try apply tour_step_refl.
  destruct (py_index TARGETS_TO_VISIT _); [|exact I].
  destruct (Qltb _ _); [apply tour_step_goal_reached|].
  destruct (TimerState_eqb _ _); [apply tour_step_refl|].
  destruct (Qltb _ _).
  - apply tour_step_of_calm.
    apply (calm_trans c (set_is_traveling_forward false c)); [calm_now|].
    apply calm_start_rotation_timer; intros _; discriminate.
  - pose proof (calm_forward pos c) as H.
    destruct (forward_sub_state pos c); [|exact I].
    destruct H as (P & E & T & I1).
    repeat split; try apply P; auto. rewrite T. auto.
Qed.

Lemma tour_step_save_figure pos msg c :
  match save_figure pos msg c with
  | Go c' | Ret c' =>
      tour_step c c' /\ current_target_index c' = current_target_index c
  | Exc _ => True
  end.
Proof.
  unfold save_figure.
  destruct (is_saving c || is_plotting c);
    [|split; [apply tour_step_refl | reflexivity]].
  destruct (SAVE_TIME_CONSTANT c =? 0); [exact I|].
  destruct (_ =? 0); [|split; [apply tour_step_refl | reflexivity]].
  destruct (make_nice_plot _ _ _ _ _ _);
    (split; [tour_now | reflexivity]).
Qed.

Lemma tour_step_then c1 c2 c3 :
  tour_step c1 c2 ->
  current_target_index c2 = current_target_index c1 ->
  tour_step c2 c3 -> tour_step c1 c3.
Proof.
  intros (P1 & E1 & T1 & _) I1 (P2 & E2 & T2 & I2).
  unfold keeps_pose in *.
  repeat split; try (etransitivity; [apply P2 | apply P1]).
  - exact (emits_only_trans _ _ _ _ E1 E2).
  - auto.
  - rewrite <- I1. exact I2.
Qed.

(** What the planning step may write besides: the navigation memory
    other than the cursor. *)
Lemma tour_step_plan_path pos b c :
  match plan_path pos b c with
  | Go c' | Ret c' =>
      tour_step c c' /\ current_target_index c' = current_target_index c
  | Exc _ => True
  end.
Proof.
  unfold plan_path.
  destruct (py_index TARGETS_TO_VISIT _); [|exact I].
  destruct (py_index _ z); [|exact I].
  split; [tour_now | reflexivity].
Qed.

Lemma tour_step_path_planning pos msg c :
  match path_planning pos msg c with
  | Go c' | Ret c' =>
      tour_step c c' /\ current_target_index c' = current_target_index c
  | Exc _ => True
  end.
Proof.
  unfold path_planning.
  set (c1 := if TimerState_eqb _ _ then _ else c).
  assert (H1 : tour_step c c1 /\
               current_target_index c1 = current_target_index c).
  { subst c1. destruct (TimerState_eqb _ _);
      (split; [tour_now | reflexivity]). }
  clearbody c1.
  destruct (filter_map _ _) as [binary_dilated binary].
  destruct (get_bounding_rect binary) as [[[corners area] contours]|];
    [|exact H1].
  set (c2 := if is_saving c1 || is_plotting c1 then _ else c1).
  assert (H2 : tour_step c c2 /\
               current_target_index c2 = current_target_index c).
  { destruct H1 as [H1 I1]. subst c2. destruct (_ || _); [|split; assumption].
    split; [|exact I1].
    apply (tour_step_calm c c1); [exact H1 | calm_now]. }
  clearbody c2. clear H1.
  unfold find_initial_zones.
  set (r := if negb (initial_zones_found c2) && _ then _ else _).
  assert (H3 : match r with
               | inl _ => True
               | inr c3 => tour_step c c3 /\
                           current_target_index c3 = current_target_index c
               end).
  { subst r. destruct (_ && _); [|exact H2].
    destruct (Qltb _ _); [exact I|].
    destruct H2 as ((P & E & T & _) & I2).
    split; [|exact I2]. repeat split; try apply P; auto. }
  destruct r as [e | c3]; [exact I|].
  destruct (initial_zones_found c3); [|exact H3].
  destruct H3 as ((P & E & T & _) & I3).
  destruct (are_new_zones_valid _ _).
  - set (c4 := set_zones _ _).
    pose proof (tour_step_plan_path pos binary_dilated c4) as H4.
    destruct (plan_path pos binary_dilated c4) as [c5 | c5 | e];
      [| |exact I].
    + destruct H4 as ((P4 & E4 & T4 & _) & I4).
      split; [|rewrite I4; exact I3].
      unfold keeps_pose in *.
      repeat split; try (etransitivity; [apply P4 | apply P]).
      * apply (emits_only_trans _ _ (published c3)); [exact E|].
        apply (emits_only_trans _ _ (published c4)); [|exact E4].
        subst c4. cbn. emitted.
      * intro Hc. apply T4. subst c4. cbn. auto.
      * left. rewrite I4. exact I3.
    + destruct H4 as ((P4 & E4 & T4 & _) & I4).
      split; [|rewrite I4; exact I3].
      unfold keeps_pose in *.
      repeat split; try (etransitivity; [apply P4 | apply P]).
      * apply (emits_only_trans _ _ (published c3)); [exact E|].
        apply (emits_only_trans _ _ (published c4)); [|exact E4].
        subst c4. cbn. emitted.
      * intro Hc. apply T4. subst c4. cbn. auto.
      * left. rewrite I4. exact I3.
  - split; [|exact I3].
    repeat split; try apply P; auto.
    cbn. apply emits_only_snoc; [reflexivity | exact E].
Qed.


Lemma tour_step_travel_mode msg c :
  match travel_mode msg c with
  | Ok c' => tour_step c c'
  | Raise _ => True
  end.
Proof.
  unfold travel_mode.
  set (pos := pos_to_gridpos (x c) (y c)).
  set (c0 := set_robot_pos (Some pos) c).
  assert (H0 : tour_step c c0 /\
               current_target_index c0 = current_target_index c)
    by (subst c0; split; [tour_now | reflexivity]).
  clearbody c0. destruct H0 as [H0 I0].
  destruct (TimerState_eqb _ _); [exact H0|].
  set (planned := if _ || _ then _ else Go c0).
  assert (Hp : match planned with
               | Go d | Ret d =>
                   tour_step c0 d /\
                   current_target_index d = current_target_index c0
               | Exc _ => True
               end).
  { subst planned. destruct (_ || _).
    - apply tour_step_path_planning.
    - split; [apply tour_step_refl | reflexivity]. }
  destruct planned as [d | d | e]; [| |exact I].
  - destruct Hp as [Hp Ip].
    pose proof (tour_step_save_figure pos msg d) as Hf.
    destruct (save_figure pos msg d) as [d' | d' | e']; [| |exact I].
    + destruct Hf as [Hf If].
      pose proof (tour_step_path_tracking pos d') as Ht.
      destruct (path_tracking pos d'); [|exact I].
      apply (tour_step_then c c0); [exact H0 | exact I0|].
      apply (tour_step_then c0 d); [exact Hp | exact Ip|].
      apply (tour_step_then d d'); [exact Hf | exact If | exact Ht].
    + destruct Hf as [Hf If].
      apply (tour_step_then c c0); [exact H0 | exact I0|].
      apply (tour_step_then c0 d); [exact Hp | exact Ip | exact Hf].
  - destruct Hp as [Hp Ip].
    apply (tour_step_then c c0); [exact H0 | exact I0 | exact Hp].
Qed.

Lemma tour_step_callback_map msg c :
  match listener_callback_map msg c with
  | Ok c' => tour_step c c'
  | Raise _ => True
  end.
Proof.
  unfold listener_callback_map.
  destruct (state c); try apply tour_step_refl.
  apply tour_step_travel_mode.
Qed.

Lemma round_half_even_near (q : Q) :
  round_half_even q = Qfloor q \/ round_half_even q = Qfloor q + 1.
Proof.
  unfold round_half_even.
  destruct (Qltb _ (1 # 2)); [left; reflexivity|].
  destruct (Qltb (1 # 2) _); [right; reflexivity|].
  destruct (Z.even _); [left | right]; reflexivity.
Qed.

Lemma exponent_below_360 (q : Q) :
  (0 < q)%Q -> (q < 360)%Q -> exponent q <= 8.
Proof.
  intros Hpos Hlt. unfold exponent.
  destruct (Qle_bool 1 q) eqn:E.
  - apply Qle_bool_iff in E.
    assert (H1 : 1 <= Qfloor q).
    { change 1 with (Qfloor 1). apply Qfloor_resp_le. exact E. }
    assert (H2 : Qfloor q < 512).
    { rewrite Zlt_Qlt. apply Qle_lt_trans with q; [apply Qfloor_le|].
      apply Qlt_trans with 360%Q; [exact Hlt | reflexivity]. }
    assert (H3 : Z.log2 (Qfloor q) < 9).
    { apply Z.log2_lt_pow2; [lia | exact H2]. }
    lia.
  - pose proof (Z.log2_up_nonneg (Qceiling (/ q))). lia.
Qed.

Lemma round_double_range (q : Q) :
  (0 < q)%Q -> (q < 360)%Q ->
  (0 <= round_double q)%Q /\ (round_double q <= 360)%Q.
Proof.
  intros Hpos Hlt. unfold round_double.
  pose proof (exponent_below_360 q Hpos Hlt) as He.
  set (e := exponent q) in *. unfold pow2.
  destruct (0 <=? e - 52) eqn:E; [apply Z.leb_le in E; lia|]. clear E.
  set (X := 2 ^ (- (e - 52))).
  assert (HX : 0 < X) by (apply Z.pow_pos_nonneg; lia).
  assert (HXq : (0 < inject_Z X)%Q).
  { change 0%Q with (inject_Z 0). rewrite <- Zlt_Qlt. exact HX. }
  set (scaled := (q / / inject_Z X)%Q).
  assert (Hs : (scaled == q * inject_Z X)%Q).
  { unfold scaled. field. intro H0. rewrite H0 in HXq.
    exact (Qlt_irrefl _ HXq). }
  assert (Hf0 : 0 <= Qfloor scaled).
  { change 0 with (Qfloor 0). apply Qfloor_resp_le. rewrite Hs.
    apply Qmult_le_0_compat; apply Qlt_le_weak; assumption. }
  assert (Hf1 : Qfloor scaled < 360 * X).
  { rewrite Zlt_Qlt. apply Qle_lt_trans with scaled; [apply Qfloor_le|].
    rewrite Hs, inject_Z_mult. apply Qmult_lt_compat_r; assumption. }
  assert (Hn : 0 <= round_half_even scaled <= 360 * X)
    by (destruct (round_half_even_near scaled) as [-> | ->]; lia).
  set (n := round_half_even scaled) in *.
  assert (Hinv : (0 < / inject_Z X)%Q) by (apply Qinv_lt_0_compat; exact HXq).
  split.
  - apply Qmult_le_0_compat; [|apply Qlt_le_weak; exact Hinv].
    change 0%Q with (inject_Z 0). rewrite <- Zle_Qle. lia.
  - apply Qle_trans with (inject_Z (360 * X) * / inject_Z X)%Q.
    + apply Qmult_le_compat_r; [|apply Qlt_le_weak; exact Hinv].
      rewrite <- Zle_Qle. lia.
    + rewrite inject_Z_mult. apply Qle_lteq. right. field.
      intro H0. rewrite H0 in HXq. exact (Qlt_irrefl _ HXq).
Qed.

Lemma fmod360_range (a : Q) :
  (- (360) < fmod360 a)%Q /\ (fmod360 a < 360)%Q /\
  ((0 <= a)%Q -> (0 <= fmod360 a)%Q).
Proof.
  unfold fmod360.
  pose proof (Qfloor_le (a / 360)) as Hf1.
  pose proof (Qlt_floor (a / 360)) as Hf2.
  pose proof (Qle_ceiling (a / 360)) as Hc1.
  pose proof (Qceiling_lt (a / 360)) as Hc2.
  rewrite inject_Z_plus in Hf2.
  unfold Z.sub in Hc2. rewrite inject_Z_plus, inject_Z_opp in Hc2.
  change (inject_Z 1) with 1%Q in *.
  assert (Ha : (a == 360 * (a / 360))%Q) by (field).
  destruct (Qltb a 0) eqn:E.
  - apply Qltb_lt in E.
    assert (Hc0 : (inject_Z (Qceiling (a / 360)) <= 0)%Q).
    { change 0%Q with (inject_Z (Qceiling 0)). rewrite <- Zle_Qle.
      apply Qceiling_resp_le. 
      apply Qle_shift_div_r; [reflexivity|]. lra. }
    clear Hf1 Hf2.
    set (z := inject_Z (Qceiling (a / 360))) in *. clearbody z.
    set (q := (a / 360)%Q) in *. clearbody q.
    repeat split; lra.
  - apply Qltb_nlt in E.
    assert (Hf0 : (0 <= inject_Z (Qfloor (a / 360)))%Q).
    { change 0%Q with (inject_Z (Qfloor 0)). rewrite <- Zle_Qle.
      apply Qfloor_resp_le. apply Qle_shift_div_l; [reflexivity|]. lra. }
    clear Hc1 Hc2.
    set (z := inject_Z (Qfloor (a / 360))) in *. clearbody z.
    set (q := (a / 360)%Q) in *. clearbody q.
    repeat split; lra.
Qed.

(** The result of [% 360] lies in [0, 360], both ends included. *)
Lemma Qmod360_range (a : Q) : (0 <= Qmod360 a)%Q /\ (Qmod360 a <= 360)%Q.
Proof.
  unfold Qmod360. destruct (fmod360_range a) as (Hlo & Hhi & _).
  destruct (Qltb (fmod360 a) 0) eqn:E.
  - apply Qltb_lt in E. apply round_double_range.
    + lra.
    + lra.
  - apply Qltb_nlt in E. split; lra.
Qed.

(** What one event does, by the stream it comes from. *)
Lemma dispatch_effect ev c c' :
  dispatch ev c = Ok c' ->
  match ev with
  | robot_pos_msg pos =>
      c' = listener_callback_position pos c
  | world_map_msg _ => tour_step c c'
  | _ => calm c c'
  end.
Proof.
  destruct ev as [pos | msg | status | msg | msg | h]; simpl.
  - intro H. inversion H. reflexivity.
  - intro H. pose proof (tour_step_callback_map msg c) as Hs.
    rewrite H in Hs. exact Hs.
  - intro H. pose proof (calm_arduino_status status c) as Hs.
    rewrite H in Hs. exact Hs.
  - intro H. pose proof (calm_detectnet msg c) as Hs.
    rewrite H in Hs. exact Hs.
  - intro H. inversion H; subst; clear H. apply calm_lidar.
  - destruct (find _ _) as [t|];
      [|intro H; inversion H; subst; apply calm_refl].
    destruct (timer_kind t); intro H.
    + pose proof (calm_rotation_timer_callback c) as Hs.
      rewrite H in Hs. exact Hs.
    + pose proof (calm_flip_camera c) as Hs.
      unfold detection_timer_callback in H.
      rewrite H in Hs. exact Hs.
Qed.

Lemma tidy_dispatch ev c c' :
  tidy c -> dispatch ev c = Ok c' -> tidy c'.
Proof.
  intros (Hlo & Hhi & Hpub & Htag & Hidx) Hstep.
  assert (Hcalm : calm c c' -> tidy c').
  { intros ((_ & _ & Ht) & (_ & _ & _ & _ & _ & Hi & _) & (l & Hl & Hok) & Hn).
    unfold tidy. rewrite Ht, Hi, Hl, forallb_app, Hpub, Hok.
    repeat split; auto. }
  pose proof (dispatch_effect ev c c' Hstep) as He.
  destruct ev as [pos | msg | status | msg | msg | h]; auto.
  - subst c'. destruct (Qmod360_range (pos_theta pos)) as [H1 H2].
    repeat split; assumption.
  - destruct He as ((_ & _ & Ht) & (l & Hl & Hok) & Hn & Hi).
    unfold tidy. rewrite Ht, Hl, forallb_app, Hpub, Hok.
    repeat split; auto. destruct Hi as [-> | ->]; lia.
Qed.

Lemma tidy_init a : tidy (init a).
Proof.
  destruct a as [[] [] [] sv pl pr sr]; unfold tidy; cbn;
    repeat split; try discriminate; try reflexivity; lia.
Qed.

Lemma reachable_tidy c : reachable c -> tidy c.
Proof.
  induction 1 as [a | c c' ev _ IH Hstep].
  - apply tidy_init.
  - exact (tidy_dispatch ev c c' IH Hstep).
Qed.


Lemma tour_has_nine_targets (i : Z) :
  9 <= i -> py_index TARGETS_TO_VISIT i = None.
Proof.
  intro Hi. unfold py_index.
  change (Z.of_nat (List.length TARGETS_TO_VISIT)) with 9.
  replace (i <? 9) with false by (symmetry; apply Z.ltb_ge; lia).
  replace (i <? 0) with false by (symmetry; apply Z.ltb_ge; lia).
  rewrite andb_false_r. reflexivity.
Qed.

(** X1: in every state the node can reach the heading is in [0, 360],
    both ends included: the position callback stores [pos.theta % 360]
    and no other callback writes the pose.  The upper end is met: in any
    state a position message with the heading [-2 ** -70] stores 360,
    because the float sum [mod + 360.0] is rounded. *)
Theorem heading_stays_in_range (c : Controller) :
  (reachable c -> (0 <= theta c)%Q /\ (theta c <= 360)%Q) /\
  (forall px py : Q,
     theta (listener_callback_position
              (mkPosition px py (- (1 # 2 ^ 70))) c) == 360)%Q.
Proof.
  split.
  - intro H. destruct (reachable_tidy c H) as (H1 & H2 & _).
    split; assumption.
  - intros px py. vm_compute. reflexivity.
Qed.

(** X2: in every state the node can reach, every message published so
    far is one of the literals of the source: the fifteen UART commands,
    "create"/"destroy" for the camera, "normal"/"flip" for the flip topic
    and the four SLAM controls. *)
Theorem published_commands_are_known (c : Controller) (m : Topic * string) :
  reachable c -> In m (published c) -> allowed_message m = true.
Proof.
  intros H Hin. destruct (reachable_tidy c H) as (_ & _ & Hpub & _).
  rewrite forallb_forall in Hpub. exact (Hpub m Hin).
Qed.

(** X3: zones, the zones-found flag, targets, goal, path, tour cursor
    and grid position are written by the map callback alone: any other
    event (position, status, detections, lidar, timer) that ends without
    an exception leaves them as they were. *)
Theorem navigation_is_written_by_the_map_callback
    (ev : Event) (c c' : Controller) :
  dispatch ev c = Ok c' ->
  (forall msg, ev <> world_map_msg msg) ->
  keeps_navigation c c'.
Proof.
  intros Hstep Hev. pose proof (dispatch_effect ev c c' Hstep) as He.
  destruct ev as [pos | msg | status | msg | msg | h];
    try (destruct He as (_ & Hn & _); exact Hn).
  - subst c'. repeat split.
  - contradiction (Hev msg). reflexivity.
Qed.

(** X4: in every state the node can reach the stored tag is never the
    wait tag NO_ROTATION, so every rotation request publishes exactly one
    turn command, "d" for a positive angle and "a" otherwise, and its
    timer runs for [get_rotation_time(|angle|)]: the branch that waits is
    never taken. *)
Theorem every_rotation_request_turns
    (c : Controller) (angle : Q) (tag : TimerState) :
  reachable c ->
  rotation_timer_state c <> TIMER_STATE_ON_NO_ROTATION /\
  published (start_rotation_timer angle tag c) =
    published c ++
      [(uart_commands, if Qltb 0 angle then "d" else "a")%string] /\
  exists earlier,
    timers (start_rotation_timer angle tag c) =
      earlier ++
        [mkTimer (next_timer c) rotation_timer_callback_kind
           (get_rotation_time (Qabs angle))].
Proof.
  intro H. destruct (reachable_tidy c H) as (_ & _ & _ & Htag & _).
  split; [exact Htag|].
  apply TimerState_eqb_neq in Htag.
  destruct (start_rotation_timer_emits angle tag c) as [Hp Ht].
  cbv zeta in Hp, Ht. rewrite Htag in Hp, Ht.
  split; [exact Hp|]. eexists. exact Ht.
Qed.

(** X5: the tour cursor is never negative in a state the node can
    reach, and one event moves it by zero or one. *)
Theorem tour_cursor_moves_forward (c : Controller) :
  (reachable c -> 0 <= current_target_index c) /\
  (forall ev c',
     dispatch ev c = Ok c' ->
     current_target_index c' = current_target_index c
     \/ current_target_index c' = current_target_index c + 1).
Proof.
  split.
  - intro H. apply (reachable_tidy c H).
  - intros ev c' Hstep. pose proof (dispatch_effect ev c c' Hstep) as He.
    destruct ev as [pos | msg | status | msg | msg | h];
      try (destruct He as (_ & (_ & _ & _ & _ & _ & Hi & _) & _);
           left; exact Hi).
    + subst c'. left. reflexivity.
    + destruct He as (_ & _ & _ & Hi). exact Hi.
Qed.


(** The planning step when the zones are known and their update is
    found valid: the rest is [plan_path] on the updated zones. *)
Lemma path_planning_valid
    (c : Controller) (pos : Vec) (msg : MapMessage)
    (binary_dilated binary : Binary) (corners : Corners) (area : Q)
    (contours : Contours) :
  filter_map (get_map (map_data msg)) 14 = (binary_dilated, binary) ->
  get_bounding_rect binary = Some (corners, area, contours) ->
  initial_zones_found c = true ->
  are_new_zones_valid (get_zones_from_previous corners (zones c)) (zones c)
    = true ->
  exists d,
    path_planning pos msg c = plan_path pos binary_dilated d /\
    zones d = get_zones_from_previous corners (zones c) /\
    current_target_index d = current_target_index c /\
    is_saving d = is_saving c /\
    is_plotting d = is_plotting c /\
    SAVE_TIME_CONSTANT d = SAVE_TIME_CONSTANT c.
Proof.
  intros Hfilter Hrect Hfound Hvalid.
  unfold path_planning. rewrite Hfilter. cbv beta iota zeta. rewrite Hrect.
  cbv beta iota zeta.
  set (c1 := if TimerState_eqb _ _ then _ else c).
  set (c2 := if is_saving c1 || is_plotting c1 then _ else c1).
  assert (H1 : zones c1 = zones c /\
               initial_zones_found c1 = initial_zones_found c /\
               current_target_index c1 = current_target_index c /\
               is_saving c1 = is_saving c /\
               is_plotting c1 = is_plotting c /\
               SAVE_TIME_CONSTANT c1 = SAVE_TIME_CONSTANT c).
  { subst c1. destruct (TimerState_eqb _ _); repeat split. }
  assert (H2 : zones c2 = zones c /\
               initial_zones_found c2 = initial_zones_found c /\
               current_target_index c2 = current_target_index c /\
               is_saving c2 = is_saving c /\
               is_plotting c2 = is_plotting c /\
               SAVE_TIME_CONSTANT c2 = SAVE_TIME_CONSTANT c).
  { subst c2. destruct (_ || _); [|exact H1]. exact H1. }
  clearbody c2. clear H1. clearbody c1.
  destruct H2 as (Hz & Hf & Hi & Hsv & Hpl & Hrt).
  unfold find_initial_zones. rewrite Hf, Hfound. cbn [negb andb].
  rewrite Hf, Hfound, Hz, Hvalid.
  eexists. split; [reflexivity|]. cbn. rewrite Hi, Hsv, Hpl, Hrt.
  repeat split.
Qed.

Lemma travel_mode_planning
    (c : Controller) (msg : MapMessage) :
  rotation_timer_state c <> TIMER_STATE_ON_TRAVEL_MODE_END ->
  (index msg mod CONTROLLER_TIME_CONSTANT = 0
   \/ has_to_find_new_path c = true) ->
  let pos := pos_to_gridpos (x c) (y c) in
  travel_mode msg c =
    match path_planning pos msg (set_robot_pos (Some pos) c) with
    | Exc e => Raise e
    | Ret c => Ok c
    | Go c =>
        match save_figure pos msg c with
        | Exc e => Raise e
        | Ret c => Ok c
        | Go c => path_tracking pos c
        end
    end.
Proof.
  intros Hend Htick pos. unfold travel_mode. fold pos.
  change (rotation_timer_state (set_robot_pos (Some pos) c))
    with (rotation_timer_state c).
  change (has_to_find_new_path (set_robot_pos (Some pos) c))
    with (has_to_find_new_path c).
  apply TimerState_eqb_neq in Hend. rewrite Hend.
  replace ((index msg mod CONTROLLER_TIME_CONSTANT =? 0)
           || has_to_find_new_path c) with true; [reflexivity|].
  symmetry. apply orb_true_iff.
  destruct Htick as [H | H]; [left; apply Z.eqb_eq; exact H | right; exact H].
Qed.

(** X6: the tour has nine targets and the cursor does not wrap: with
    the cursor at 9 or more, the wait-finished status (4) of the kick-ass
    mode and a planning tick of the travel mode whose zone update is
    valid both end with IndexError at [TARGETS_TO_VISIT[...]]. *)
Theorem tour_ends_with_index_error
    (c : Controller) (msg : MapMessage)
    (binary_dilated binary : Binary) (corners : Corners) (area : Q)
    (contours : Contours) :
  9 <= current_target_index c ->
  (state c = KICK_ASS_MODE -> listener_arduino_status 4 c = Raise IndexError) /\
  (state c = TRAVEL_MODE ->
   rotation_timer_state c <> TIMER_STATE_ON_TRAVEL_MODE_END ->
   (index msg mod CONTROLLER_TIME_CONSTANT = 0
    \/ has_to_find_new_path c = true) ->
   filter_map (get_map (map_data msg)) 14 = (binary_dilated, binary) ->
   get_bounding_rect binary = Some (corners, area, contours) ->
   initial_zones_found c = true ->
   are_new_zones_valid (get_zones_from_previous corners (zones c)) (zones c)
     = true ->
   listener_callback_map msg c = Raise IndexError).
Proof.
  intro Hend. split.
  - intro Hs. unfold listener_arduino_status. rewrite Hs. cbn.
    rewrite (tour_has_nine_targets _ Hend). reflexivity.
  - intros Hs Htag Htick Hfilter Hrect Hfound Hvalid.
    unfold listener_callback_map. rewrite Hs.
    rewrite (travel_mode_planning c msg Htag Htick). cbv zeta.
    destruct (path_planning_valid
                (set_robot_pos (Some (pos_to_gridpos (x c) (y c))) c)
                (pos_to_gridpos (x c) (y c)) msg
                binary_dilated binary corners area contours
                Hfilter Hrect Hfound Hvalid)
      as (d & -> & _ & Hi & _).
    unfold plan_path. cbn.
    change (current_target_index
              (set_robot_pos (Some (pos_to_gridpos (x c) (y c))) c))
      with (current_target_index c) in Hi.
    rewrite Hi, (tour_has_nine_targets _ Hend). reflexivity.
Qed.

Lemma plan_path_without_path
    (d : Controller) (pos : Vec) (b : Binary) (t : Z) (g : Vec) :
  py_index TARGETS_TO_VISIT (current_target_index d) = Some t ->
  py_index (get_targets_from_zones (zones d)) t = Some g ->
  rrt_planning pos g b (get_random_area (zones d)) = None ->
  exists d',
    plan_path pos b d = Go d' /\
    path d' = NdScalarNone /\
    is_saving d' = is_saving d /\
    is_plotting d' = is_plotting d.
Proof.
  intros Ht Hg Hnone. unfold plan_path.
  change (current_target_index (set_targets _ d))
    with (current_target_index d).
  rewrite Ht.
  change (targets (set_targets (get_targets_from_zones (zones d)) d))
    with (get_targets_from_zones (zones d)).
  rewrite Hg. cbv zeta.
  change (zones (set_goal (Some g) (set_targets _ d))) with (zones d).
  rewrite Hnone. eexists. split; [reflexivity|]. repeat split.
Qed.

(** X14: when the planner returns [None], the path stored is
    [np.array(None)], a 0-d array: it is not [None], and the same tick
    ends with TypeError at [len(self.path)] (no debugging figure asked). *)
Theorem planner_without_path_raises
    (c : Controller) (msg : MapMessage)
    (binary_dilated binary : Binary) (corners : Corners) (area : Q)
    (contours : Contours) (t : Z) (g : Vec) :
  state c = TRAVEL_MODE ->
  rotation_timer_state c <> TIMER_STATE_ON_TRAVEL_MODE_END ->
  (index msg mod CONTROLLER_TIME_CONSTANT = 0
   \/ has_to_find_new_path c = true) ->
  is_saving c = false ->
  is_plotting c = false ->
  filter_map (get_map (map_data msg)) 14 = (binary_dilated, binary) ->
  get_bounding_rect binary = Some (corners, area, contours) ->
  initial_zones_found c = true ->
  let new_zones := get_zones_from_previous corners (zones c) in
  are_new_zones_valid new_zones (zones c) = true ->
  py_index TARGETS_TO_VISIT (current_target_index c) = Some t ->
  py_index (get_targets_from_zones new_zones) t = Some g ->
  rrt_planning (pos_to_gridpos (x c) (y c)) g binary_dilated
    (get_random_area new_zones) = None ->
  listener_callback_map msg c = Raise TypeError.
Proof.
  intros Hs Htag Htick Hsave Hplot Hfilter Hrect Hfound new_zones Hvalid
    Ht Hg Hnone.
  unfold listener_callback_map. rewrite Hs.
  rewrite (travel_mode_planning c msg Htag Htick). cbv zeta.
  set (pos := pos_to_gridpos (x c) (y c)) in *.
  destruct (path_planning_valid (set_robot_pos (Some pos) c) pos msg
              binary_dilated binary corners area contours
              Hfilter Hrect Hfound Hvalid)
    as (d & -> & Hz & Hi & Hsv & Hpl & _).
  change (get_zones_from_previous corners (zones c)) with new_zones in Hz.
  destruct (plan_path_without_path d pos binary_dilated t g)
    as (d' & -> & Hpath & Hsv' & Hpl').
  { rewrite Hi. exact Ht. }
  { rewrite Hz. exact Hg. }
  { rewrite Hz. exact Hnone. }
  unfold save_figure. rewrite Hsv', Hpl', Hsv, Hpl.
  change (is_saving (set_robot_pos (Some pos) c)) with (is_saving c).
  change (is_plotting (set_robot_pos (Some pos) c)) with (is_plotting c).
  rewrite Hsave, Hplot. cbn.
  unfold path_tracking. rewrite Hpath. reflexivity.
Qed.

(** X12: with plotting or saving on and a rate of 0, a travel tick that
    does not plan ends with ZeroDivisionError at
    [index % self.SAVE_TIME_CONSTANT]. *)
Theorem figure_rate_zero_raises (c : Controller) (msg : MapMessage) :
  state c = TRAVEL_MODE ->
  rotation_timer_state c <> TIMER_STATE_ON_TRAVEL_MODE_END ->
  index msg mod CONTROLLER_TIME_CONSTANT <> 0 ->
  has_to_find_new_path c = false ->
  is_saving c || is_plotting c = true ->
  SAVE_TIME_CONSTANT c = 0 ->
  listener_callback_map msg c = Raise ZeroDivisionError.
Proof.
  intros Hs Htag Hidx Hflag Hdebug Hrate.
  unfold listener_callback_map. rewrite Hs. unfold travel_mode. cbn.
  apply TimerState_eqb_neq in Htag. apply Z.eqb_neq in Hidx.
  rewrite Htag, Hidx, Hflag. cbn.
  unfold save_figure. cbn. rewrite Hdebug, Hrate. reflexivity.
Qed.

Lemma path_planning_oversize
    (c : Controller) (pos : Vec) (msg : MapMessage)
    (binary_dilated binary : Binary) (corners : Corners) (area : Q)
    (contours : Contours) :
  filter_map (get_map (map_data msg)) 14 = (binary_dilated, binary) ->
  get_bounding_rect binary = Some (corners, area, contours) ->
  initial_zones_found c = false ->
  (240000 < area)%Q ->
  path_planning pos msg c = Exc RuntimeError.
Proof.
  intros Hfilter Hrect Hfound Hbig.
  assert (Hthr : Qltb AREA_THRESHOLD area = true).
  { apply Qltb_lt. apply Qlt_trans with 240000%Q; [reflexivity | exact Hbig]. }
  apply Qltb_lt in Hbig.
  unfold path_planning. rewrite Hfilter. cbv beta iota zeta. rewrite Hrect.
  cbv beta iota zeta.
  set (c1 := if TimerState_eqb _ _ then _ else c).
  set (c2 := if is_saving c1 || is_plotting c1 then _ else c1).
  assert (H1 : initial_zones_found c1 = initial_zones_found c)
    by (subst c1; destruct (TimerState_eqb _ _); reflexivity).
  assert (H2 : initial_zones_found c2 = initial_zones_found c)
    by (subst c2; destruct (_ || _); exact H1).
  clearbody c2. unfold find_initial_zones.
  rewrite H2, Hfound, Hthr, Hbig. reflexivity.
Qed.

(** X13: a bounding rectangle of more than 240000 is fatal only while
    the initial zones are not found (RuntimeError).  Once they are, the
    same rectangle goes to the zone update, and an invalid update leads to
    RECOVERY_SLAM as usual. *)
Theorem oversize_area_is_fatal_before_zones
    (c : Controller) (msg : MapMessage)
    (binary_dilated binary : Binary) (corners : Corners) (area : Q)
    (contours : Contours) :
  state c = TRAVEL_MODE ->
  rotation_timer_state c <> TIMER_STATE_ON_TRAVEL_MODE_END ->
  (index msg mod CONTROLLER_TIME_CONSTANT = 0
   \/ has_to_find_new_path c = true) ->
  filter_map (get_map (map_data msg)) 14 = (binary_dilated, binary) ->
  get_bounding_rect binary = Some (corners, area, contours) ->
  (240000 < area)%Q ->
  (initial_zones_found c = false ->
   listener_callback_map msg c = Raise RuntimeError) /\
  (initial_zones_found c = true ->
   are_new_zones_valid (get_zones_from_previous corners (zones c)) (zones c)
     = false ->
   exists c',
     listener_callback_map msg c = Ok c' /\ state c' = RECOVERY_SLAM).
Proof.
  intros Hs Htag Htick Hfilter Hrect Hbig.
  unfold listener_callback_map. rewrite Hs.
  rewrite (travel_mode_planning c msg Htag Htick). cbv zeta.
  set (pos := pos_to_gridpos (x c) (y c)). split.
  - intro Hfound.
    rewrite (path_planning_oversize (set_robot_pos (Some pos) c) pos msg
               binary_dilated binary corners area contours
               Hfilter Hrect Hfound Hbig).
    reflexivity.
  - intros Hfound Hinvalid.
    destruct (path_planning_invalid (set_robot_pos (Some pos) c) pos msg
                binary_dilated binary corners area contours
                Hfilter Hrect (or_introl Hfound))
      as (c' & Hplan & _ & Hst & _).
    { cbn. rewrite Hfound. exact Hinvalid. }
    exists c'. rewrite Hplan. split; [reflexivity | exact Hst].
Qed.


Lemma py_index_In {A : Type} (l : list A) (i : Z) (a : A) :
  py_index l i = Some a -> In a l.
Proof.
  unfold py_index.
  destruct ((0 <=? i) && (i <? Z.of_nat (List.length l)));
    [apply nth_error_In|].
  destruct ((i <? 0) && (0 <=? i + Z.of_nat (List.length l)));
    [apply nth_error_In | discriminate].
Qed.

Lemma start_rotation_timer_frame (angle : Q) (st : TimerState)
    (c : Controller) :
  let c' := start_rotation_timer angle st c in
  current_target_index c' = current_target_index c /\
  n_random_search c' = n_random_search c /\
  bottles_picked c' = bottles_picked c /\
  is_traveling_forward c' = is_traveling_forward c /\
  path c' = path c.
Proof.
  unfold start_rotation_timer.
  destruct (TimerState_eqb (rotation_timer_state c) TIMER_STATE_OFF);
    simpl;
    destruct (TimerState_eqb (rotation_timer_state c)
                TIMER_STATE_ON_NO_ROTATION);
    simpl; repeat split; reflexivity.
Qed.

Lemma calm_start_rotation_timer_fields (angle : Q) (st : TimerState)
    (c : Controller) :
  let c' := start_rotation_timer angle st c in
  is_flipped c' = is_flipped c /\
  detectnet_state c' = detectnet_state c.
Proof.
  unfold start_rotation_timer.
  destruct (TimerState_eqb (rotation_timer_state c) TIMER_STATE_OFF);
    simpl;
    destruct (TimerState_eqb (rotation_timer_state c)
                TIMER_STATE_ON_NO_ROTATION);
    simpl; repeat split; reflexivity.
Qed.

(** X7: arrival.  With a path and a goal, the robot closer to the goal
    than the arrival radius of the target (12 for the recycling area, 25
    otherwise) and four zones known: the cursor advances by one, both
    counters are reset, the forward flag is cleared, the path becomes the
    empty list, and exactly one command is published, the turn command of
    the rotation that starts the next mode: BOTTLE_RELEASE_MODE for
    target 0, KICK_ASS_MODE for targets 5 and 6, and for the search zones
    the end-of-travel rotation, still in the state of the travel. *)
Theorem arrival_starts_the_next_mode
    (c : Controller) (pos g : Vec) (n : nat) (reached : Z) :
  path_len (path c) = Some (S n) ->
  goal c = Some g ->
  py_index TARGETS_TO_VISIT (current_target_index c) = Some reached ->
  (get_distance pos g <
   (if reached =? 0 then MIN_DIST_TO_RECYCLING else MIN_DIST_TO_GOAL))%Q ->
  List.length (zones c) = 4%nat ->
  rotation_timer_state c <> TIMER_STATE_ON_NO_ROTATION ->
  exists c' turn,
    path_tracking pos c = Ok c' /\
    current_target_index c' = current_target_index c + 1 /\
    n_random_search c' = 0 /\
    bottles_picked c' = 0 /\
    is_traveling_forward c' = false /\
    path c' = PyList [] /\
    published c' = published c ++ [(uart_commands, turn)] /\
    (turn = "d" \/ turn = "a")%string /\
    rotation_timer c' = Some (next_timer c) /\
    (state c', rotation_timer_state c') =
      (if reached =? 0
       then (BOTTLE_RELEASE_MODE, TIMER_STATE_ON_BOTTLE_RELEASE)
       else if (reached =? 5) || (reached =? 6)
       then (KICK_ASS_MODE, TIMER_STATE_ON_KICK_ASS_MODE)
       else (state c, TIMER_STATE_ON_TRAVEL_MODE_END)).
Proof.
  intros Hlen Hgoal Hreached Hdist Hzones Htag.
  apply Qltb_lt in Hdist.
  unfold path_tracking. rewrite Hlen, Hgoal, Hreached. cbn [Nat.eqb].
  rewrite Hdist. unfold goal_reached.
  set (d := set_path _ _).
  assert (Hzd : zones d = zones c) by reflexivity.
  assert (Htd : rotation_timer_state d <> TIMER_STATE_ON_NO_ROTATION)
    by exact Htag.
  assert (Hpairs : forall i j (e : Controller),
            zones e = zones c ->
            In i [0; 1; 2; 3] -> In j [0; 1; 2; 3] ->
            exists line, zone_pair i j e = Some line).
  { intros i j e He Hi Hj. unfold zone_pair. rewrite He.
    destruct (zones c) as [|z0 [|z1 [|z2 [|z3 [|z4 zs]]]]];
      try discriminate.
    simpl in Hi, Hj.
    repeat (destruct Hi as [<- | Hi]; [|]); try contradiction;
      repeat (destruct Hj as [<- | Hj]; [|]); try contradiction;
      eexists; reflexivity. }
  assert (Hstart : forall angle st (e : Controller),
            e = d \/ e = set_state BOTTLE_RELEASE_MODE d
            \/ e = set_state KICK_ASS_MODE d ->
            let c' := start_rotation_timer angle st e in
            exists turn,
              current_target_index c' = current_target_index c + 1 /\
              n_random_search c' = 0 /\
              bottles_picked c' = 0 /\
              is_traveling_forward c' = false /\
              path c' = PyList [] /\
              published c' = published c ++ [(uart_commands, turn)] /\
              (turn = "d" \/ turn = "a")%string /\
              rotation_timer c' = Some (next_timer c) /\
              state c' = state e /\ rotation_timer_state c' = st).
  { intros angle st e He c'.
    assert (Hte : rotation_timer_state e = rotation_timer_state c)
      by (destruct He as [-> | [-> | ->]]; reflexivity).
    destruct (start_rotation_timer_emits angle st e) as [Hp _].
    destruct (start_rotation_timer_records angle st e)
      as (Hst & _ & _ & Hh & _ & Hs & _).
    cbv zeta in Hp. rewrite Hte in Hp.
    apply TimerState_eqb_neq in Htag. rewrite Htag in Hp.
    exists (if Qltb 0 angle then "d" else "a")%string.
    destruct (start_rotation_timer_frame angle st e)
      as (F1 & F2 & F3 & F4 & F5).
    subst c'. rewrite Hp, Hh, Hs, Hst, F1, F2, F3, F4, F5.
    destruct He as [-> | [-> | ->]]; cbn -[Qltb];
      repeat split; destruct (Qltb 0 angle); auto. }
  apply py_index_In in Hreached. simpl in Hreached.
  repeat (destruct Hreached as [<- | Hreached]; [|]); try contradiction;
    cbn [existsb Z.eqb orb Pos.eqb].
  all: unfold start_bottle_release_mode, start_kick_ass_mode;
    cbn [Z.eqb Pos.eqb];
    match goal with
    | |- context [zone_pair ?i ?j ?e] =>
        destruct (Hpairs i j e) as [line Hline];
        [reflexivity | simpl; tauto | simpl; tauto | rewrite Hline]
    end;
    match goal with
    | |- context [start_rotation_timer ?a ?st ?e] =>
        destruct (Hstart a st e)
          as (turn & H1 & H2 & H3 & H4 & H5 & H6 & H7 & H8 & H9 & H10);
        [tauto|];
        eexists; exists turn; split; [reflexivity|];
        rewrite H9, H10; repeat split; assumption
    end.
Qed.


(** A dwell timer expiry in the first orientation: the camera is
    flipped and a second dwell timer replaces the first. *)
Lemma first_pass_ends (c : Controller) (h : nat) :
  is_flipped c = false ->
  wait_for_detectnet_timer c = Some h ->
  exists c1,
    flip_camera_and_reset_detectnet_timer c = Ok c1 /\
    is_flipped c1 = true /\
    published c1 = published c ++ [(flip_topic, "flip"%string)] /\
    wait_for_detectnet_timer c1 = Some (next_timer c) /\
    timers c1 =
      without_timer (Some h) (timers c) ++
        [mkTimer (next_timer c) detection_timer_callback_kind
           TIME_FOR_VISION_DETECTION] /\
    state c1 = state c /\
    detections c1 = detections c /\
    detectnet_state c1 = detectnet_state c.
Proof.
  intros Hflip Hwait. unfold flip_camera_and_reset_detectnet_timer.
  cbn. rewrite Hwait, Hflip. cbn.
  eexists. split; [reflexivity|]. cbn. repeat split.
Qed.

(** A dwell timer expiry in the second orientation: the camera is put
    back, the detector is turned off and a rotation is started. *)
Lemma second_pass_ends (c : Controller) (h : nat) (ds : list DetTuple) :
  is_flipped c = true ->
  wait_for_detectnet_timer c = Some h ->
  detections c = Some ds ->
  exists c2 rest,
    flip_camera_and_reset_detectnet_timer c = Ok c2 /\
    is_flipped c2 = false /\
    detectnet_state c2 = DETECTNET_OFF /\
    published c2 =
      published c ++
        (flip_topic, "normal"%string) :: (camera_control, "destroy"%string)
        :: rest /\
    state c2 = state c /\
    (rotation_asked c2, rotation_timer_state c2) =
      match ds with
      | [] => (Some DELTA_RANDOM_SEARCH,
               TIMER_STATE_ON_RANDOM_SEARCH_DELTA_ROTATION)
      | _ => (Some (get_angle_of_detection (get_best_detections ds)),
              TIMER_STATE_ON_RANDOM_SEARCH_BOTTLE_ALIGNMENT)
      end.
Proof.
  intros Hflip Hwait Hdet. unfold flip_camera_and_reset_detectnet_timer.
  cbn. rewrite Hwait, Hflip. cbn.
  unfold take_bottle_decision. cbn. rewrite Hdet.
  assert (Hgen : forall a st (e : Controller),
            is_flipped e = false ->
            detectnet_state e = DETECTNET_OFF ->
            state e = state c ->
            published e =
              (published c ++ [(flip_topic, "normal"%string)]) ++
                [(camera_control, "destroy"%string)] ->
            exists rest,
              is_flipped (start_rotation_timer a st e) = false /\
              detectnet_state (start_rotation_timer a st e) = DETECTNET_OFF /\
              published (start_rotation_timer a st e) =
                published c ++
                  (flip_topic, "normal"%string)
                  :: (camera_control, "destroy"%string) :: rest /\
              state (start_rotation_timer a st e) = state c /\
              (rotation_asked (start_rotation_timer a st e),
               rotation_timer_state (start_rotation_timer a st e))
                = (Some a, st)).
  { intros a st e H1 H2 H3 H4.
    destruct (start_rotation_timer_emits a st e) as [Hp _].
    destruct (start_rotation_timer_records a st e)
      as (Ht & Ha & _ & _ & _ & Hs & _).
    destruct (calm_start_rotation_timer_fields a st e) as (Hf & Hd).
    eexists. rewrite Hf, Hd, Hs, Ht, Ha, Hp, H1, H2, H3, H4.
    repeat split. rewrite <- !app_assoc. reflexivity. }
  destruct ds as [|d0 ds'];
    match goal with
    | |- context [Ok (start_rotation_timer ?a ?st ?e)] =>
        destruct (Hgen a st e) as (rest & H1 & H2 & H3 & H4 & H5);
        try reflexivity;
        exists (start_rotation_timer a st e), rest;
        repeat split; assumption
    end.
Qed.

(** X8: a dwell that starts with the camera not flipped scans two
    orientations.  The first expiry of the dwell timer publishes "flip"
    and starts a second dwell timer in place of the first; the second
    publishes "normal", turns the detector off and starts a rotation:
    the 40 degree fallback when nothing was detected, else the alignment
    on the best detection. *)
Theorem dwell_scans_two_orientations
    (c : Controller) (h : nat) (ds : list DetTuple) :
  is_flipped c = false ->
  wait_for_detectnet_timer c = Some h ->
  detections c = Some ds ->
  exists c1 c2 rest,
    detection_timer_callback c = Ok c1 /\
    is_flipped c1 = true /\
    published c1 = published c ++ [(flip_topic, "flip"%string)] /\
    dwell_timers c1 =
      filter is_dwell_timer (without_timer (Some h) (timers c)) ++
        [mkTimer (next_timer c) detection_timer_callback_kind
           TIME_FOR_VISION_DETECTION] /\
    state c1 = state c /\
    detection_timer_callback c1 = Ok c2 /\
    is_flipped c2 = false /\
    detectnet_state c2 = DETECTNET_OFF /\
    published c2 =
      published c1 ++
        (flip_topic, "normal"%string) :: (camera_control, "destroy"%string)
        :: rest /\
    state c2 = state c /\
    (rotation_asked c2, rotation_timer_state c2) =
      match ds with
      | [] => (Some DELTA_RANDOM_SEARCH,
               TIMER_STATE_ON_RANDOM_SEARCH_DELTA_ROTATION)
      | _ => (Some (get_angle_of_detection (get_best_detections ds)),
              TIMER_STATE_ON_RANDOM_SEARCH_BOTTLE_ALIGNMENT)
      end.
Proof.
  intros Hflip Hwait Hdet. unfold detection_timer_callback.
  destruct (first_pass_ends c h Hflip Hwait)
    as (c1 & Hcb1 & Hf1 & Hp1 & Hw1 & Ht1 & Hs1 & Hd1 & _).
  rewrite Hdet in Hd1.
  destruct (second_pass_ends c1 (next_timer c) ds Hf1 Hw1 Hd1)
    as (c2 & rest & Hcb2 & Hf2 & Ho2 & Hp2 & Hs2 & Hr2).
  exists c1, c2, rest.
  split; [exact Hcb1|]. split; [exact Hf1|]. split; [exact Hp1|].
  split.
  { unfold dwell_timers. rewrite Ht1, filter_app. reflexivity. }
  split; [exact Hs1|]. split; [exact Hcb2|]. split; [exact Hf2|].
  split; [exact Ho2|]. split; [exact Hp2|].
  split; [rewrite Hs2; exact Hs1 | exact Hr2].
Qed.


(** X9: a rotation of 39 degrees or less is not verified.  Whatever the
    headings (the stored one is not even read), the callback runs the
    follow-up of the tag: it does not publish "W", leaves [last_state]
    alone and does not enter RECOVERY_ROTATION. *)
Theorem small_rotation_is_not_verified (c : Controller) (asked : Q) :
  rotation_asked c = Some asked ->
  ~ (39 < Qabs asked)%Q ->
  exists c',
    rotation_timer_callback c = Ok c' /\
    last_state c' = last_state c /\
    (state c' = RECOVERY_ROTATION -> state c = RECOVERY_ROTATION) /\
    emits_only not_nudge (published c) (published c').
Proof.
  intros Hasked Hsmall. apply Qltb_nlt in Hsmall.
  unfold rotation_timer_callback.
  change (rotation_asked (destroy_timer (rotation_timer c) c))
    with (rotation_asked c).
  rewrite Hasked, Hsmall.
  change (rotation_timer_state (destroy_timer (rotation_timer c) c))
    with (rotation_timer_state c).
  destruct (rotation_timer_state c);
    (eexists; split; [reflexivity|]);
    unfold start_random_search_detection; cbn;
    try destruct ((n_random_search c + 1 =? N_RANDOM_SEARCH_MAX)
                  || (bottles_picked c =? MAX_BOTTLE_PICKED));
    cbn; repeat split; auto; try discriminate; emitted.
Qed.

(** X17: the retry of a failed rotation is verified like the first
    attempt, from the heading at the retry.  When the heading does not
    move again, the controller is back in RECOVERY_ROTATION with the same
    state, angle and tag put aside, and "W" published once more: nothing
    bounds the number of retries. *)
Theorem stalled_retry_enters_recovery_again
    (c : Controller) (st : MissionState) (asked : Q) :
  state c = RECOVERY_ROTATION ->
  last_state c = Some st ->
  rotation_asked c = Some asked ->
  (39 < Qabs asked)%Q ->
  (Qabs (angle_diff (theta c) (theta c)) < 5)%Q ->
  exists c1 c2,
    listener_arduino_status 1 c = Ok c1 /\
    state c1 = st /\
    rotation_timer_callback c1 = Ok c2 /\
    state c2 = RECOVERY_ROTATION /\
    last_state c2 = Some st /\
    rotation_asked c2 = Some asked /\
    rotation_timer_state c2 = rotation_timer_state c /\
    exists turn,
      published c2 = published c ++ turn ++ [(uart_commands, "W"%string)].
Proof.
  intros Hs Hl Ha Hbig Hsmall.
  rewrite (recovery_rotation_success c st asked Hs Hl Ha).
  set (c1 := start_rotation_timer asked (rotation_timer_state c)
               (set_state st c)).
  destruct (start_rotation_timer_records asked (rotation_timer_state c)
              (set_state st c))
    as (Ht & Hasked & Hlast & _ & _ & Hstate & _ & Htheta).
  destruct (start_rotation_timer_emits asked (rotation_timer_state c)
              (set_state st c)) as [Hp _].
  fold c1 in Ht, Hasked, Hlast, Hstate, Htheta, Hp.
  assert (Hcb : rotation_timer_callback c1 = Ok (after_failed_rotation c1)).
  { apply (rotation_timer_callback_failed c1 asked (theta c));
      try assumption.
    rewrite Htheta. exact Hsmall. }
  exists c1, (after_failed_rotation c1).
  split; [reflexivity|]. split; [exact Hstate|]. split; [exact Hcb|].
  split; [reflexivity|].
  split; [cbn; f_equal; exact Hstate|].
  split; [exact Hasked|]. split; [exact Ht|].
  eexists. cbn. rewrite Hp. cbn. rewrite <- app_assoc. reflexivity.
Qed.

(** X10: the node as built from the debugging flags.  [--reach] wins
    over [--search], which wins over [--travel]; the continuous rotation
    "r" is requested exactly when no flag is given; [--search] alone
    turns the detector on and starts a dwell timer; no rotation timer is
    live. *)
Theorem init_by_flags (a : Args) :
  state (init a) =
    (if arg_reach a then BOTTLE_REACHING_MODE
     else if arg_search a then RANDOM_SEARCH_MODE
     else if arg_travel a then TRAVEL_MODE
     else INITIAL_ROTATION_MODE) /\
  (In (uart_commands, "r"%string) (published (init a)) <->
   arg_travel a = false /\ arg_search a = false /\ arg_reach a = false) /\
  dwell_timers (init a) =
    (if arg_search a
     then [mkTimer 0 detection_timer_callback_kind TIME_FOR_VISION_DETECTION]
     else []) /\
  rotation_timers (init a) = [] /\
  detectnet_state (init a) =
    (if arg_search a then DETECTNET_ON else DETECTNET_OFF).
Proof.
  destruct a as [[] [] [] sv pl pr sr]; cbn;
    repeat split; auto; try discriminate;
    try (intros (H1 & H2 & H3); discriminate);
    try (intro H; repeat (destruct H as [H | H]; [discriminate|]);
         contradiction);
    match goal with
    | H : _ \/ _ |- _ =>
        exfalso; repeat (destruct H as [H | H]; [discriminate|]); exact H
    end.
Qed.

(** X11: an entry to the random search never cancels a timer, so dwell
    timers can pile up: the node launched with [--search --reach] has two
    live dwell timers after one status 0, and the controller holds the
    handle of the second only. *)
Theorem dwell_timers_pile_up :
  (forall (c : Controller) (t : Timer),
     In t (timers c) -> In t (timers (start_random_search_detection c))) /\
  exists c,
    reachable c /\
    dwell_timers c =
      [mkTimer 0 detection_timer_callback_kind TIME_FOR_VISION_DETECTION;
       mkTimer 1 detection_timer_callback_kind TIME_FOR_VISION_DETECTION] /\
    wait_for_detectnet_timer c = Some 1%nat.
Proof.
  split.
  - intros c t Hin. unfold start_random_search_detection. cbn.
    destruct ((n_random_search c + 1 =? N_RANDOM_SEARCH_MAX)
              || (bottles_picked c =? MAX_BOTTLE_PICKED)); cbn.
    + exact Hin.
    + apply in_or_app. left. exact Hin.
  - exists (start_random_search_detection
              (init (mkArgs false true true false false None None))).
    split.
    + apply (reachable_step
               (init (mkArgs false true true false false None None)) _
               (arduino_status_msg 0)).
      * apply reachable_init.
      * reflexivity.
    + split; reflexivity.
Qed.

(** X16: a lidar event never changes the mission state, the state put
    aside, the counters, the detector and camera flags, the detections,
    the pose or the navigation memory. *)
Theorem lidar_event_keeps_the_mission (msg : LidarData) (c : Controller) :
  keeps_mission c (lidar_callback msg c) /\
  keeps_pose c (lidar_callback msg c) /\
  keeps_navigation c (lidar_callback msg c).
Proof.
  destruct (calm_lidar msg c) as (Hp & Hn & _).
  split; [|split; [exact Hp | exact Hn]].
  unfold lidar_callback.
  destruct (lidar_returns_early c); [repeat split|].
  destruct (state c) eqn:Es; try (repeat split; reflexivity);
    try (destruct (is_traveling_forward c); [|repeat split; reflexivity]);
    destruct (check_obstacle_ahead _ _ _);
    try (repeat split; reflexivity; fail);
    try (unfold keeps_mission; cbn; rewrite Es; repeat split; fail).
  unfold keeps_mission, start_rotation_timer. rewrite Es.
  cbn -[Qltb].
  destruct (TimerState_eqb (rotation_timer_state c) TIMER_STATE_OFF);
    cbn -[Qltb];
    destruct (TimerState_eqb (rotation_timer_state c)
                TIMER_STATE_ON_NO_ROTATION);
    cbn -[Qltb]; rewrite ?Es; repeat split.
Qed.


(** X18: in every state the node can reach, a live rotation timer is
    the one [self.rotation_timer] holds and the stored tag is not OFF:
    [rotation_timer_callback] never runs with the timer state OFF. *)
Theorem rotation_timer_fires_with_a_tag (c : Controller) (t : Timer) :
  reachable c ->
  In t (timers c) ->
  timer_kind t = rotation_timer_callback_kind ->
  rotation_timer_state c <> TIMER_STATE_OFF /\
  rotation_timer c = Some (timer_id t) /\
  rotation_timers c = [t].
Proof.
  intros Hreach Hin Hkind.
  destruct (reachable_invariant c Hreach) as [[Hone Hoff] _].
  assert (Hlive : In t (rotation_timers c)).
  { apply filter_In. split; [exact Hin|].
    unfold is_rotation_timer. rewrite Hkind. reflexivity. }
  destruct Hone as [Hnil | (t' & Ht' & Hh)].
  - rewrite Hnil in Hlive. contradiction.
  - rewrite Ht' in Hlive. destruct Hlive as [<- | []].
    split; [|split; assumption].
    intro Htag. rewrite (Hoff Htag) in Ht'. discriminate.
Qed.

End MoreProperties.

(** ** The UART node *)

Lemma list_ascii_of_string_app (a b : string) :
  list_ascii_of_string (a ++ b)
    = list_ascii_of_string a ++ list_ascii_of_string b.
Proof.
  induction a as [|ch a IH]; [reflexivity|].
  simpl. rewrite IH. reflexivity.
Qed.

(** X15: the UART node writes the commands to the serial port in the
    order received and with nothing between them: after a list of
    commands the port holds the bytes of their concatenation, the logger
    has the commands and [i] has grown by their number. *)
Theorem uart_forwards_in_order (ms : list string) (s : UARTSender) :
  let s' := fold_left (fun s data => listener_callback data s) ms s in
  i s' = i s + Z.of_nat (List.length ms) /\
  logged s' = logged s ++ ms /\
  serial_port s' =
    serial_port s ++
      list_ascii_of_string (fold_right String.append EmptyString ms).
Proof.
  revert s. induction ms as [|m ms IH]; intro s.
  - simpl. rewrite Z.add_0_r, !app_nil_r. repeat split.
  - cbn [fold_left fold_right List.length].
    destruct (IH (listener_callback m s)) as (Hi & Hl & Hp).
    cbv zeta. rewrite Hi, Hl, Hp. cbn [i logged serial_port listener_callback].
    rewrite list_ascii_of_string_app, <- !app_assoc, Nat2Z.inj_succ.
    repeat split. lia.
Qed.

(** ** More concrete runs *)

(** X1 after a position message with a heading of 725: it is stored
    as 5. *)
Lemma heading_stays_in_range_witness :
  reachable turned /\
  theta turned == 5 /\
  (0 <= theta turned)%Q /\ (theta turned <= 360)%Q.
Proof.
  assert (H : reachable turned).
  { apply (reachable_step (init plain_args) turned
             (robot_pos_msg (mkPosition 2400 1200 725))).
    - apply reachable_init.
    - reflexivity. }
  split; [exact H|]. split; [reflexivity|].
  exact (proj1 (heading_stays_in_range turned) H).
Defined.

(** X2 on the fresh node: the request "r" of the continuous rotation. *)
Lemma published_commands_are_known_witness :
  reachable (@init quiet plain_args) /\
  In (uart_commands, "r"%string) (published (@init quiet plain_args)) /\
  allowed_message (uart_commands, "r"%string) = true.
Proof.
  assert (H1 : reachable (@init quiet plain_args)) by apply reachable_init.
  assert (H2 : In (uart_commands, "r"%string)
                 (published (@init quiet plain_args)))
    by (right; right; left; reflexivity).
  split; [exact H1|]. split; [exact H2|].
  exact (published_commands_are_known (@init quiet plain_args) _ H1 H2).
Defined.

(** X3 at the success status that ends the initial rotation. *)
Lemma navigation_is_written_by_the_map_callback_witness :
  dispatch (arduino_status_msg 1) (@init quiet plain_args)
    = Ok (traveling quiet) /\
  (forall msg : @MapMessage quiet,
     @arduino_status_msg quiet 1 <> world_map_msg msg) /\
  keeps_navigation (@init quiet plain_args) (traveling quiet).
Proof.
  assert (H1 : dispatch (arduino_status_msg 1) (@init quiet plain_args)
               = Ok (traveling quiet)) by reflexivity.
  assert (H2 : forall msg : @MapMessage quiet,
                 @arduino_status_msg quiet 1 <> world_map_msg msg)
    by (intros msg H; discriminate H).
  split; [exact H1|]. split; [exact H2|].
  exact (navigation_is_written_by_the_map_callback _ _ _ H1 H2).
Defined.

(** X4 on the fresh node: a request of -30 degrees publishes "a". *)
Lemma every_rotation_request_turns_witness :
  reachable (@init quiet plain_args) /\
  published (start_rotation_timer (-30) TIMER_STATE_ON_TRAVEL_MODE
               (@init quiet plain_args)) =
    published (@init quiet plain_args) ++ [(uart_commands, "a"%string)].
Proof.
  assert (H : reachable (@init quiet plain_args)) by apply reachable_init.
  split; [exact H|].
  exact (proj1 (proj2 (every_rotation_request_turns (@init quiet plain_args)
                         (-30)%Q TIMER_STATE_ON_TRAVEL_MODE H))).
Defined.

(** X5 on the fresh node. *)
Lemma tour_cursor_moves_forward_witness :
  reachable (@init quiet plain_args) /\
  0 <= current_target_index (@init quiet plain_args).
Proof.
  assert (H : reachable (@init quiet plain_args)) by apply reachable_init.
  split; [exact H|].
  exact (proj1 (tour_cursor_moves_forward (@init quiet plain_args)) H).
Defined.

(** X6 after the ninth target: the next planning ends with IndexError. *)
Lemma tour_ends_with_index_error_witness :
  9 <= current_target_index tour_done /\
  state tour_done = TRAVEL_MODE /\
  has_to_find_new_path tour_done = true /\
  initial_zones_found tour_done = true /\
  listener_callback_map (mkMapMessage 7 (tt : @MapData quiet)) tour_done
    = Raise IndexError.
Proof.
  assert (H1 : 9 <= current_target_index tour_done) by (cbn; lia).
  assert (H2 : state tour_done = TRAVEL_MODE) by reflexivity.
  assert (H3 : has_to_find_new_path tour_done = true) by reflexivity.
  assert (H4 : initial_zones_found tour_done = true) by reflexivity.
  repeat (split; [assumption|]).
  assert (Htag : rotation_timer_state tour_done
                 <> TIMER_STATE_ON_TRAVEL_MODE_END) by discriminate.
  exact (proj2 (@tour_ends_with_index_error quiet tour_done
                  (mkMapMessage 7 (tt : @MapData quiet))
                  tt tt tt 150000%Q tt H1)
           H2 Htag (or_intror H3) eq_refl eq_refl H4 eq_refl).
Defined.

(** X7 at the first target of the tour, a search zone. *)
Lemma arrival_starts_the_next_mode_witness :
  path_len (path arriving) = Some 3%nat /\
  goal arriving = Some [0; 0]%Q /\
  py_index TARGETS_TO_VISIT (current_target_index arriving) = Some 3 /\
  (@get_distance quiet [0; 0]%Q [0; 0]%Q < MIN_DIST_TO_GOAL)%Q /\
  List.length (zones arriving) = 4%nat /\
  rotation_timer_state arriving <> TIMER_STATE_ON_NO_ROTATION /\
  exists c' turn,
    path_tracking [0; 0]%Q arriving = Ok c' /\
    current_target_index c' = 1 /\
    path c' = PyList [] /\
    published c' = published arriving ++ [(uart_commands, turn)] /\
    state c' = TRAVEL_MODE /\
    rotation_timer_state c' = TIMER_STATE_ON_TRAVEL_MODE_END.
Proof.
  assert (H1 : path_len (path arriving) = Some 3%nat) by reflexivity.
  assert (H2 : goal arriving = Some [0; 0]%Q) by reflexivity.
  assert (H3 : py_index TARGETS_TO_VISIT (current_target_index arriving)
               = Some 3) by reflexivity.
  assert (H4 : (@get_distance quiet [0; 0]%Q [0; 0]%Q < MIN_DIST_TO_GOAL)%Q)
    by reflexivity.
  assert (H5 : List.length (zones arriving) = 4%nat) by reflexivity.
  assert (H6 : rotation_timer_state arriving <> TIMER_STATE_ON_NO_ROTATION)
    by discriminate.
  repeat (split; [assumption|]).
  destruct (arrival_starts_the_next_mode arriving [0; 0]%Q [0; 0]%Q 2 3
              H1 H2 H3 H4 H5 H6)
    as (c' & turn & Hrun & Hi & _ & _ & _ & Hp & Hpub & _ & _ & Hst).
  exists c', turn. split; [exact Hrun|]. split; [exact Hi|].
  split; [exact Hp|]. split; [exact Hpub|].
  cbn in Hst. inversion Hst. split; reflexivity.
Defined.

(** X8 on the node launched with [--search]. *)
Lemma dwell_scans_two_orientations_witness :
  is_flipped searching = false /\
  wait_for_detectnet_timer searching = Some 0%nat /\
  detections searching = Some [] /\
  exists c1 c2,
    detection_timer_callback searching = Ok c1 /\
    is_flipped c1 = true /\
    detection_timer_callback c1 = Ok c2 /\
    is_flipped c2 = false /\
    detectnet_state c2 = DETECTNET_OFF /\
    rotation_asked c2 = Some DELTA_RANDOM_SEARCH.
Proof.
  assert (H1 : is_flipped searching = false) by reflexivity.
  assert (H2 : wait_for_detectnet_timer searching = Some 0%nat)
    by reflexivity.
  assert (H3 : detections searching = Some []) by reflexivity.
  repeat (split; [assumption|]).
  destruct (dwell_scans_two_orientations searching 0%nat [] H1 H2 H3)
    as (c1 & c2 & rest & Hcb1 & Hf1 & _ & _ & _ & Hcb2 & Hf2 & Ho & _ & _ & Hr).
  exists c1, c2. repeat (split; [assumption|]).
  inversion Hr. reflexivity.
Defined.

(** X9 at an alignment of 20 degrees: no recovery, whatever the heading. *)
Lemma small_rotation_is_not_verified_witness :
  rotation_asked small_turn = Some 20%Q /\
  ~ (39 < Qabs 20)%Q /\
  exists c',
    rotation_timer_callback small_turn = Ok c' /\
    last_state c' = None.
Proof.
  assert (H1 : rotation_asked small_turn = Some 20%Q) by reflexivity.
  assert (H2 : ~ (39 < Qabs 20)%Q) by (intro H; discriminate H).
  split; [exact H1|]. split; [exact H2|].
  destruct (small_rotation_is_not_verified small_turn 20%Q H1 H2)
    as (c' & Hcb & Hl & _).
  exists c'. split; [exact Hcb | exact Hl].
Defined.

(** X17 at the stalled fallback rotation: the retry stalls as well. *)
Lemma stalled_retry_enters_recovery_again_witness :
  state stalled_once = RECOVERY_ROTATION /\
  last_state stalled_once = Some INITIAL_ROTATION_MODE /\
  rotation_asked stalled_once = Some 40%Q /\
  (39 < Qabs 40)%Q /\
  (Qabs (@angle_diff quiet (theta stalled_once) (theta stalled_once)) < 5)%Q /\
  exists c1 c2,
    listener_arduino_status 1 stalled_once = Ok c1 /\
    rotation_timer_callback c1 = Ok c2 /\
    state c2 = RECOVERY_ROTATION /\
    last_state c2 = Some INITIAL_ROTATION_MODE.
Proof.
  assert (H1 : state stalled_once = RECOVERY_ROTATION) by reflexivity.
  assert (H2 : last_state stalled_once = Some INITIAL_ROTATION_MODE)
    by reflexivity.
  assert (H3 : rotation_asked stalled_once = Some 40%Q) by reflexivity.
  assert (H4 : (39 < Qabs 40)%Q) by reflexivity.
  assert (H5 : (Qabs (@angle_diff quiet (theta stalled_once)
                        (theta stalled_once)) < 5)%Q) by reflexivity.
  repeat (split; [assumption|]).
  destruct (stalled_retry_enters_recovery_again stalled_once
              INITIAL_ROTATION_MODE 40%Q H1 H2 H3 H4 H5)
    as (c1 & c2 & Hs1 & _ & Hcb & Hs2 & Hl2 & _).
  exists c1, c2. repeat split; assumption.
Defined.

(** X12 on the node launched with [--travel --plot 0]. *)
Lemma figure_rate_zero_raises_witness :
  state plotting_at_rate_zero = TRAVEL_MODE /\
  is_plotting plotting_at_rate_zero = true /\
  SAVE_TIME_CONSTANT plotting_at_rate_zero = 0 /\
  listener_callback_map (mkMapMessage 7 (tt : @MapData quiet))
    plotting_at_rate_zero = Raise ZeroDivisionError.
Proof.
  assert (H1 : state plotting_at_rate_zero = TRAVEL_MODE) by reflexivity.
  assert (H2 : is_plotting plotting_at_rate_zero = true) by reflexivity.
  assert (H3 : SAVE_TIME_CONSTANT plotting_at_rate_zero = 0) by reflexivity.
  repeat (split; [assumption|]).
  apply figure_rate_zero_raises; try reflexivity; try discriminate.
Defined.

(** X13 on the first map of a travel, with a rectangle of 300000. *)
Lemma oversize_area_is_fatal_before_zones_witness :
  state (traveling oversized) = TRAVEL_MODE /\
  initial_zones_found (traveling oversized) = false /\
  (240000 < 300000)%Q /\
  listener_callback_map (mkMapMessage 0 (tt : @MapData oversized))
    (traveling oversized) = Raise RuntimeError.
Proof.
  assert (H1 : state (traveling oversized) = TRAVEL_MODE) by reflexivity.
  assert (H2 : initial_zones_found (traveling oversized) = false)
    by reflexivity.
  assert (H3 : (240000 < 300000)%Q) by reflexivity.
  repeat (split; [assumption|]).
  assert (Htag : rotation_timer_state (traveling oversized)
                 <> TIMER_STATE_ON_TRAVEL_MODE_END) by discriminate.
  exact (proj1 (@oversize_area_is_fatal_before_zones oversized
                  (traveling oversized)
                  (mkMapMessage 0 (tt : @MapData oversized))
                  tt tt tt 300000%Q tt H1 Htag (or_introl eq_refl)
                  eq_refl eq_refl H3) H2).
Defined.

(** X14 on a travel with known zones and a planner that finds no path. *)
Lemma planner_without_path_raises_witness :
  state (on_tour pathless) = TRAVEL_MODE /\
  initial_zones_found (on_tour pathless) = true /\
  @rrt_planning pathless [0; 0]%Q [0; 100]%Q tt tt = None /\
  listener_callback_map (mkMapMessage 0 (tt : @MapData pathless))
    (on_tour pathless) = Raise TypeError.
Proof.
  assert (H1 : state (on_tour pathless) = TRAVEL_MODE) by reflexivity.
  assert (H2 : initial_zones_found (on_tour pathless) = true) by reflexivity.
  assert (H3 : @rrt_planning pathless [0; 0]%Q [0; 100]%Q tt tt = None)
    by reflexivity.
  repeat (split; [assumption|]).
  assert (Htag : rotation_timer_state (on_tour pathless)
                 <> TIMER_STATE_ON_TRAVEL_MODE_END) by discriminate.
  exact (@planner_without_path_raises pathless (on_tour pathless)
           (mkMapMessage 0 (tt : @MapData pathless))
           tt tt tt 150000%Q tt 3 [0; 100]%Q
           H1 Htag (or_introl eq_refl) eq_refl eq_refl eq_refl eq_refl
           H2 eq_refl eq_refl eq_refl H3).
Defined.

(** X18 after a lidar obstacle in BOTTLE_REACHING_MODE: the fallback
    rotation is the one live rotation timer. *)
Lemma rotation_timer_fires_with_a_tag_witness :
  reachable (lidar_callback empty_scan reaching) /\
  In (mkTimer 0 rotation_timer_callback_kind (40 / 90))
    (timers (lidar_callback empty_scan reaching)) /\
  rotation_timer_state (lidar_callback empty_scan reaching)
    <> TIMER_STATE_OFF /\
  rotation_timer (lidar_callback empty_scan reaching) = Some 0%nat.
Proof.
  assert (H1 : reachable (lidar_callback empty_scan reaching)).
  { apply (reachable_step reaching _ (lidar_data_msg empty_scan)).
    - apply reachable_init.
    - reflexivity. }
  assert (H2 : In (mkTimer 0 rotation_timer_callback_kind (40 / 90))
                 (timers (lidar_callback empty_scan reaching)))
    by (left; reflexivity).
  split; [exact H1|]. split; [exact H2|].
  destruct (rotation_timer_fires_with_a_tag
              (lidar_callback empty_scan reaching) _ H1 H2 eq_refl)
    as (Htag & Hh & _).
  split; [exact Htag | exact Hh].
Defined.
